(** * FullSubNet, [src/common/trainer.py]: the [BaseTrainer] harness

    A shallow embedding of the training-loop harness: best-score tracking,
    the checkpoint files and their round trip, the cadence of the training
    loop, the assertions guarding the entry points and the constructor's
    reading of the configuration.

    Python integers are [Z], Python floats are the binary64 numbers of
    [PrimFloat], strings are [string], the configuration is a nested
    dictionary of [value]s, the checkpoint files are a finite map from POSIX
    paths to checkpoint records, and a raised exception is the [Raise] case
    of [result]. *)

From Stdlib Require Import ZArith Floats String Ascii DecimalString DecimalZ.
From stdpp Require Import gmap strings list.

Local Open Scope string_scope.
Local Open Scope Z_scope.

(** * Part I: the embedding *)

(** ** Python values and exceptions *)

Module Py.

(** The exceptions of a run: those the harness raises by itself, and the
    [ValueError] of joblib's worker pool. *)
Inductive exception : Type :=
| KeyError (key : string)
| TypeError
| AssertionError (message : string)
| ZeroDivisionError
| ValueError (message : string)
| FileNotFoundError (path : string).

(** The outcome of a call: a returned value or a raised exception. *)
Inductive result (A : Type) : Type :=
| Return (a : A)
| Raise (e : exception).
Arguments Return {A} a.
Arguments Raise {A} e.

Definition bind {A B : Type} (m : result A) (k : A -> result B) : result B :=
  match m with
  | Return a => k a
  | Raise e => Raise e
  end.

(** [assert cond, message] *)
Definition assert (cond : bool) (message : string) : result unit :=
  if cond then Return tt else Raise (AssertionError message).

Definition raises {A : Type} (m : result A) : Prop :=
  match m with
  | Return _ => False
  | Raise _ => True
  end.

(** [a % b] on integers: the sign of the result follows the divisor, as
    [Z.modulo] does, and a zero divisor raises. *)
Definition mod_ (a b : Z) : result Z :=
  if b =? 0 then Raise ZeroDivisionError else Return (a mod b).

(** Comparisons of floats: [a >= b] and [a <= b].  Both are [False] as
    soon as one side is [nan]. *)
Definition ge (a b : float) : bool := PrimFloat.leb b a.
Definition le (a b : float) : bool := PrimFloat.leb a b.

(** The entries of a configuration loaded from TOML: integers, booleans,
    strings and tables (dictionaries keyed by strings). *)
#[warnings="-register-all"]
Inductive value : Type :=
| VInt (z : Z)
| VBool (b : bool)
| VStr (s : string)
| VDict (items : gmap string value).

(** [v[key]]: a missing key raises [KeyError]; only dictionaries can be
    indexed by a string. *)
Definition getitem (v : value) (key : string) : result value :=
  match v with
  | VDict items =>
      match items !! key with
      | Some x => Return x
      | None => Raise (KeyError key)
      end
  | _ => Raise TypeError
  end.

(** The truth value of an object in a condition. *)
Definition truthy (v : value) : bool :=
  match v with
  | VInt z => negb (z =? 0)
  | VBool b => b
  | VStr s => negb (String.eqb s "")
  | VDict items => negb (bool_decide (items = ∅))
  end.

(** An object used as an integer operand: [bool] is a subclass of [int];
    strings and dictionaries raise [TypeError] in [+], [%] and [>=] against
    an integer. *)
Definition as_int (v : value) : result Z :=
  match v with
  | VInt z => Return z
  | VBool b => Return (Z.b2z b)
  | _ => Raise TypeError
  end.

(** [v != 0]: objects of other types are never equal to [0]. *)
Definition ne_zero (v : value) : bool :=
  match v with
  | VInt z => negb (z =? 0)
  | VBool b => b
  | _ => true
  end.

(** [str(n)] for an integer: decimal digits, ["-"] in front of a negative
    number, no leading zero. *)
Definition str (n : Z) : string := NilZero.string_of_int (Z.to_int n).

Fixpoint zeros (n : nat) : string :=
  match n with
  | O => ""
  | S k => String "0" (zeros k)
  end.

(** [s.zfill(width)]: pads with ["0"] on the left up to [width]
    characters, after the sign when [s] starts with one; a string of
    [width] characters or more is returned as it is. *)
Definition zfill (width : nat) (s : string) : string :=
  let fill := (width - String.length s)%nat in
  match s with
  | String c rest =>
      if (Ascii.eqb c "+" || Ascii.eqb c "-")%bool
      then String c (zeros fill +:+ rest)
      else zeros fill +:+ s
  | EmptyString => zeros fill
  end.

End Py.

Export Py.

(** Reading an integer back from its decimal rendering, padded or not. *)
Definition parse_int (s : string) : option Z :=
  option_map Z.of_int (NilZero.int_of_string s).

(** Reading a number from a run of decimal digits: a sign, or any other
    character, is refused. *)
Definition parse_digits (s : string) : option Z :=
  option_map Z.of_uint (NilEmpty.uint_of_string s).

Declare Scope py_scope.
Delimit Scope py_scope with py.
Notation "x <- m ;; k" := (Py.bind m (fun x => k))
  (at level 100, m at next level, right associativity) : py_scope.
Notation "m ;;; k" := (Py.bind m (fun _ => k))
  (at level 100, right associativity) : py_scope.
Local Open Scope py_scope.

(** ** The order of binary64 numbers *)

Module FloatOrder.

Definition is_nan (x : spec_float) : bool :=
  match x with
  | S754_nan => true
  | _ => false
  end.

(** The comparison of two finite numbers of one sign, read as an order. *)
Definition lex_le (e1 : Z) (m1 : positive) (e2 : Z) (m2 : positive) : Prop :=
  (e1 < e2)%Z \/ (e1 = e2 /\ (m1 <= m2)%positive).

(** [a <= b] holds in Python. *)
Definition fle (a b : float) : Prop := PrimFloat.leb a b = true.

Definition not_nan (a : float) : Prop := is_nan (Prim2SF a) = false.

(** The order in which [best_score] may move: upwards when the largest
    score is kept, downwards when the smallest is. *)
Definition no_worse (save_max_metric_score : bool) (old new : float) : Prop :=
  if save_max_metric_score then fle old new else fle new old.

End FloatOrder.

Export FloatOrder.

(** ** Paths

    [pathlib] is an external library.  Paths are kept in their POSIX
    rendering ([as_posix()]); the operations the harness calls are the
    fields of [PathLib], with the facts of [pathlib] on POSIX systems that
    the harness relies on: [absolute()] returns an absolute path and leaves
    one unchanged, [expanduser()] only rewrites a leading ["~"] and so
    leaves an absolute path unchanged, joining onto an absolute path yields
    an absolute path, and joining two distinct file names onto one
    directory yields two distinct paths. *)

Definition no_slash (s : string) : bool :=
  forallb (fun c => negb (Ascii.eqb c "/")) (list_ascii_of_string s).

(** A plain file name: one component of a path. *)
Definition is_filename (s : string) : bool :=
  (negb (String.eqb s "") && negb (String.eqb s ".") && no_slash s)%bool.

Class PathLib : Type := {
  Path : string -> string;
  expanduser : string -> string;
  absolute : string -> string;
  joinpath : string -> string -> string;
  is_absolute : string -> bool;
  absolute_is_absolute :
    forall p, is_absolute (absolute p) = true;
  absolute_of_absolute :
    forall p, is_absolute p = true -> absolute p = p;
  expanduser_of_absolute :
    forall p, is_absolute p = true -> expanduser p = p;
  joinpath_is_absolute :
    forall p name, is_absolute p = true -> is_absolute (joinpath p name) = true;
  joinpath_inj :
    forall p n1 n2, is_filename n1 = true -> is_filename n2 = true ->
      joinpath p n1 = joinpath p n2 -> n1 = n2
}.

Notation "p // name" := (joinpath p name) (at level 40, left associativity).

(** A concrete path library: paths as plain POSIX strings, with a fixed
    home and working directory, enough to run the harness on examples. *)

Module PosixPathsDef.

Definition starts_with_slash (p : string) : bool :=
  match p with
  | String c _ => Ascii.eqb c "/"
  | EmptyString => false
  end.

Definition expand (p : string) : string :=
  match p with
  | String c rest => if Ascii.eqb c "~" then "/home/user" +:+ rest else p
  | EmptyString => p
  end.

Definition make_absolute (p : string) : string :=
  if starts_with_slash p then p else "/work/" +:+ p.

Definition join (p name : string) : string :=
  if starts_with_slash name then name else p +:+ "/" +:+ name.

End PosixPathsDef.

(** ** The trainer *)

Section BaseTrainer.

Context {pathlib : PathLib}.

(** The state blobs of the optimizer and of the network
    ([state_dict()]), and the waveforms handed to the metrics, belong to
    the tensor runtime. *)
Context {optimizer_state model_state audio : Type}.

(** The network held by the trainer: the module itself, or the module
    wrapped in [torch.nn.DataParallel] when several GPUs are present. *)
Inductive nn_model : Type :=
| Module_ (params : model_state)
| DataParallel (module : model_state).

(** The dictionary [state_dict] built by [_save_checkpoint] and handed to
    [torch.save]. *)
Record checkpoint : Type := Checkpoint {
  ckpt_epoch : Z;
  ckpt_best_score : float;
  ckpt_optimizer : optimizer_state;
  ckpt_model : model_state
}.

(** The files written by [torch.save], by POSIX path. *)
Local Abbreviation files := (gmap string checkpoint).

(** The attributes of a [BaseTrainer] that the harness reads back.
    Attributes copied from the configuration keep the object found
    there. *)
Record BaseTrainer : Type := Trainer {
  optimizer : optimizer_state;
  model : nn_model;
  epochs : value;
  save_checkpoint_interval : value;
  clip_grad_norm_value : value;
  validation_interval : value;
  save_max_metric_score : value;
  start_epoch : Z;
  best_score : float;
  save_dir : string;
  checkpoints_dir : string;
  logs_dir : string
}.

Definition set_best_score (self : BaseTrainer) (score : float) : BaseTrainer :=
  Trainer (optimizer self) (model self) (epochs self)
    (save_checkpoint_interval self) (clip_grad_norm_value self)
    (validation_interval self) (save_max_metric_score self)
    (start_epoch self) score
    (save_dir self) (checkpoints_dir self) (logs_dir self).

Definition set_model (self : BaseTrainer) (m : nn_model) : BaseTrainer :=
  Trainer (optimizer self) m (epochs self)
    (save_checkpoint_interval self) (clip_grad_norm_value self)
    (validation_interval self) (save_max_metric_score self)
    (start_epoch self) (best_score self)
    (save_dir self) (checkpoints_dir self) (logs_dir self).

Definition set_optimizer (self : BaseTrainer) (o : optimizer_state) : BaseTrainer :=
  Trainer o (model self) (epochs self)
    (save_checkpoint_interval self) (clip_grad_norm_value self)
    (validation_interval self) (save_max_metric_score self)
    (start_epoch self) (best_score self)
    (save_dir self) (checkpoints_dir self) (logs_dir self).

Definition set_start_epoch (self : BaseTrainer) (e : Z) : BaseTrainer :=
  Trainer (optimizer self) (model self) (epochs self)
    (save_checkpoint_interval self) (clip_grad_norm_value self)
    (validation_interval self) (save_max_metric_score self)
    e (best_score self)
    (save_dir self) (checkpoints_dir self) (logs_dir self).

(** [torch.load]: the record stored at a path. *)
Definition torch_load (fs : files) (path : string) : result checkpoint :=
  match fs !! path with
  | Some c => Return c
  | None => Raise (FileNotFoundError path)
  end.

(** [torch.save]: creates the file or replaces its content. *)
Definition torch_save (state_dict : checkpoint) (path : string) (fs : files) : files :=
  <[path := state_dict]> fs.

(** [path.exists()] *)
Definition exists_ (fs : files) (path : string) : bool :=
  bool_decide (is_Some (fs !! path)).

(** [load_state_dict(state, strict=False)] keeps the entries of the
    module that the loaded state lacks; it belongs to the tensor
    runtime. *)
Variable load_state_dict_not_strict : model_state -> model_state -> model_state.

(** *** [_preload_model] *)
Definition _preload_model (self : BaseTrainer) (fs : files) (model_path : string)
  : result BaseTrainer :=
  let model_path := absolute (expanduser model_path) in
  assert (exists_ fs model_path)
    ("Preloaded *.tar file is not exist. please check path: " +:+ model_path) ;;;
  model_checkpoint <- torch_load fs model_path ;;
  match model self with
  | DataParallel module =>
      Return (set_model self
        (DataParallel (load_state_dict_not_strict module (ckpt_model model_checkpoint))))
  | Module_ params =>
      Return (set_model self
        (Module_ (load_state_dict_not_strict params (ckpt_model model_checkpoint))))
  end.

(** *** [_resume_checkpoint] *)
Definition _resume_checkpoint (self : BaseTrainer) (fs : files) : result BaseTrainer :=
  let latest_model_path :=
    absolute (expanduser (checkpoints_dir self)) // "latest_model.tar" in
  assert (exists_ fs latest_model_path)
    (latest_model_path +:+ " does not exist, can not load latest checkpoint.") ;;;
  checkpoint <- torch_load fs latest_model_path ;;
  let self := set_start_epoch self (ckpt_epoch checkpoint + 1) in
  let self := set_best_score self (ckpt_best_score checkpoint) in
  let self := set_optimizer self (ckpt_optimizer checkpoint) in
  match model self with
  | DataParallel _ => Return (set_model self (DataParallel (ckpt_model checkpoint)))
  | Module_ _ => Return (set_model self (Module_ (ckpt_model checkpoint)))
  end.

(** The file read by [_resume_checkpoint]. *)
Definition latest_model_path (self : BaseTrainer) : string :=
  absolute (expanduser (checkpoints_dir self)) // "latest_model.tar".

(** *** [_save_checkpoint] *)

(** The name of the per-epoch file, [f"model_{str(epoch).zfill(4)}.tar"]. *)
Definition epoch_file_name (epoch : Z) : string :=
  "model_" +:+ zfill 4 (str epoch) +:+ ".tar".

Definition _save_checkpoint (self : BaseTrainer) (fs : files) (epoch : Z)
    (is_best_epoch : bool) : files :=
  let state_dict :=
    Checkpoint epoch (best_score self) (optimizer self)
      match model self with
      | DataParallel module => module
      | Module_ params => params
      end in
  let fs := torch_save state_dict (checkpoints_dir self // "latest_model.tar") fs in
  let fs := torch_save state_dict (checkpoints_dir self // epoch_file_name epoch) fs in
  if is_best_epoch
  then torch_save state_dict (checkpoints_dir self // "best_model.tar") fs
  else fs.

(** The module's parameters, wrapped or not. *)
Definition module_state (m : nn_model) : model_state :=
  match m with
  | DataParallel module => module
  | Module_ params => params
  end.

(** The record built by [_save_checkpoint(epoch)]. *)
Definition state_dict_of (self : BaseTrainer) (epoch : Z) : checkpoint :=
  Checkpoint epoch (best_score self) (optimizer self) (module_state (model self)).

(** *** [_is_best_epoch]

    Returns the answer together with the trainer after the call. *)
Definition _is_best_epoch (self : BaseTrainer) (score : float)
    (save_max_metric_score : bool) : bool * BaseTrainer :=
  if (save_max_metric_score && Py.ge score (best_score self))%bool then
    (true, set_best_score self score)
  else if (negb save_max_metric_score && Py.le score (best_score self))%bool then
    (true, set_best_score self score)
  else
    (false, self).

(** The value given to [best_score] by the constructor. *)
Definition initial_best_score (save_max_metric_score : bool) : float :=
  if save_max_metric_score then neg_infinity else infinity.

(** A run of calls of [_is_best_epoch], one per score and each on the
    trainer left by the call before: what every call returned. *)
Fixpoint is_best_epoch_calls (self : BaseTrainer) (scores : list float)
    (save_max_metric_score : bool) : list (bool * BaseTrainer) :=
  match scores with
  | [] => []
  | score :: rest =>
      let r := _is_best_epoch self score save_max_metric_score in
      r :: is_best_epoch_calls (snd r) rest save_max_metric_score
  end.

(** The values taken by [best_score] along a run of calls: the one before
    the first call, then the one after each call. *)
Definition best_score_history (self : BaseTrainer) (scores : list float)
    (save_max_metric_score : bool) : list float :=
  best_score self ::
  map (fun r => best_score (snd r)) (is_best_epoch_calls self scores save_max_metric_score).

(** *** [metrics_visualization] *)

(** [util.metrics.REGISTERED_METRICS], [numpy.mean] and
    [util.acoustic_utils.transform_pesq_range] are defined outside this
    file. *)
Variable REGISTERED_METRICS : gmap string (audio -> audio -> float).
Variable np_mean : list float -> float.
Variable transform_pesq_range : float -> float.

(** One call of [writer.add_scalars(tag, {"Noisy": .., "Enhanced": ..}, epoch)]. *)
Record scalars : Type := Scalars {
  tag : string;
  Noisy : float;
  Enhanced : float;
  global_step : Z
}.

(** [Parallel(n_jobs=num_workers)(delayed(metric)(ref, est) for ref, est in
    zip(refs, ests))]: joblib refuses a pool of no worker with a
    [ValueError], before any task is run; with any other count (a
    negative one counts back from the number of processors) it returns
    the results in the order of the inputs. *)
Definition Parallel (n_jobs : Z) (metric : audio -> audio -> float)
    (refs ests : list audio) : result (list float) :=
  if n_jobs =? 0 then Raise (ValueError "n_jobs == 0 in Parallel has no meaning")
  else Return (map (fun pair => metric (fst pair) (snd pair)) (zip refs ests)).

(** The first loop: every requested name must be registered. *)
Fixpoint assert_registered (metrics_list : list string) : result unit :=
  match metrics_list with
  | [] => Return tt
  | i :: rest =>
      assert (bool_decide (i ∈ dom REGISTERED_METRICS))
        (i +:+ " is not registered metric, please check 'util.metrics'.") ;;;
      assert_registered rest
  end.

(** The second loop, on the pair [(stoi_mean, wb_pesq_mean)] and the
    scalars written so far.  After the first loop the lookup of a name in
    the registry cannot fail. *)
Fixpoint metrics_loop (noisy_list clean_list enhanced_list : list audio)
    (metrics_list : list string) (epoch num_workers : Z) (mark : string)
    (acc : float * float * list scalars) : result (float * float * list scalars) :=
  match metrics_list with
  | [] => Return acc
  | metric_name :: rest =>
      let '(stoi_mean, wb_pesq_mean, written) := acc in
      metric <- match REGISTERED_METRICS !! metric_name with
                | Some f => Return f
                | None => Raise (KeyError metric_name)
                end ;;
      score_on_noisy <- Parallel num_workers metric clean_list noisy_list ;;
      score_on_enhanced <- Parallel num_workers metric clean_list enhanced_list ;;
      let mean_score_on_noisy := np_mean score_on_noisy in
      let mean_score_on_enhanced := np_mean score_on_enhanced in
      let written :=
        (written ++ [Scalars (mark +:+ "_Validation/" +:+ metric_name)
                       mean_score_on_noisy mean_score_on_enhanced epoch])%list in
      let stoi_mean :=
        if String.eqb metric_name "STOI" then mean_score_on_enhanced else stoi_mean in
      let wb_pesq_mean :=
        if String.eqb metric_name "WB_PESQ"
        then transform_pesq_range mean_score_on_enhanced else wb_pesq_mean in
      metrics_loop noisy_list clean_list enhanced_list rest epoch num_workers mark
        (stoi_mean, wb_pesq_mean, written)
  end.

(** Returns the score and the scalars handed to the writer. *)
Definition metrics_visualization (noisy_list clean_list enhanced_list : list audio)
    (metrics_list : list string) (epoch num_workers : Z) (mark : string)
  : result (float * list scalars) :=
  assert (bool_decide ("STOI" ∈ metrics_list) && bool_decide ("WB_PESQ" ∈ metrics_list))
    "'STOI' and 'WB_PESQ' must be existence." ;;;
  assert_registered metrics_list ;;;
  r <- metrics_loop noisy_list clean_list enhanced_list metrics_list epoch num_workers
         mark (0%float, 0%float, []) ;;
  let '(stoi_mean, wb_pesq_mean, written) := r in
  Return (((stoi_mean + wb_pesq_mean) / 2)%float, written).

(** The mean of a metric over the pairs of a batch, taken one after the
    other. *)
Definition mean_score (metric : audio -> audio -> float) (refs ests : list audio) : float :=
  np_mean (map (fun pair => metric (fst pair) (snd pair)) (zip refs ests)).

(** What is handed to the writer for one requested metric. *)
Definition logged (noisy_list clean_list enhanced_list : list audio) (epoch : Z)
    (mark : string) (metric_name : string) : option scalars :=
  (fun metric =>
     Scalars (mark +:+ "_Validation/" +:+ metric_name)
       (mean_score metric clean_list noisy_list)
       (mean_score metric clean_list enhanced_list) epoch)
  <$> REGISTERED_METRICS !! metric_name.

Definition registered (metrics_list : list string) : Prop :=
  forall i : string, i ∈ metrics_list -> is_Some (REGISTERED_METRICS !! i).

(** *** [train] *)

(** [_train_epoch] and [_validation_epoch] are supplied by the subclass
    (the base class raises [NotImplementedError]): one updates the
    network and the optimizer, the other scores the network. *)
Variable _train_epoch : Z -> nn_model -> optimizer_state -> nn_model * optimizer_state.
Variable _validation_epoch : Z -> nn_model -> float.

(** The calls made by [train], in order. *)
Inductive call : Type :=
| call_train_epoch (epoch : Z)
| call_save_checkpoint (epoch : Z) (is_best_epoch : bool)
| call_validation_epoch (epoch : Z)
| call_is_best_epoch (epoch : Z) (score : float) (answer : bool).

(** [self.save_checkpoint_interval != 0 and (epoch % self.save_checkpoint_interval == 0)]:
    [and] evaluates its right operand only when the left one is true. *)
Definition periodic_checkpoint_due (self : BaseTrainer) (epoch : Z) : result bool :=
  if ne_zero (save_checkpoint_interval self) then
    interval <- as_int (save_checkpoint_interval self) ;;
    r <- mod_ epoch interval ;;
    Return (r =? 0)
  else Return false.

(** [epoch % self.validation_interval == 0] *)
Definition validation_due (self : BaseTrainer) (epoch : Z) : result bool :=
  interval <- as_int (validation_interval self) ;;
  r <- mod_ epoch interval ;;
  Return (r =? 0).

(** The body of the loop for one epoch: the trainer and the files after
    it, and the calls it made. *)
Definition train_body (epoch : Z) (self : BaseTrainer) (fs : files)
  : result (BaseTrainer * files * list call) :=
  let '(m, o) := _train_epoch epoch (model self) (optimizer self) in
  let self := set_optimizer (set_model self m) o in
  let calls := [call_train_epoch epoch] in
  periodic <- periodic_checkpoint_due self epoch ;;
  let '(fs, calls) :=
    if periodic
    then (_save_checkpoint self fs epoch false,
          (calls ++ [call_save_checkpoint epoch false])%list)
    else (fs, calls) in
  validate <- validation_due self epoch ;;
  if validate then
    let metric_score := _validation_epoch epoch (model self) in
    let calls := (calls ++ [call_validation_epoch epoch])%list in
    let '(is_best, self) :=
      _is_best_epoch self metric_score (truthy (save_max_metric_score self)) in
    let calls := (calls ++ [call_is_best_epoch epoch metric_score is_best])%list in
    if is_best
    then Return (self, _save_checkpoint self fs epoch true,
                 (calls ++ [call_save_checkpoint epoch true])%list)
    else Return (self, fs, calls)
  else Return (self, fs, calls).

Fixpoint train_loop (epoch_range : list Z) (self : BaseTrainer) (fs : files)
  : result (BaseTrainer * files * list call) :=
  match epoch_range with
  | [] => Return (self, fs, [])
  | epoch :: rest =>
      r <- train_body epoch self fs ;;
      let '(self, fs, calls) := r in
      r' <- train_loop rest self fs ;;
      let '(self, fs, calls') := r' in
      Return (self, fs, (calls ++ calls')%list)
  end.

(** [range(start, stop)] *)
Definition range (start stop : Z) : list Z := seqZ start (stop - start).

Definition train (self : BaseTrainer) (fs : files)
  : result (BaseTrainer * files * list call) :=
  last_epoch <- as_int (epochs self) ;;
  train_loop (range (start_epoch self) (last_epoch + 1)) self fs.

(** The calls of one epoch, in order: the training step, the periodic
    checkpoint when due, and when validation is due the validation step,
    the best-epoch check and, on a best score, the best checkpoint. *)
Definition epoch_calls (epoch : Z) (periodic validate : bool) (score : float)
    (answer : bool) : list call :=
  [call_train_epoch epoch]
  ++ (if periodic then [call_save_checkpoint epoch false] else [])
  ++ (if validate
      then [call_validation_epoch epoch; call_is_best_epoch epoch score answer]
           ++ (if answer then [call_save_checkpoint epoch true] else [])
      else []).

(** One epoch's calls under a checkpoint interval [ci] and a validation
    interval [vi]. *)
Definition epoch_segment (ci vi : Z) (epoch : Z) (segment : list call) : Prop :=
  exists (periodic validate : bool) (score : float) (answer : bool),
    segment = epoch_calls epoch periodic validate score answer /\
    (periodic = true <-> ci <> 0 /\ (ci | epoch)) /\
    (validate = true <-> (vi | epoch)).

(** What the cadence says of one epoch under a checkpoint interval [ci]
    and a validation interval [vi], from the trainer and the files before
    it to those after it; the loop of the source is [train_body], and the
    two are compared in [train_cadence].  The training step gives the
    network and the optimizer.
    The checkpoint of the epoch is saved exactly when [ci] is not 0 and
    divides the epoch.  Validation is run exactly when [vi] divides the
    epoch: its score goes to the best-epoch check, and on a best score
    the best checkpoint is saved, from the trainer that holds this
    score. *)
Definition epoch_effect (ci vi : Z) (epoch : Z) (before after : BaseTrainer * files)
    (segment : list call) : Prop :=
  let trained := _train_epoch epoch (model (fst before)) (optimizer (fst before)) in
  let self1 := set_optimizer (set_model (fst before) (fst trained)) (snd trained) in
  let score := _validation_epoch epoch (model self1) in
  let checked := _is_best_epoch self1 score (truthy (save_max_metric_score self1)) in
  exists periodic validate : bool,
    (periodic = true <-> ci <> 0 /\ (ci | epoch)) /\
    (validate = true <-> (vi | epoch)) /\
    segment = epoch_calls epoch periodic validate score (fst checked) /\
    let fs1 :=
      if periodic then _save_checkpoint self1 (snd before) epoch false else snd before in
    after = (if validate then snd checked else self1,
             if (validate && fst checked)%bool
             then _save_checkpoint (snd checked) fs1 epoch true else fs1).

(** A run over a list of epochs: each epoch starts from the trainer and
    the files the one before has left. *)
Inductive epochs_effect (ci vi : Z) :
  list Z -> BaseTrainer * files -> BaseTrainer * files -> list call -> Prop :=
| epochs_effect_nil (state : BaseTrainer * files) : epochs_effect ci vi [] state state []
| epochs_effect_cons (epoch : Z) (rest : list Z) (state state1 state2 : BaseTrainer * files)
    (segment calls : list call) :
    epoch_effect ci vi epoch state state1 segment ->
    epochs_effect ci vi rest state1 state2 calls ->
    epochs_effect ci vi (epoch :: rest) state state2 (segment ++ calls).

(** The file of epoch [e] under [dir] holds a checkpoint of that epoch. *)
Definition epoch_saved (dir : string) (fs : files) (e : Z) : Prop :=
  exists c : checkpoint, fs !! (dir // epoch_file_name e) = Some c /\ ckpt_epoch c = e.

(** The attributes read by the loop. *)
Definition same_schedule (self self' : BaseTrainer) : Prop :=
  epochs self' = epochs self /\
  save_checkpoint_interval self' = save_checkpoint_interval self /\
  validation_interval self' = validation_interval self /\
  save_max_metric_score self' = save_max_metric_score self.

(** *** [__init__] *)

(** [util.utils.prepare_empty_dir] is defined outside this file; it may
    raise, and may change what is on disk. *)
Variable prepare_empty_dir : list string -> bool -> files -> result files.

(** [Path(v)]: only a string (or a path) can be made a path. *)
Definition Path_of (v : value) : result string :=
  match v with
  | VStr s => Return (Path s)
  | _ => Raise TypeError
  end.

(** [p / v] for a path [p]. *)
Definition truediv (p : string) (v : value) : result string :=
  match v with
  | VStr s => Return (p // s)
  | _ => Raise TypeError
  end.

(** The constructor up to the creation of the writer: every attribute is
    set from the configuration and the directories are prepared.
    [device_count] is what [torch.cuda.device_count()] returns.  The
    calls into the tensor runtime, librosa and the writer are left out;
    the reads of the configuration they take as arguments are kept, in
    the order of the source. *)
Definition init_attributes (device_count : Z) (config : value) (resume : bool)
    (model : model_state) (optimizer : optimizer_state) (fs : files)
  : result (BaseTrainer * files) :=
  meta <- getitem config "meta" ;;
  _ <- getitem meta "keep_reproducibility" ;;
  let model := if 1 <? device_count then DataParallel model else Module_ model in
  meta <- getitem config "meta" ;;
  use_amp <- getitem meta "use_amp" ;;
  acoustic_config <- getitem config "acoustic" ;;
  n_fft <- getitem acoustic_config "n_fft" ;;
  hop_length <- getitem acoustic_config "hop_length" ;;
  win_length <- getitem acoustic_config "win_length" ;;
  trainer <- getitem config "trainer" ;;
  train_config <- getitem trainer "train" ;;
  epochs <- getitem train_config "epochs" ;;
  save_checkpoint_interval <- getitem train_config "save_checkpoint_interval" ;;
  clip_grad_norm_value <- getitem train_config "clip_grad_norm_value" ;;
  trainer <- getitem config "trainer" ;;
  validation_config <- getitem trainer "validation" ;;
  validation_interval <- getitem validation_config "validation_interval" ;;
  save_max_metric_score <- getitem validation_config "save_max_metric_score" ;;
  interval <- as_int validation_interval ;;
  assert (1 <=? interval) "" ;;;
  trainer <- getitem config "trainer" ;;
  visualization_config <- getitem trainer "visualization" ;;
  let start_epoch := 1 in
  let best_score := initial_best_score (truthy save_max_metric_score) in
  meta <- getitem config "meta" ;;
  v <- getitem meta "save_dir" ;;
  p <- Path_of v ;;
  meta <- getitem config "meta" ;;
  experiment_name <- getitem meta "experiment_name" ;;
  save_dir <- truediv (absolute (expanduser p)) experiment_name ;;
  let checkpoints_dir := save_dir // "checkpoints" in
  let logs_dir := save_dir // "logs" in
  fs <- prepare_empty_dir [checkpoints_dir; logs_dir] resume fs ;;
  Return (Trainer optimizer model epochs save_checkpoint_interval
            clip_grad_norm_value validation_interval save_max_metric_score
            start_epoch best_score save_dir checkpoints_dir logs_dir,
          fs).

(** The constructor: the attributes, then the resumption from the latest
    checkpoint and the preloading of a model.  The printing of the
    configuration and of the size of the network, and the copy of the
    configuration written next to the checkpoints, are left out. *)
Definition __init__ (device_count : Z) (config : value) (resume : bool)
    (model : model_state) (optimizer : optimizer_state) (fs : files)
  : result (BaseTrainer * files) :=
  r <- init_attributes device_count config resume model optimizer fs ;;
  let '(self, fs) := r in
  self <- (if resume then _resume_checkpoint self fs else Return self) ;;
  meta <- getitem config "meta" ;;
  preloaded_model_path <- getitem meta "preloaded_model_path" ;;
  self <- (if truthy preloaded_model_path then
             v <- getitem config "preloaded_model_path" ;;
             model_path <- Path_of v ;;
             _preload_model self fs model_path
           else Return self) ;;
  Return (self, fs).

End BaseTrainer.

(** ** Data for the examples *)

(** A registry with the four names of [util.metrics], on waveforms of one
    sample each. *)
Definition example_metrics : gmap string (float -> float -> float) :=
  {[ "SI_SDR" := fun ref est => (ref - est)%float;
     "STOI" := fun ref est => (ref * est)%float;
     "WB_PESQ" := fun ref est => (ref + est)%float;
     "NB_PESQ" := fun ref est => (ref + est + est)%float ]}.

Definition example_mean (scores : list float) : float :=
  (foldr PrimFloat.add 0 scores
   / PrimFloat.of_uint63 (Uint63.of_Z (Z.of_nat (length scores))))%float.

Definition example_transform_pesq_range (pesq_score : float) : float :=
  ((pesq_score + 0.5) / 5)%float.

(** A subclass for the examples: training adds one to the optimizer
    state, validation scores epoch [e] with [e] itself. *)
Definition example_train_epoch (epoch : Z) (m : @nn_model Z) (o : Z) : @nn_model Z * Z :=
  (m, o + 1).

Definition example_validation_epoch (epoch : Z) (m : @nn_model Z) : float :=
  PrimFloat.of_uint63 (Uint63.of_Z epoch).

Definition example_trainer (save_checkpoint_interval validation_interval : Z)
  : @BaseTrainer Z Z :=
  Trainer 0 (Module_ 22) (VInt 4) (VInt save_checkpoint_interval) (VInt 10)
    (VInt validation_interval) (VBool true) 1 neg_infinity
    "/exp" "/exp/checkpoints" "/exp/logs".

(** Configurations for the examples: a complete one, whose table
    ["meta"] names a model to preload while the top level has no
    ["preloaded_model_path"]. *)
Definition example_meta : value :=
  VDict {[
    "keep_reproducibility" := VBool false;
    "use_amp" := VBool false;
    "save_dir" := VStr "~/experiments";
    "experiment_name" := VStr "fullsubnet";
    "preloaded_model_path" := VStr "pretrained.tar" ]}.

Definition example_items (validation_interval : Z) : gmap string value :=
  {[
    "meta" := example_meta;
    "acoustic" := VDict {[
      "n_fft" := VInt 512; "hop_length" := VInt 256; "win_length" := VInt 512 ]};
    "trainer" := VDict {[
      "train" := VDict {[
        "epochs" := VInt 100;
        "save_checkpoint_interval" := VInt 10;
        "clip_grad_norm_value" := VInt 10 ]};
      "validation" := VDict {[
        "validation_interval" := VInt validation_interval;
        "save_max_metric_score" := VBool true ]};
      "visualization" := VDict ∅ ]} ]}.

Definition example_config (validation_interval : Z) : value :=
  VDict (example_items validation_interval).

Definition example_prepare_empty_dir (dirs : list string) (resume : bool)
    (fs : gmap string (@checkpoint Z Z)) : result (gmap string (@checkpoint Z Z)) :=
  Return fs.

Definition example_load_state_dict_not_strict (current loaded : Z) : Z := loaded.

(** The tables of [example_items], and a configuration that preloads
    nothing. *)
Definition example_acoustic : value :=
  VDict {[ "n_fft" := VInt 512; "hop_length" := VInt 256; "win_length" := VInt 512 ]}.

Definition example_train_table : value :=
  VDict {[
    "epochs" := VInt 100;
    "save_checkpoint_interval" := VInt 10;
    "clip_grad_norm_value" := VInt 10 ]}.

Definition example_validation_table (validation_interval : Z) : value :=
  VDict {[
    "validation_interval" := VInt validation_interval;
    "save_max_metric_score" := VBool true ]}.

Definition example_trainer_table (validation_interval : Z) : value :=
  VDict {[
    "train" := example_train_table;
    "validation" := example_validation_table validation_interval;
    "visualization" := VDict ∅ ]}.

Definition example_items_fresh : gmap string value :=
  <["meta" := VDict {[
      "keep_reproducibility" := VBool false;
      "use_amp" := VBool false;
      "save_dir" := VStr "~/experiments";
      "experiment_name" := VStr "fullsubnet";
      "preloaded_model_path" := VStr "" ]}]> (example_items 5).

(** [example_items] with the top-level entry that the constructor reads. *)
Definition example_items_preload : gmap string value :=
  <["preloaded_model_path" := VStr "pretrained.tar"]> (example_items 5).

Definition example_files : gmap string (@checkpoint Z Z) :=
  {[ "/home/user/experiments/fullsubnet/checkpoints/latest_model.tar"
       := Checkpoint 7 0.5%float 11 22;
     "/work/pretrained.tar" := Checkpoint 90 0.75%float 6 41 ]}.

(** ** Vocabulary of the further properties *)

(** The epoch of the last checkpoint saved among some calls. *)
Fixpoint last_saved_epoch (calls : list call) : option Z :=
  match calls with
  | [] => None
  | c :: rest =>
      match last_saved_epoch rest with
      | Some e => Some e
      | None =>
          match c with
          | call_save_checkpoint e _ => Some e
          | _ => None
          end
      end
  end.

(** The epoch of the last best checkpoint saved among some calls. *)
Fixpoint last_best_epoch (calls : list call) : option Z :=
  match calls with
  | [] => None
  | c :: rest =>
      match last_best_epoch rest with
      | Some e => Some e
      | None =>
          match c with
          | call_save_checkpoint e true => Some e
          | _ => None
          end
      end
  end.

Section FurtherVocabulary.

Context {pathlib : PathLib}.
Context {optimizer_state model_state : Type}.

(** The attributes that place a trainer: where it starts and where it
    writes. *)
Definition same_place (self self' : @BaseTrainer optimizer_state model_state) : Prop :=
  start_epoch self' = start_epoch self /\
  save_dir self' = save_dir self /\
  checkpoints_dir self' = checkpoints_dir self /\
  logs_dir self' = logs_dir self.


(** Both networks are bare modules, or both are wrapped. *)
Definition same_wrapper (m m' : @nn_model model_state) : Prop :=
  match m, m' with
  | Module_ _, Module_ _ => True
  | DataParallel _, DataParallel _ => True
  | _, _ => False
  end.

(** The paths a run over [epoch_range] may write, under [dir]. *)
Definition checkpoint_file (dir : string) (epoch_range : list Z) (p : string) : Prop :=
  p = dir // "latest_model.tar" \/ p = dir // "best_model.tar" \/
  exists e : Z, e ∈ epoch_range /\ p = dir // epoch_file_name e.

End FurtherVocabulary.

(** A table of the configuration with the given entries. *)
Definition table_with (v : value) (entries : list (string * value)) : Prop :=
  exists items : gmap string value,
    v = VDict items /\
    forall k x, (k, x) ∈ entries -> items !! k = Some x.

(** * Part II: properties *)

(** ** Facts on the order of binary64 numbers

    [PrimFloat.leb] is specified by [SFleb] on the decoded number
    ([leb_spec]); the facts are proved there and carried over. *)

Module FloatOrderFacts.
Import FloatOrder.

Lemma SFleb_not_nan (x y : spec_float) :
  SFleb x y = true -> is_nan x = false /\ is_nan y = false.
Proof.
  unfold SFleb; destruct x, y; simpl; auto; discriminate.
Qed.

Lemma SFleb_refl (x : spec_float) : is_nan x = false -> SFleb x x = true.
Proof.
  unfold SFleb; destruct x as [s|s| |s m e]; simpl; try discriminate; intros _.
  - reflexivity.
  - destruct s; reflexivity.
  - destruct s; rewrite Z.compare_refl;
      change (Pos.compare_cont Eq m m) with (Pos.compare m m);
      rewrite Pos.compare_refl; reflexivity.
Qed.

Lemma lex_le_trans e1 m1 e2 m2 e3 m3 :
  lex_le e1 m1 e2 m2 -> lex_le e2 m2 e3 m3 -> lex_le e1 m1 e3 m3.
Proof. unfold lex_le; lia. Qed.

Lemma lex_pos (e1 e2 : Z) (m1 m2 : positive) :
  match
    match (e1 ?= e2)%Z with
    | Lt => Lt
    | Gt => Gt
    | Eq => Pos.compare_cont Eq m1 m2
    end
  with
  | Lt | Eq => true
  | Gt => false
  end = true <-> lex_le e1 m1 e2 m2.
Proof.
  unfold lex_le.
  change (Pos.compare_cont Eq m1 m2) with (Pos.compare m1 m2).
  destruct (Z.compare_spec e1 e2); destruct (Pos.compare_spec m1 m2);
    split; intros; try reflexivity; try discriminate; lia.
Qed.

Lemma lex_neg (e1 e2 : Z) (m1 m2 : positive) :
  match
    match (e1 ?= e2)%Z with
    | Lt => Gt
    | Gt => Lt
    | Eq => CompOpp (Pos.compare_cont Eq m1 m2)
    end
  with
  | Lt | Eq => true
  | Gt => false
  end = true <-> lex_le e2 m2 e1 m1.
Proof.
  unfold lex_le.
  change (Pos.compare_cont Eq m1 m2) with (Pos.compare m1 m2).
  destruct (Z.compare_spec e1 e2); destruct (Pos.compare_spec m1 m2);
    simpl; split; intros; try reflexivity; try discriminate; lia.
Qed.

Lemma SFleb_trans (x y z : spec_float) :
  SFleb x y = true -> SFleb y z = true -> SFleb x z = true.
Proof.
  unfold SFleb.
  destruct x as [sx|sx| |sx mx ex], y as [sy|sy| |sy my ey],
           z as [sz|sz| |sz mz ez];
    simpl; try discriminate; try reflexivity;
    try (destruct sx, sy, sz; simpl; (reflexivity || discriminate || idtac)).
  all: rewrite ?lex_pos, ?lex_neg; eauto using lex_le_trans.
Qed.

Lemma fle_not_nan (a b : float) : fle a b -> not_nan a /\ not_nan b.
Proof. unfold fle, not_nan; rewrite leb_spec; apply SFleb_not_nan. Qed.

Lemma fle_refl (a : float) : not_nan a -> fle a a.
Proof. unfold fle, not_nan; rewrite leb_spec; apply SFleb_refl. Qed.

Lemma fle_trans (a b c : float) : fle a b -> fle b c -> fle a c.
Proof. unfold fle; rewrite !leb_spec; apply SFleb_trans. Qed.

End FloatOrderFacts.

(** ** Best-score tracking *)

Section BestScore.

Import FloatOrder FloatOrderFacts.

Context {optimizer_state model_state : Type}.
Local Abbreviation trainer := (@BaseTrainer optimizer_state model_state).

(** C1. With [save_max_metric_score=True], [_is_best_epoch] returns [True]
    and sets [best_score] to the score exactly when
    [score >= best_score]; with [save_max_metric_score=False], exactly when
    [score <= best_score]; in every other case it returns [False] and
    leaves the trainer as it was.  A call that returns [True] changes no
    other attribute. *)
Theorem is_best_epoch_spec (self : trainer) (score : float) (flag : bool) :
  let r := _is_best_epoch self score flag in
  (fst r = true <-> no_worse flag (best_score self) score) /\
  (fst r = true -> snd r = set_best_score self score /\ best_score (snd r) = score) /\
  (fst r = false -> snd r = self).
Proof.
  unfold _is_best_epoch, no_worse, fle, Py.ge, Py.le.
  destruct flag; simpl;
    destruct (PrimFloat.leb _ _) eqn:E; simpl; intuition congruence.
Qed.

Example is_best_epoch_larger :
  fst (_is_best_epoch (Trainer tt (Module_ tt) (VInt 9) (VInt 1) (VInt 10) (VInt 1)
         (VBool true) 1 0.5%float "d" "c" "l") 0.75%float true) = true.
Proof. reflexivity. Qed.

Example is_best_epoch_nan :
  fst (_is_best_epoch (Trainer tt (Module_ tt) (VInt 9) (VInt 1) (VInt 10) (VInt 1)
         (VBool true) 1 neg_infinity "d" "c" "l") nan true) = false.
Proof. reflexivity. Qed.

Lemma no_worse_refl (flag : bool) (a : float) : not_nan a -> no_worse flag a a.
Proof. destruct flag; apply fle_refl. Qed.

Lemma no_worse_trans (flag : bool) (a b c : float) :
  no_worse flag a b -> no_worse flag b c -> no_worse flag a c.
Proof. destruct flag; simpl; eauto using fle_trans. Qed.

Lemma initial_best_score_not_nan (flag : bool) : not_nan (initial_best_score flag).
Proof. destruct flag; reflexivity. Qed.

Lemma is_best_epoch_cases (self : trainer) (score : float) (flag : bool) :
  (_is_best_epoch self score flag = (true, set_best_score self score) /\
   no_worse flag (best_score self) score) \/
  _is_best_epoch self score flag = (false, self).
Proof.
  unfold _is_best_epoch, no_worse, fle, Py.ge, Py.le.
  destruct flag; simpl; destruct (PrimFloat.leb _ _); simpl; auto.
Qed.

Lemma is_best_epoch_step (self : trainer) (score : float) (flag : bool) :
  not_nan (best_score self) ->
  let self' := snd (_is_best_epoch self score flag) in
  not_nan (best_score self') /\ no_worse flag (best_score self) (best_score self').
Proof.
  intros Hnan.
  destruct (is_best_epoch_cases self score flag) as [[-> Hw] | ->]; simpl.
  - split; [|exact Hw].
    destruct flag; simpl in Hw; apply fle_not_nan in Hw; tauto.
  - split; [exact Hnan | now apply no_worse_refl].
Qed.

Lemma is_best_epoch_calls_no_worse (scores : list float) (flag : bool) :
  forall self : trainer,
    not_nan (best_score self) ->
    Forall (fun b => not_nan b /\ no_worse flag (best_score self) b)
           (best_score_history self scores flag).
Proof.
  unfold best_score_history.
  induction scores as [|score rest IH]; intros self Hnan; simpl.
  - repeat constructor; [exact Hnan | now apply no_worse_refl].
  - destruct (is_best_epoch_step self score flag Hnan) as [Hnan' Hw].
    constructor; [split; [exact Hnan | now apply no_worse_refl]|].
    specialize (IH _ Hnan').
    eapply Forall_impl; [exact IH|].
    intros b [Hb Hwb]; split; [exact Hb | eauto using no_worse_trans].
Qed.

Lemma best_score_history_sorted (scores : list float) (flag : bool) :
  forall (self : trainer) (i j : nat) (bi bj : float),
    not_nan (best_score self) ->
    (i <= j)%nat ->
    best_score_history self scores flag !! i = Some bi ->
    best_score_history self scores flag !! j = Some bj ->
    no_worse flag bi bj.
Proof.
  induction scores as [|score rest IH]; intros self i j bi bj Hnan Hij Hi Hj.
  - destruct i, j; simpl in *; try discriminate; try lia.
    injection Hi as <-; injection Hj as <-. now apply no_worse_refl.
  - destruct i as [|i].
    + injection Hi as <-.
      pose proof (is_best_epoch_calls_no_worse (score :: rest) flag self Hnan) as HF.
      rewrite Forall_lookup in HF. exact (proj2 (HF _ _ Hj)).
    + destruct j as [|j]; [lia|].
      destruct (is_best_epoch_step self score flag Hnan) as [Hnan' _].
      apply (IH _ i j bi bj Hnan'); [lia| exact Hi | exact Hj].
Qed.

(** C6. Along any run of calls of [_is_best_epoch] that starts from the
    value set by the constructor ([-inf] when the largest score is kept,
    [+inf] when the smallest is), [best_score] is monotone: it never
    decreases when [save_max_metric_score] is true and never increases
    when it is false; and a call leaves [best_score] unchanged when it
    returns [False] and sets it to its own score when it returns
    [True]. *)
Theorem best_score_monotone (self : trainer) (scores : list float) (flag : bool) :
  best_score self = initial_best_score flag ->
  let calls := is_best_epoch_calls self scores flag in
  let history := best_score_history self scores flag in
  (forall (i j : nat) (bi bj : float),
      (i <= j)%nat -> history !! i = Some bi -> history !! j = Some bj ->
      no_worse flag bi bj) /\
  (forall (i : nat) (score before after : float) (r : bool * trainer),
      scores !! i = Some score -> calls !! i = Some r ->
      history !! i = Some before -> history !! S i = Some after ->
      after = best_score (snd r) /\
      (fst r = true -> after = score) /\ (fst r = false -> after = before)).
Proof.
  intros Hinit calls history; split.
  - intros i j bi bj; apply best_score_history_sorted.
    rewrite Hinit; apply initial_best_score_not_nan.
  - subst calls history; clear Hinit; revert self.
    induction scores as [|s rest IH]; intros self i score before after r Hs Hc Hb Ha.
    + discriminate.
    + destruct i as [|i]; simpl in *.
      * injection Hs as <-; injection Hc as <-; injection Hb as <-; injection Ha as <-.
        split; [reflexivity|].
        destruct (is_best_epoch_cases self s flag) as [[-> _] | ->]; simpl;
          split; intros E; (reflexivity || discriminate).
      * exact (IH _ i score before after r Hs Hc Hb Ha).
Qed.

End BestScore.

(** A run on four scores, one of them [nan], keeping the largest. *)
Lemma best_score_monotone_witness :
  let self := Trainer tt (Module_ tt) (VInt 9) (VInt 1) (VInt 10) (VInt 1)
                (VBool true) 1 neg_infinity "d" "c" "l" in
  best_score_history self [0.5; 0.25; nan; 0.75]%float true
    = [neg_infinity; 0.5; 0.5; 0.5; 0.75]%float /\
  no_worse true 0.5%float 0.75%float.
Proof.
  intros self; split; [reflexivity|].
  refine (proj1 (best_score_monotone self [0.5; 0.25; nan; 0.75]%float true eq_refl)
            1%nat 4%nat _ _ _ eq_refl eq_refl).
  lia.
Defined.

(** ** The names of the checkpoint files *)

Module FileNames.

Lemma append_cons (c : ascii) (s t : string) : String c s +:+ t = String c (s +:+ t).
Proof. reflexivity. Qed.

Lemma list_ascii_of_string_app (a b : string) :
  list_ascii_of_string (a +:+ b) = (list_ascii_of_string a ++ list_ascii_of_string b)%list.
Proof.
  induction a as [|c a IH]; [reflexivity|].
  rewrite append_cons; simpl; now rewrite IH.
Qed.

Lemma append_inv_tail (a b t : string) : a +:+ t = b +:+ t -> a = b.
Proof.
  intros E%(f_equal list_ascii_of_string).
  rewrite !list_ascii_of_string_app in E.
  apply app_inv_tail in E.
  rewrite <- (string_of_list_ascii_of_string a), <- (string_of_list_ascii_of_string b).
  now rewrite E.
Qed.

(** *** No ["/"] in a name *)

Lemma no_slash_app (a b : string) : no_slash (a +:+ b) = (no_slash a && no_slash b)%bool.
Proof. unfold no_slash; now rewrite list_ascii_of_string_app, forallb_app. Qed.

Lemma no_slash_zeros (n : nat) : no_slash (zeros n) = true.
Proof. induction n; [reflexivity | exact IHn]. Qed.

Lemma no_slash_uint (d : Decimal.uint) : no_slash (NilEmpty.string_of_uint d) = true.
Proof. induction d; [reflexivity | exact IHd ..]. Qed.

Lemma no_slash_str (n : Z) : no_slash (str n) = true.
Proof.
  unfold str.
  destruct (Z.to_int n) as [d|d]; simpl; destruct d; try reflexivity;
    apply (no_slash_uint (Decimal.D0 d)) || apply no_slash_uint.
Qed.

Lemma no_slash_zfill (width : nat) (s : string) :
  no_slash s = true -> no_slash (zfill width s) = true.
Proof.
  intros Hs; unfold zfill.
  destruct s as [|c rest]; [apply no_slash_zeros|].
  destruct (Ascii.eqb c "+" || Ascii.eqb c "-")%bool.
  - change (no_slash (String c rest)) with
      (negb (Ascii.eqb c "/") && no_slash rest)%bool in Hs.
    change (no_slash (String c (zeros (width - String.length (String c rest)) +:+ rest)))
      with (negb (Ascii.eqb c "/") &&
            no_slash (zeros (width - String.length (String c rest)) +:+ rest))%bool.
    apply andb_prop in Hs as [-> Hr]; simpl.
    now rewrite no_slash_app, no_slash_zeros, Hr.
  - now rewrite no_slash_app, no_slash_zeros, Hs.
Qed.

Lemma epoch_file_name_head (epoch : Z) :
  epoch_file_name epoch = String "m" ("odel_" +:+ zfill 4 (str epoch) +:+ ".tar").
Proof. reflexivity. Qed.

Lemma epoch_file_name_is_filename (epoch : Z) :
  is_filename (epoch_file_name epoch) = true.
Proof.
  unfold is_filename.
  rewrite epoch_file_name_head at 1 2; simpl.
  unfold epoch_file_name.
  now rewrite !no_slash_app, no_slash_zfill by apply no_slash_str.
Qed.

Lemma epoch_file_name_not_latest (epoch : Z) : epoch_file_name epoch <> "latest_model.tar".
Proof. rewrite epoch_file_name_head; discriminate. Qed.

Lemma epoch_file_name_not_best (epoch : Z) : epoch_file_name epoch <> "best_model.tar".
Proof. rewrite epoch_file_name_head; discriminate. Qed.

(** *** Reading the number back from a padded name *)

Lemma uint_of_string_zeros (n : nat) (s : string) (d : Decimal.uint) :
  NilEmpty.uint_of_string s = Some d ->
  NilEmpty.uint_of_string (zeros n +:+ s) = Some (Nat.iter n Decimal.D0 d).
Proof.
  intros Hs; induction n as [|n IH]; [exact Hs|].
  simpl zeros; rewrite append_cons; simpl; now rewrite IH.
Qed.

Lemma of_uint_leading_zeros (n : nat) (d : Decimal.uint) :
  Z.of_uint (Nat.iter n Decimal.D0 d) = Z.of_uint d.
Proof. induction n as [|n IH]; [reflexivity | exact IH]. Qed.

Lemma string_of_uint_parse (d : Decimal.uint) :
  exists d', NilEmpty.uint_of_string (NilZero.string_of_uint d) = Some d' /\
             Z.of_uint d' = Z.of_uint d.
Proof.
  destruct d; [exists (Decimal.D0 Decimal.Nil); split; reflexivity|..];
    (eexists; split; [apply NilEmpty.usu | reflexivity]).
Qed.

Lemma string_of_uint_head (d : Decimal.uint) :
  exists c rest, NilZero.string_of_uint d = String c rest /\
                 Ascii.eqb c "+" = false /\ Ascii.eqb c "-" = false.
Proof. destruct d; simpl; do 2 eexists; (split; [reflexivity|split; reflexivity]). Qed.

(** A padded run of digits reads as an unsigned number. *)
Lemma int_of_padded_digits (n : nat) (c : ascii) (rest : string) (d : Decimal.uint) :
  Ascii.eqb c "-" = false ->
  NilEmpty.uint_of_string (String c rest) = Some d ->
  NilZero.uint_of_string (zeros n +:+ String c rest) = Some (Nat.iter n Decimal.D0 d) /\
  NilZero.int_of_string (zeros n +:+ String c rest)
    = Some (Decimal.Pos (Nat.iter n Decimal.D0 d)).
Proof.
  intros Hc Hd.
  pose proof (uint_of_string_zeros n _ _ Hd) as Hz.
  destruct n as [|n].
  - change (zeros 0 +:+ String c rest) with (String c rest) in *.
    split; [exact Hz|].
    unfold NilZero.int_of_string; rewrite Hc.
    unfold NilZero.uint_of_string; now rewrite Hz.
  - change (zeros (S n) +:+ String c rest)
      with (String "0" (zeros n +:+ String c rest)) in *.
    split; [exact Hz|].
    unfold NilZero.int_of_string.
    change (Ascii.eqb "0" "-") with false; cbv iota.
    unfold NilZero.uint_of_string; now rewrite Hz.
Qed.

Lemma parse_int_zfill (width : nat) (d : Decimal.signed_int) :
  parse_int (zfill width (NilZero.string_of_int d)) = Some (Z.of_int d).
Proof.
  unfold parse_int.
  destruct d as [d|d]; simpl NilZero.string_of_int;
    destruct (string_of_uint_head d) as (c & rest & Hs & Hplus & Hminus);
    destruct (string_of_uint_parse d) as (d' & Hd' & Hval);
    rewrite Hs in Hd' |- *.
  - unfold zfill; rewrite Hplus, Hminus; simpl orb; cbv iota.
    destruct (int_of_padded_digits (width - String.length (String c rest)) c rest d'
                Hminus Hd') as [_ ->].
    simpl; now rewrite of_uint_leading_zeros, Hval.
  - unfold zfill.
    change (Ascii.eqb "-" "+" || Ascii.eqb "-" "-")%bool with true; cbv iota.
    unfold NilZero.int_of_string.
    change (Ascii.eqb "-" "-") with true; cbv iota.
    destruct (int_of_padded_digits (width - String.length (String "-" (String c rest)))
                c rest d' Hminus Hd') as [-> _].
    simpl; now rewrite of_uint_leading_zeros, Hval.
Qed.

Lemma parse_int_zfill_str (width : nat) (n : Z) :
  parse_int (zfill width (str n)) = Some n.
Proof. unfold str; now rewrite parse_int_zfill, DecimalZ.of_to. Qed.

Example zfill_str_5 : zfill 4 (str 5) = "0005".
Proof. reflexivity. Qed.

Example zfill_str_neg : zfill 4 (str (-5)) = "-005".
Proof. reflexivity. Qed.

Example zfill_str_large : zfill 4 (str 12345) = "12345".
Proof. reflexivity. Qed.

Example epoch_file_name_12 : epoch_file_name 12 = "model_0012.tar".
Proof. reflexivity. Qed.

(** Two epochs never share their file. *)
Lemma epoch_file_name_inj (e1 e2 : Z) :
  epoch_file_name e1 = epoch_file_name e2 -> e1 = e2.
Proof.
  unfold epoch_file_name; intros E.
  apply String.app_inj, append_inv_tail in E.
  apply (f_equal parse_int) in E.
  rewrite !parse_int_zfill_str in E; congruence.
Qed.

(** *** The width of a padded number *)

Lemma length_append (a b : string) :
  String.length (a +:+ b) = (String.length a + String.length b)%nat.
Proof. induction a as [|c a IH]; [reflexivity|]. rewrite append_cons; simpl; now rewrite IH. Qed.

Lemma length_zeros (n : nat) : String.length (zeros n) = n.
Proof. induction n as [|n IH]; [reflexivity | simpl; now rewrite IH]. Qed.

(** [zfill] never shortens, and fills up to the width, sign included. *)
Lemma zfill_length (width : nat) (s : string) :
  String.length (zfill width s) = Nat.max width (String.length s).
Proof.
  unfold zfill. destruct s as [|c rest]; [rewrite length_zeros; simpl; lia|].
  destruct (Ascii.eqb c "+" || Ascii.eqb c "-")%bool.
  - change (String.length (String c (zeros (width - String.length (String c rest)) +:+ rest)))
      with (S (String.length (zeros (width - String.length (String c rest)) +:+ rest))).
    rewrite length_append, length_zeros. simpl String.length. lia.
  - rewrite length_append, length_zeros. lia.
Qed.

Lemma parse_digits_padded (n : nat) (d : Decimal.uint) :
  exists d', NilEmpty.uint_of_string (zeros n +:+ NilZero.string_of_uint d) = Some d' /\
             Z.of_uint d' = Z.of_uint d.
Proof.
  destruct (string_of_uint_parse d) as (d' & Hd' & Hval).
  exists (Nat.iter n Decimal.D0 d'). split; [now apply uint_of_string_zeros|].
  now rewrite of_uint_leading_zeros.
Qed.

(** The padded number: the sign of a negative number, then digits only,
    which read as the absolute value. *)
Lemma zfill_str_digits (width : nat) (n : Z) :
  exists digits : string,
    zfill width (str n) = (if n <? 0 then "-" else "") +:+ digits /\
    parse_digits digits = Some (Z.abs n).
Proof.
  pose proof (DecimalZ.of_to n) as Hn. unfold str, parse_digits.
  destruct n as [|p|p]; simpl Z.to_int in *; simpl Z.ltb; cbv iota.
  - exists (zfill width "0"). split; [reflexivity|].
    destruct (parse_digits_padded (width - 1) (Decimal.D0 Decimal.Nil)) as (d' & Hd' & Hval).
    unfold zfill; simpl. simpl in Hd'. rewrite Hd'. simpl. now rewrite Hval.
  - simpl NilZero.string_of_int.
    destruct (string_of_uint_head (Pos.to_uint p)) as (c & rest & Hs & Hplus & Hminus).
    destruct (parse_digits_padded (width - String.length (String c rest)) (Pos.to_uint p))
      as (d' & Hd' & Hval).
    rewrite Hs in Hd' |- *.
    exists (zeros (width - String.length (String c rest)) +:+ String c rest). split.
    + unfold zfill. rewrite Hplus, Hminus. reflexivity.
    + rewrite Hd'. simpl. rewrite Hval. exact (f_equal Some Hn).
  - simpl NilZero.string_of_int.
    destruct (string_of_uint_head (Pos.to_uint p)) as (c & rest & Hs & Hplus & Hminus).
    destruct (parse_digits_padded (width - String.length (String "-" (String c rest)))
                (Pos.to_uint p)) as (d' & Hd' & Hval).
    rewrite Hs in Hd' |- *.
    exists (zeros (width - String.length (String "-" (String c rest))) +:+ String c rest).
    split; [reflexivity|].
    rewrite Hd'. simpl. rewrite Hval.
    simpl in Hn. apply f_equal. change (Z.neg p) with (- Z.pos p) in Hn. lia.
Qed.

Lemma str_width_0_9999 :
  forallb (fun e => (String.length (str e) <=? 4)%nat) (seqZ 0 10000) = true.
Proof. vm_compute. reflexivity. Qed.

Lemma str_length_0_9999 (n : Z) : 0 <= n <= 9999 -> (String.length (str n) <= 4)%nat.
Proof.
  intros Hn. pose proof str_width_0_9999 as Hall.
  rewrite forallb_forall in Hall.
  apply Nat.leb_le, Hall, list_elem_of_In, elem_of_seqZ. lia.
Qed.

(** The name of the file of an epoch, taken apart. *)
Lemma epoch_file_name_digits (epoch : Z) :
  exists digits : string,
    epoch_file_name epoch
    = "model_" +:+ (if epoch <? 0 then "-" else "") +:+ digits +:+ ".tar" /\
    parse_digits digits = Some (Z.abs epoch) /\
    String.length ((if epoch <? 0 then "-" else "") +:+ digits)
    = Nat.max 4 (String.length (str epoch)) /\
    (0 <= epoch <= 9999 -> String.length digits = 4%nat).
Proof.
  destruct (zfill_str_digits 4 epoch) as (digits & Hz & Hparse).
  pose proof (zfill_length 4 (str epoch)) as Hlen. rewrite Hz in Hlen.
  exists digits. split; [|split; [exact Hparse|split; [exact Hlen|]]].
  - unfold epoch_file_name. rewrite Hz. destruct (epoch <? 0); reflexivity.
  - intros Hrange. pose proof (str_length_0_9999 epoch Hrange) as Hstr.
    rewrite (proj2 (Z.ltb_ge epoch 0)) in Hlen by lia.
    change (String.length digits = Nat.max 4 (String.length (str epoch))) in Hlen. lia.
Qed.

End FileNames.

(** ** The concrete path library satisfies the interface *)

Module PosixPaths.
Import PosixPathsDef.

Lemma make_absolute_starts (p : string) : starts_with_slash (make_absolute p) = true.
Proof. unfold make_absolute; destruct (starts_with_slash p) eqn:E; [exact E | reflexivity]. Qed.

Lemma make_absolute_id (p : string) : starts_with_slash p = true -> make_absolute p = p.
Proof. unfold make_absolute; now intros ->. Qed.

Lemma expand_id (p : string) : starts_with_slash p = true -> expand p = p.
Proof.
  destruct p as [|c rest]; [reflexivity|]; simpl.
  intros ->%Ascii.eqb_eq; reflexivity.
Qed.

Lemma join_starts (p name : string) :
  starts_with_slash p = true -> starts_with_slash (join p name) = true.
Proof.
  unfold join; intros Hp.
  destruct (starts_with_slash name) eqn:E; [exact E|].
  destruct p as [|c rest]; [discriminate | exact Hp].
Qed.

Lemma filename_not_absolute (name : string) :
  is_filename name = true -> starts_with_slash name = false.
Proof.
  unfold is_filename, no_slash; destruct name as [|c rest]; [reflexivity|]; simpl.
  destruct (Ascii.eqb c "/"); [|reflexivity].
  simpl; rewrite andb_false_r; discriminate.
Qed.

Lemma join_inj (p n1 n2 : string) :
  is_filename n1 = true -> is_filename n2 = true -> join p n1 = join p n2 -> n1 = n2.
Proof.
  intros H1%filename_not_absolute H2%filename_not_absolute.
  unfold join; rewrite H1, H2; intros E.
  now apply String.app_inj, String.app_inj in E.
Qed.

#[export] Instance posix : PathLib := {|
  Path := fun s => s;
  expanduser := expand;
  absolute := make_absolute;
  joinpath := join;
  is_absolute := starts_with_slash;
  absolute_is_absolute := make_absolute_starts;
  absolute_of_absolute := make_absolute_id;
  expanduser_of_absolute := expand_id;
  joinpath_is_absolute := join_starts;
  joinpath_inj := join_inj
|}.

End PosixPaths.

(** ** The checkpoint files *)

Section Checkpoints.

Context {pathlib : PathLib}.
Context {optimizer_state model_state : Type}.
Local Abbreviation trainer := (@BaseTrainer optimizer_state model_state).
Local Abbreviation files := (gmap string (@checkpoint optimizer_state model_state)).

Lemma save_checkpoint_unfold (self : trainer) (fs : files) (epoch : Z) (is_best : bool) :
  _save_checkpoint self fs epoch is_best =
  let sd := state_dict_of self epoch in
  let fs1 := <[checkpoints_dir self // epoch_file_name epoch := sd]>
               (<[checkpoints_dir self // "latest_model.tar" := sd]> fs) in
  if is_best then <[checkpoints_dir self // "best_model.tar" := sd]> fs1 else fs1.
Proof.
  unfold _save_checkpoint, torch_save, state_dict_of, module_state.
  destruct is_best, (model self); reflexivity.
Qed.

Lemma lookup_latest_after_save (self : trainer) (fs : files) (epoch : Z) (is_best : bool) :
  _save_checkpoint self fs epoch is_best !! (checkpoints_dir self // "latest_model.tar")
  = Some (state_dict_of self epoch).
Proof.
  rewrite save_checkpoint_unfold; cbv zeta.
  destruct is_best; rewrite ?lookup_insert; repeat case_decide; congruence.
Qed.

Lemma joinpath_ne (dir n1 n2 : string) :
  is_filename n1 = true -> is_filename n2 = true -> n1 <> n2 -> dir // n1 <> dir // n2.
Proof. intros H1 H2 Hne E; apply Hne; exact (joinpath_inj dir n1 n2 H1 H2 E). Qed.

Lemma epoch_file_ne_latest (dir : string) (epoch : Z) :
  dir // epoch_file_name epoch <> dir // "latest_model.tar".
Proof.
  apply joinpath_ne;
    [apply FileNames.epoch_file_name_is_filename | reflexivity
    | apply FileNames.epoch_file_name_not_latest].
Qed.

Lemma epoch_file_ne_best (dir : string) (epoch : Z) :
  dir // epoch_file_name epoch <> dir // "best_model.tar".
Proof.
  apply joinpath_ne;
    [apply FileNames.epoch_file_name_is_filename | reflexivity
    | apply FileNames.epoch_file_name_not_best].
Qed.

Lemma best_ne_latest (dir : string) : dir // "best_model.tar" <> dir // "latest_model.tar".
Proof. apply joinpath_ne; [reflexivity | reflexivity | discriminate]. Qed.

Lemma epoch_file_ne_epoch_file (dir : string) (e1 e2 : Z) :
  e1 <> e2 -> dir // epoch_file_name e1 <> dir // epoch_file_name e2.
Proof.
  intros Hne; apply joinpath_ne; try apply FileNames.epoch_file_name_is_filename.
  intros E; apply Hne; now apply FileNames.epoch_file_name_inj.
Qed.

Lemma save_checkpoint_other (dir : string) (self : trainer) (fs : files) (epoch : Z)
    (is_best : bool) (p : string) :
  checkpoints_dir self = dir ->
  p <> dir // "latest_model.tar" ->
  p <> dir // "best_model.tar" ->
  p <> dir // epoch_file_name epoch ->
  _save_checkpoint self fs epoch is_best !! p = fs !! p.
Proof.
  intros <- H1 H2 H3. rewrite save_checkpoint_unfold. cbv zeta.
  destruct is_best; rewrite ?lookup_insert; repeat case_decide; congruence.
Qed.

Lemma save_checkpoint_keeps (self : trainer) (fs : files) (epoch : Z) (is_best : bool)
    (p : string) :
  is_Some (fs !! p) -> is_Some (_save_checkpoint self fs epoch is_best !! p).
Proof.
  intros Hp. rewrite save_checkpoint_unfold. cbv zeta.
  destruct is_best; rewrite ?lookup_insert; repeat case_decide; eauto.
Qed.

Lemma lookup_epoch_file_after_save (self : trainer) (fs : files) (epoch : Z)
    (is_best : bool) :
  _save_checkpoint self fs epoch is_best !! (checkpoints_dir self // epoch_file_name epoch)
  = Some (state_dict_of self epoch).
Proof.
  pose proof (epoch_file_ne_best (checkpoints_dir self) epoch) as Hne.
  rewrite save_checkpoint_unfold; cbv zeta.
  destruct is_best; rewrite ?lookup_insert; repeat case_decide; congruence.
Qed.

(** C3. Saving a checkpoint for epoch [e] and then resuming, on the same
    trainer or on a fresh one that uses the same checkpoints directory,
    succeeds and yields [start_epoch = e + 1] and the [best_score] held
    at save time, whatever counters the resuming trainer held; the
    optimizer and the network come back as saved too.  The checkpoints
    directory is an absolute path, as the constructor builds it. *)
Theorem save_then_resume (self resumed : trainer) (fs : files) (epoch : Z)
    (is_best : bool) :
  is_absolute (checkpoints_dir self) = true ->
  checkpoints_dir resumed = checkpoints_dir self ->
  exists resumed' : trainer,
    _resume_checkpoint resumed (_save_checkpoint self fs epoch is_best) = Return resumed' /\
    start_epoch resumed' = epoch + 1 /\
    best_score resumed' = best_score self /\
    optimizer resumed' = optimizer self /\
    module_state (model resumed') = module_state (model self).
Proof.
  intros Habs Hdir.
  unfold _resume_checkpoint, exists_, torch_load.
  rewrite Hdir, (expanduser_of_absolute _ Habs), (absolute_of_absolute _ Habs).
  rewrite lookup_latest_after_save.
  rewrite bool_decide_eq_true_2 by (eexists; reflexivity).
  simpl. destruct (model resumed); eexists; repeat split; reflexivity.
Qed.

(** C4. A call of [_save_checkpoint] builds one record (epoch number, best
    score so far, optimizer state, network state) and writes it to
    [latest_model.tar], replacing what was there, to the file of the
    epoch, and, on a best epoch only, to [best_model.tar], replacing the
    previous best.  The file of any other epoch keeps its content, and so
    does every other file.  The file of the epoch is
    [model_<epoch>.tar] with the epoch padded with zeros: ["model_"], the
    sign of a negative epoch, digits only, which read as the absolute
    value of the epoch, and [".tar"]; sign and digits take 4 characters,
    or as many as the epoch needs beyond that, hence exactly four digits
    for the epochs 0 to 9999. *)
Theorem save_checkpoint_files (self : trainer) (fs : files) (epoch : Z) (is_best : bool) :
  let dir := checkpoints_dir self in
  let state_dict :=
    Checkpoint epoch (best_score self) (optimizer self) (module_state (model self)) in
  let fs' := _save_checkpoint self fs epoch is_best in
  fs' !! (dir // "latest_model.tar") = Some state_dict /\
  fs' !! (dir // epoch_file_name epoch) = Some state_dict /\
  fs' !! (dir // "best_model.tar")
    = (if is_best then Some state_dict else fs !! (dir // "best_model.tar")) /\
  (forall e : Z, e <> epoch ->
     fs' !! (dir // epoch_file_name e) = fs !! (dir // epoch_file_name e)) /\
  (forall p : string,
     p <> dir // "latest_model.tar" -> p <> dir // epoch_file_name epoch ->
     p <> dir // "best_model.tar" -> fs' !! p = fs !! p) /\
  (exists digits : string,
     epoch_file_name epoch
     = "model_" +:+ (if epoch <? 0 then "-" else "") +:+ digits +:+ ".tar" /\
     parse_digits digits = Some (Z.abs epoch) /\
     String.length ((if epoch <? 0 then "-" else "") +:+ digits)
     = Nat.max 4 (String.length (str epoch)) /\
     (0 <= epoch <= 9999 -> String.length digits = 4%nat)).
Proof.
  intros dir state_dict fs'; subst fs'.
  pose proof (epoch_file_ne_latest dir epoch) as H1.
  pose proof (epoch_file_ne_best dir epoch) as H2.
  pose proof (best_ne_latest dir) as H3.
  split; [apply lookup_latest_after_save|].
  rewrite save_checkpoint_unfold; cbv zeta.
  fold dir; change (state_dict_of self epoch) with state_dict.
  split; [|split; [|split; [|split; [|apply FileNames.epoch_file_name_digits]]]].
  - destruct is_best; rewrite ?lookup_insert; repeat case_decide; congruence.
  - destruct is_best; rewrite ?lookup_insert; repeat case_decide; congruence.
  - intros e He.
    pose proof (epoch_file_ne_epoch_file dir e epoch He) as H4.
    pose proof (epoch_file_ne_latest dir e) as H5.
    pose proof (epoch_file_ne_best dir e) as H6.
    destruct is_best; rewrite ?lookup_insert; repeat case_decide; congruence.
  - intros p Hp1 Hp2 Hp3.
    destruct is_best; rewrite ?lookup_insert; repeat case_decide; congruence.
Qed.

End Checkpoints.

(** The round trip on a trainer that saves epoch 7 with best score 0.5,
    read back by a fresh trainer. *)
Lemma save_then_resume_witness :
  let self : @BaseTrainer Z Z :=
    Trainer 11 (Module_ 22) (VInt 9) (VInt 1) (VInt 10) (VInt 1) (VBool true)
      3 0.5%float "/exp" "/exp/checkpoints" "/exp/logs" in
  let fresh : @BaseTrainer Z Z :=
    Trainer 0 (DataParallel 0) (VInt 9) (VInt 1) (VInt 10) (VInt 1) (VBool true)
      1 neg_infinity "/exp" "/exp/checkpoints" "/exp/logs" in
  exists resumed',
    _resume_checkpoint (pathlib := PosixPaths.posix) fresh
      (_save_checkpoint (pathlib := PosixPaths.posix) self ∅ 7 false) = Return resumed' /\
    start_epoch resumed' = 8 /\
    best_score resumed' = 0.5%float /\
    optimizer resumed' = 11 /\
    module_state (model resumed') = 22.
Proof.
  intros self fresh.
  exact (save_then_resume (pathlib := PosixPaths.posix) self fresh ∅ 7 false
           eq_refl eq_refl).
Defined.

Example save_checkpoint_names :
  let self : @BaseTrainer Z Z :=
    Trainer 11 (Module_ 22) (VInt 9) (VInt 1) (VInt 10) (VInt 1) (VBool true)
      3 0.5%float "/exp" "/exp/checkpoints" "/exp/logs" in
  dom (_save_checkpoint (pathlib := PosixPaths.posix) self ∅ 7 true)
  = {[ "/exp/checkpoints/latest_model.tar"; "/exp/checkpoints/model_0007.tar";
       "/exp/checkpoints/best_model.tar" ]}.
Proof. vm_compute. reflexivity. Qed.

(** ** The metrics of a validation batch *)

Section Metrics.

Context {audio : Type}.
Variable REGISTERED_METRICS : gmap string (audio -> audio -> float).
Variable np_mean : list float -> float.
Variable transform_pesq_range : float -> float.

Local Abbreviation metrics_visualization' :=
  (metrics_visualization REGISTERED_METRICS np_mean transform_pesq_range).
Local Abbreviation metrics_loop' :=
  (metrics_loop REGISTERED_METRICS np_mean transform_pesq_range).
Local Abbreviation mean_score' := (mean_score np_mean).
Local Abbreviation logged' := (logged REGISTERED_METRICS np_mean).
Local Abbreviation registered' := (registered REGISTERED_METRICS).

Lemma assert_registered_ok (metrics_list : list string) :
  registered' metrics_list -> assert_registered REGISTERED_METRICS metrics_list = Return tt.
Proof.
  induction metrics_list as [|i rest IH]; intros Hreg; simpl; [reflexivity|].
  rewrite bool_decide_eq_true_2.
  - simpl. apply IH. intros j Hj. apply Hreg. now right.
  - apply elem_of_dom, Hreg. now left.
Qed.

Lemma assert_registered_fail (metrics_list : list string) :
  ~ registered' metrics_list ->
  exists i : string,
    i ∈ metrics_list /\ REGISTERED_METRICS !! i = None /\
    assert_registered REGISTERED_METRICS metrics_list
    = Raise (AssertionError (i +:+ " is not registered metric, please check 'util.metrics'.")).
Proof.
  induction metrics_list as [|i rest IH]; intros Hreg.
  - exfalso; apply Hreg; intros j Hj; inversion Hj.
  - simpl. destruct (REGISTERED_METRICS !! i) as [f|] eqn:Ei.
    + rewrite bool_decide_eq_true_2 by (apply elem_of_dom; now rewrite Ei).
      destruct IH as (j & Hj & Hnone & Hraise).
      * intros Hrest. apply Hreg. intros j [->|Hj]%elem_of_cons; [now rewrite Ei | auto].
      * exists j. split; [now right|]. split; [exact Hnone | exact Hraise].
    + rewrite bool_decide_eq_false_2.
      * exists i. split; [now left|]. split; [exact Ei | reflexivity].
      * rewrite elem_of_dom, Ei. intros [? [=]].
Qed.

(** A pool of at least one worker returns the scores of the pairs in
    order; a pool of no worker raises. *)
Lemma Parallel_workers (n_jobs : Z) (metric : audio -> audio -> float)
    (refs ests : list audio) :
  n_jobs <> 0 ->
  Parallel n_jobs metric refs ests
  = Return (map (fun pair => metric (fst pair) (snd pair)) (zip refs ests)).
Proof. intros Hn. unfold Parallel. now rewrite (proj2 (Z.eqb_neq n_jobs 0) Hn). Qed.

Lemma Parallel_no_worker (metric : audio -> audio -> float) (refs ests : list audio) :
  Parallel 0 metric refs ests = Raise (ValueError "n_jobs == 0 in Parallel has no meaning").
Proof. reflexivity. Qed.

(** The loop over registered names: the last occurrence of ["STOI"] and
    of ["WB_PESQ"] fixes the two means, every name adds one entry for the
    writer. *)
Lemma metrics_loop_registered (noisy_list clean_list enhanced_list : list audio)
    (epoch num_workers : Z) (mark : string) (stoi wb_pesq : audio -> audio -> float) :
  num_workers <> 0 ->
  REGISTERED_METRICS !! "STOI" = Some stoi ->
  REGISTERED_METRICS !! "WB_PESQ" = Some wb_pesq ->
  forall (metrics_list : list string) (stoi_mean wb_pesq_mean : float)
         (written : list scalars),
    registered' metrics_list ->
    metrics_loop' noisy_list clean_list enhanced_list metrics_list epoch num_workers mark
      (stoi_mean, wb_pesq_mean, written)
    = Return
        (if bool_decide ("STOI" ∈ metrics_list)
         then mean_score' stoi clean_list enhanced_list else stoi_mean,
         if bool_decide ("WB_PESQ" ∈ metrics_list)
         then transform_pesq_range (mean_score' wb_pesq clean_list enhanced_list)
         else wb_pesq_mean,
         (written ++ omap (logged' noisy_list clean_list enhanced_list epoch mark)
                       metrics_list)%list).
Proof.
  intros Hworkers Hstoi Hpesq.
  induction metrics_list as [|name rest IH]; intros stoi_mean wb_pesq_mean written Hreg.
  - simpl. now rewrite app_nil_r.
  - assert (Hrest : registered' rest) by (intros j Hj; apply Hreg; now right).
    destruct (Hreg name ltac:(now left)) as [metric Hm].
    simpl metrics_loop. rewrite Hm. simpl bind.
    rewrite !Parallel_workers by exact Hworkers. simpl bind.
    rewrite IH by exact Hrest.
    unfold logged at 2. simpl omap. rewrite Hm. simpl.
    rewrite <- app_assoc. simpl.
    apply f_equal. apply (f_equal2 pair); [apply (f_equal2 pair)|reflexivity].
    + destruct (String.eqb_spec name "STOI") as [->|Hne].
      * rewrite Hstoi in Hm; injection Hm as <-.
        rewrite (bool_decide_eq_true_2 ("STOI" ∈ "STOI" :: rest)) by now left.
        destruct (bool_decide ("STOI" ∈ rest)); reflexivity.
      * rewrite (bool_decide_ext ("STOI" ∈ name :: rest) ("STOI" ∈ rest)); [reflexivity|].
        rewrite elem_of_cons. intuition congruence.
    + destruct (String.eqb_spec name "WB_PESQ") as [->|Hne].
      * rewrite Hpesq in Hm; injection Hm as <-.
        rewrite (bool_decide_eq_true_2 ("WB_PESQ" ∈ "WB_PESQ" :: rest)) by now left.
        destruct (bool_decide ("WB_PESQ" ∈ rest)); reflexivity.
      * rewrite (bool_decide_ext ("WB_PESQ" ∈ name :: rest) ("WB_PESQ" ∈ rest));
          [reflexivity|].
        rewrite elem_of_cons. intuition congruence.
Qed.

Lemma metrics_visualization_registered
    (noisy_list clean_list enhanced_list : list audio) (metrics_list : list string)
    (epoch num_workers : Z) (mark : string) (stoi wb_pesq : audio -> audio -> float) :
  "STOI" ∈ metrics_list ->
  "WB_PESQ" ∈ metrics_list ->
  registered' metrics_list ->
  REGISTERED_METRICS !! "STOI" = Some stoi ->
  REGISTERED_METRICS !! "WB_PESQ" = Some wb_pesq ->
  num_workers <> 0 ->
  metrics_visualization' noisy_list clean_list enhanced_list metrics_list epoch
    num_workers mark
  = Return
      (((mean_score' stoi clean_list enhanced_list
         + transform_pesq_range (mean_score' wb_pesq clean_list enhanced_list)) / 2)%float,
       omap (logged' noisy_list clean_list enhanced_list epoch mark) metrics_list).
Proof.
  intros Hs Hp Hreg Hstoi Hpesq Hworkers.
  unfold metrics_visualization.
  rewrite !bool_decide_eq_true_2 by assumption. simpl.
  rewrite assert_registered_ok by exact Hreg. simpl.
  rewrite (metrics_loop_registered _ _ _ _ _ _ stoi wb_pesq Hworkers Hstoi Hpesq)
    by exact Hreg.
  rewrite !bool_decide_eq_true_2 by assumption. reflexivity.
Qed.

(** With no worker the first requested metric already fails in the pool,
    once the two assertions have passed. *)
Lemma metrics_visualization_no_worker
    (noisy_list clean_list enhanced_list : list audio) (metrics_list : list string)
    (epoch : Z) (mark : string) :
  "STOI" ∈ metrics_list ->
  "WB_PESQ" ∈ metrics_list ->
  registered' metrics_list ->
  metrics_visualization' noisy_list clean_list enhanced_list metrics_list epoch 0 mark
  = Raise (ValueError "n_jobs == 0 in Parallel has no meaning").
Proof.
  intros Hs Hp Hreg.
  unfold metrics_visualization.
  rewrite !bool_decide_eq_true_2 by assumption. simpl.
  rewrite assert_registered_ok by exact Hreg. simpl.
  destruct metrics_list as [|name rest]; [inversion Hs|].
  destruct (Hreg name ltac:(now left)) as [metric Hm].
  simpl metrics_loop. rewrite Hm. reflexivity.
Qed.

(** C7. When the requested metrics are registered and contain ["STOI"]
    and ["WB_PESQ"], and the pool has a worker ([num_workers] is not 0,
    which joblib refuses), [metrics_visualization] returns
    [(mean STOI on the enhanced audio
      + transform_pesq_range(mean WB_PESQ on the enhanced audio)) / 2].
    The noisy audio and the other requested metrics occur only in what is
    handed to the writer, one entry per requested metric: with another
    noisy batch, other further metrics, another non-zero worker count or
    another mark, the returned score is the same. *)
Theorem metrics_visualization_score
    (noisy_list clean_list enhanced_list : list audio) (metrics_list : list string)
    (epoch num_workers : Z) (mark : string) (stoi wb_pesq : audio -> audio -> float) :
  "STOI" ∈ metrics_list ->
  "WB_PESQ" ∈ metrics_list ->
  registered REGISTERED_METRICS metrics_list ->
  REGISTERED_METRICS !! "STOI" = Some stoi ->
  REGISTERED_METRICS !! "WB_PESQ" = Some wb_pesq ->
  num_workers <> 0 ->
  let score :=
    ((mean_score np_mean stoi clean_list enhanced_list
      + transform_pesq_range (mean_score np_mean wb_pesq clean_list enhanced_list))
     / 2)%float in
  metrics_visualization REGISTERED_METRICS np_mean transform_pesq_range
    noisy_list clean_list enhanced_list metrics_list epoch num_workers mark
  = Return (score,
            omap (logged REGISTERED_METRICS np_mean noisy_list clean_list enhanced_list
                    epoch mark) metrics_list)
  /\
  (forall (noisy_list' : list audio) (metrics_list' : list string)
          (num_workers' : Z) (mark' : string),
     "STOI" ∈ metrics_list' -> "WB_PESQ" ∈ metrics_list' ->
     registered REGISTERED_METRICS metrics_list' ->
     num_workers' <> 0 ->
     exists written,
       metrics_visualization REGISTERED_METRICS np_mean transform_pesq_range
         noisy_list' clean_list enhanced_list metrics_list' epoch num_workers' mark'
       = Return (score, written)).
Proof.
  intros Hs Hp Hreg Hstoi Hpesq Hworkers score; split.
  - now apply metrics_visualization_registered.
  - intros noisy_list' metrics_list' num_workers' mark' Hs' Hp' Hreg' Hworkers'.
    eexists. now apply metrics_visualization_registered.
Qed.

End Metrics.

Lemma metrics_visualization_score_witness :
  fst <$> match metrics_visualization example_metrics example_mean
                  example_transform_pesq_range
                  [0.25; 0.5]%float [1; 0.5]%float [0.5; 0.5]%float
                  ["SI_SDR"; "STOI"; "WB_PESQ"] 3 10 "Clean" with
          | Return r => Some r
          | Raise _ => None
          end
  = Some (((mean_score example_mean (fun ref est => ref * est) [1; 0.5] [0.5; 0.5]
            + example_transform_pesq_range
                (mean_score example_mean (fun ref est => ref + est) [1; 0.5] [0.5; 0.5]))
           / 2)%float).
Proof.
  pose proof (metrics_visualization_score example_metrics example_mean
                example_transform_pesq_range
                [0.25; 0.5]%float [1; 0.5]%float [0.5; 0.5]%float
                ["SI_SDR"; "STOI"; "WB_PESQ"] 3 10 "Clean"
                (fun ref est => ref * est)%float (fun ref est => ref + est)%float) as H.
  destruct H as [-> _]; [| | | reflexivity | reflexivity | lia | reflexivity].
  - set_solver.
  - set_solver.
  - intros i Hi. unfold example_metrics.
    repeat (apply elem_of_cons in Hi as [->|Hi]; [eexists; reflexivity|]).
    inversion Hi.
Defined.

Example metrics_visualization_example :
  metrics_visualization example_metrics example_mean example_transform_pesq_range
    [0.25; 0.5]%float [1; 0.5]%float [0.5; 0.5]%float ["STOI"; "WB_PESQ"] 3 10 "Clean"
  = Return (0x1.7333333333333p-2%float,
            [Scalars "Clean_Validation/STOI" 0.25 0.375 3;
             Scalars "Clean_Validation/WB_PESQ" 1.125 1.25 3]%float).
Proof. vm_compute. reflexivity. Qed.

(** The same call with [num_workers=0]: joblib's error comes out, after
    the assertions (an unregistered name is still reported first). *)
Example metrics_visualization_no_worker_example :
  metrics_visualization example_metrics example_mean example_transform_pesq_range
    [0.25; 0.5]%float [1; 0.5]%float [0.5; 0.5]%float ["STOI"; "WB_PESQ"] 3 0 "Clean"
  = Raise (ValueError "n_jobs == 0 in Parallel has no meaning") /\
  metrics_visualization example_metrics example_mean example_transform_pesq_range
    [0.25; 0.5]%float [1; 0.5]%float [0.5; 0.5]%float ["STOI"; "WB_PESQ"; "SNR"] 3 0 "Clean"
  = Raise (AssertionError "SNR is not registered metric, please check 'util.metrics'.").
Proof. split; vm_compute; reflexivity. Qed.

(** ** The assertions *)

Section Assertions.

Context {pathlib : PathLib}.
Context {optimizer_state model_state audio : Type}.
Variable load_state_dict_not_strict : model_state -> model_state -> model_state.
Variable REGISTERED_METRICS : gmap string (audio -> audio -> float).
Variable np_mean : list float -> float.
Variable transform_pesq_range : float -> float.
Variable prepare_empty_dir :
  list string -> bool -> gmap string (@checkpoint optimizer_state model_state) ->
  result (gmap string (@checkpoint optimizer_state model_state)).

Local Abbreviation trainer := (@BaseTrainer optimizer_state model_state).
Local Abbreviation files := (gmap string (@checkpoint optimizer_state model_state)).

Lemma resume_checkpoint_missing (self : trainer) (fs : files) :
  fs !! latest_model_path self = None ->
  _resume_checkpoint self fs
  = Raise (AssertionError
             (latest_model_path self +:+ " does not exist, can not load latest checkpoint.")).
Proof.
  intros Hnone. unfold _resume_checkpoint, exists_. fold (latest_model_path self).
  rewrite bool_decide_eq_false_2; [reflexivity|].
  rewrite Hnone. intros [? [=]].
Qed.

Lemma resume_checkpoint_present (self : trainer) (fs : files) (c : checkpoint) :
  fs !! latest_model_path self = Some c ->
  exists self', _resume_checkpoint self fs = Return self'.
Proof.
  intros Hsome. unfold _resume_checkpoint, exists_, torch_load.
  fold (latest_model_path self). rewrite Hsome.
  rewrite bool_decide_eq_true_2 by (eexists; reflexivity). simpl.
  destruct (model self); eexists; reflexivity.
Qed.

Lemma preload_model_missing (self : trainer) (fs : files) (model_path : string) :
  fs !! absolute (expanduser model_path) = None ->
  _preload_model load_state_dict_not_strict self fs model_path
  = Raise (AssertionError
             ("Preloaded *.tar file is not exist. please check path: "
              +:+ absolute (expanduser model_path))).
Proof.
  intros Hnone. unfold _preload_model, exists_.
  rewrite bool_decide_eq_false_2; [reflexivity|].
  rewrite Hnone. intros [? [=]].
Qed.

Lemma preload_model_present (self : trainer) (fs : files) (model_path : string)
    (c : checkpoint) :
  fs !! absolute (expanduser model_path) = Some c ->
  exists self', _preload_model load_state_dict_not_strict self fs model_path = Return self'.
Proof.
  intros Hsome. unfold _preload_model, exists_, torch_load. rewrite Hsome.
  rewrite bool_decide_eq_true_2 by (eexists; reflexivity). simpl.
  destruct (model self); eexists; reflexivity.
Qed.

(** C5. A failed precondition is an [AssertionError], raised before
    anything is loaded or computed, and nothing catches it:
    [_resume_checkpoint] raises exactly when
    [<checkpoints_dir>/latest_model.tar] does not exist, and the
    constructor called with [resume] lets that error through;
    [_preload_model] raises exactly when the given path does not exist;
    [metrics_visualization] raises when ["STOI"] or ["WB_PESQ"] is not
    requested, and raises on the first requested name that is not
    registered; otherwise no assertion fails: it returns, unless the
    pool is given no worker, which joblib refuses with a [ValueError]. *)
Theorem precondition_assertions (self : trainer) (fs : files) (model_path : string)
    (noisy_list clean_list enhanced_list : list audio) (metrics_list : list string)
    (epoch num_workers : Z) (mark : string) :
  (* _resume_checkpoint *)
  (fs !! latest_model_path self = None ->
   _resume_checkpoint self fs
   = Raise (AssertionError
              (latest_model_path self
               +:+ " does not exist, can not load latest checkpoint."))) /\
  (is_Some (fs !! latest_model_path self) ->
   exists self', _resume_checkpoint self fs = Return self') /\
  (forall device_count config model optimizer fs0,
     init_attributes prepare_empty_dir device_count config true model optimizer fs0
       = Return (self, fs) ->
     fs !! latest_model_path self = None ->
     __init__ load_state_dict_not_strict prepare_empty_dir device_count config true
       model optimizer fs0
     = Raise (AssertionError
                (latest_model_path self
                 +:+ " does not exist, can not load latest checkpoint."))) /\
  (* _preload_model *)
  (fs !! absolute (expanduser model_path) = None ->
   _preload_model load_state_dict_not_strict self fs model_path
   = Raise (AssertionError
              ("Preloaded *.tar file is not exist. please check path: "
               +:+ absolute (expanduser model_path)))) /\
  (is_Some (fs !! absolute (expanduser model_path)) ->
   exists self', _preload_model load_state_dict_not_strict self fs model_path = Return self') /\
  (* metrics_visualization *)
  (~ ("STOI" ∈ metrics_list /\ "WB_PESQ" ∈ metrics_list) ->
   metrics_visualization REGISTERED_METRICS np_mean transform_pesq_range
     noisy_list clean_list enhanced_list metrics_list epoch num_workers mark
   = Raise (AssertionError "'STOI' and 'WB_PESQ' must be existence.")) /\
  ("STOI" ∈ metrics_list -> "WB_PESQ" ∈ metrics_list ->
   ~ registered REGISTERED_METRICS metrics_list ->
   exists i : string,
     i ∈ metrics_list /\ REGISTERED_METRICS !! i = None /\
     metrics_visualization REGISTERED_METRICS np_mean transform_pesq_range
       noisy_list clean_list enhanced_list metrics_list epoch num_workers mark
     = Raise (AssertionError
                (i +:+ " is not registered metric, please check 'util.metrics'."))) /\
  ("STOI" ∈ metrics_list -> "WB_PESQ" ∈ metrics_list ->
   registered REGISTERED_METRICS metrics_list ->
   (forall message : string,
      metrics_visualization REGISTERED_METRICS np_mean transform_pesq_range
        noisy_list clean_list enhanced_list metrics_list epoch num_workers mark
      <> Raise (AssertionError message)) /\
   (num_workers <> 0 ->
    exists r,
      metrics_visualization REGISTERED_METRICS np_mean transform_pesq_range
        noisy_list clean_list enhanced_list metrics_list epoch num_workers mark
      = Return r) /\
   (num_workers = 0 ->
    metrics_visualization REGISTERED_METRICS np_mean transform_pesq_range
      noisy_list clean_list enhanced_list metrics_list epoch num_workers mark
    = Raise (ValueError "n_jobs == 0 in Parallel has no meaning"))).
Proof.
  repeat apply conj.
  - apply resume_checkpoint_missing.
  - intros [c Hc]. eapply resume_checkpoint_present, Hc.
  - intros device_count config model optimizer fs0 Hattr Hnone.
    unfold __init__. rewrite Hattr. simpl.
    now rewrite resume_checkpoint_missing.
  - apply preload_model_missing.
  - intros [c Hc]. eapply preload_model_present, Hc.
  - intros Hnot. unfold metrics_visualization.
    destruct (bool_decide ("STOI" ∈ metrics_list)) eqn:E1;
      destruct (bool_decide ("WB_PESQ" ∈ metrics_list)) eqn:E2;
      try reflexivity.
    apply bool_decide_eq_true_1 in E1, E2. tauto.
  - intros Hs Hp Hnot.
    destruct (assert_registered_fail _ _ Hnot) as (i & Hi & Hnone & Hraise).
    exists i. split; [exact Hi|]. split; [exact Hnone|].
    unfold metrics_visualization.
    rewrite !bool_decide_eq_true_2 by assumption. simpl. now rewrite Hraise.
  - intros Hs Hp Hreg.
    destruct (Hreg _ Hs) as [stoi Hstoi]. destruct (Hreg _ Hp) as [wb_pesq Hpesq].
    assert (Hret : num_workers <> 0 ->
              exists r,
                metrics_visualization REGISTERED_METRICS np_mean transform_pesq_range
                  noisy_list clean_list enhanced_list metrics_list epoch num_workers mark
                = Return r).
    { intros Hworkers. eexists.
      exact (metrics_visualization_registered _ _ _ _ _ _ _ _ _ _ _ _
               Hs Hp Hreg Hstoi Hpesq Hworkers). }
    split; [|split; [exact Hret|]].
    + intros message. destruct (Z.eq_dec num_workers 0) as [->|Hworkers].
      * now rewrite metrics_visualization_no_worker.
      * destruct (Hret Hworkers) as [r ->]. discriminate.
    + intros ->. now apply metrics_visualization_no_worker.
Qed.

End Assertions.

(** ** The cadence of the training loop *)

Section Train.

Context {pathlib : PathLib}.
Context {optimizer_state model_state : Type}.
Variable _train_epoch :
  Z -> @nn_model model_state -> optimizer_state -> @nn_model model_state * optimizer_state.
Variable _validation_epoch : Z -> @nn_model model_state -> float.

Local Abbreviation trainer := (@BaseTrainer optimizer_state model_state).
Local Abbreviation files := (gmap string (@checkpoint optimizer_state model_state)).
Local Abbreviation train' := (train _train_epoch _validation_epoch).
Local Abbreviation train_loop' := (train_loop _train_epoch _validation_epoch).
Local Abbreviation train_body' := (train_body _train_epoch _validation_epoch).

Lemma same_schedule_refl (self : trainer) : same_schedule self self.
Proof. repeat split. Qed.

Lemma is_best_epoch_same_schedule (self : trainer) (score : float) (flag : bool) :
  same_schedule self (snd (_is_best_epoch self score flag)).
Proof.
  unfold _is_best_epoch.
  destruct (flag && _)%bool; [repeat split|].
  destruct (negb flag && _)%bool; repeat split.
Qed.

Lemma mod_zero_iff_divide (e k : Z) : k <> 0 -> (e mod k =? 0) = true <-> (k | e).
Proof. intros Hk. rewrite Z.eqb_eq. now apply Z.mod_divide. Qed.

Lemma periodic_checkpoint_due_int (self : trainer) (epoch ci : Z) :
  save_checkpoint_interval self = VInt ci ->
  exists periodic : bool,
    periodic_checkpoint_due self epoch = Return periodic /\
    (periodic = true <-> ci <> 0 /\ (ci | epoch)).
Proof.
  intros Hci. unfold periodic_checkpoint_due. rewrite Hci. simpl.
  destruct (Z.eqb_spec ci 0) as [->|Hne]; simpl.
  - exists false. split; [reflexivity|]. split; [discriminate | tauto].
  - unfold mod_. rewrite (proj2 (Z.eqb_neq ci 0) Hne). simpl.
    eexists. split; [reflexivity|].
    rewrite mod_zero_iff_divide by exact Hne. tauto.
Qed.

Lemma validation_due_int (self : trainer) (epoch vi : Z) :
  validation_interval self = VInt vi -> 1 <= vi ->
  exists validate : bool,
    validation_due self epoch = Return validate /\
    (validate = true <-> (vi | epoch)).
Proof.
  intros Hvi Hpos. unfold validation_due, mod_. rewrite Hvi. simpl.
  rewrite (proj2 (Z.eqb_neq vi 0)) by lia. simpl.
  eexists. split; [reflexivity|]. apply mod_zero_iff_divide. lia.
Qed.

(** The body of the loop in closed form, for integer intervals. *)
Lemma train_body_closed (epoch : Z) (self : trainer) (fs : files) (ci vi : Z)
    (m : nn_model) (o : optimizer_state) :
  save_checkpoint_interval self = VInt ci ->
  validation_interval self = VInt vi -> 1 <= vi ->
  _train_epoch epoch (model self) (optimizer self) = (m, o) ->
  let self1 := set_optimizer (set_model self m) o in
  let periodic := (negb (ci =? 0) && (epoch mod ci =? 0))%bool in
  let validate := epoch mod vi =? 0 in
  let score := _validation_epoch epoch (model self1) in
  let r := _is_best_epoch self1 score (truthy (save_max_metric_score self1)) in
  let fs1 := if periodic then _save_checkpoint self1 fs epoch false else fs in
  train_body' epoch self fs
  = Return (if validate then snd r else self1,
            if (validate && fst r)%bool then _save_checkpoint (snd r) fs1 epoch true else fs1,
            epoch_calls epoch periodic validate score (fst r)).
Proof.
  intros Hci Hvi Hpos Hmo. cbv zeta. unfold train_body. rewrite Hmo.
  set (self1 := set_optimizer (set_model self m) o).
  assert (Hci1 : save_checkpoint_interval self1 = VInt ci) by exact Hci.
  assert (Hvi1 : validation_interval self1 = VInt vi) by exact Hvi.
  clearbody self1.
  set (score := _validation_epoch epoch (model self1)).
  set (r := _is_best_epoch self1 score (truthy (save_max_metric_score self1))).
  clearbody r. destruct r as [answer self2].
  unfold periodic_checkpoint_due, validation_due, mod_.
  rewrite Hci1, Hvi1.
  assert (Hvz : (vi =? 0) = false) by (apply Z.eqb_neq; lia).
  cbn [bind as_int ne_zero]. rewrite Hvz. cbn [bind].
  destruct (ci =? 0) eqn:Eci; cbn [negb bind andb];
    destruct (epoch mod vi =? 0) eqn:Ev; try destruct (epoch mod ci =? 0) eqn:Ec;
    cbn [bind andb fst snd]; try destruct answer; reflexivity.
Qed.

Lemma train_body_segment (epoch : Z) (self : trainer) (fs : files) (ci vi : Z) :
  save_checkpoint_interval self = VInt ci ->
  validation_interval self = VInt vi -> 1 <= vi ->
  exists (self' : trainer) (fs' : files) (segment : list call),
    train_body' epoch self fs = Return (self', fs', segment) /\
    epoch_segment ci vi epoch segment /\
    same_schedule self self'.
Proof.
  intros Hci Hvi Hpos. unfold train_body.
  destruct (_train_epoch epoch (model self) (optimizer self)) as [m o].
  set (self1 := set_optimizer (set_model self m) o).
  destruct (periodic_checkpoint_due_int self1 epoch ci Hci) as (periodic & -> & Hp).
  simpl bind.
  destruct (validation_due_int self1 epoch vi Hvi Hpos) as (validate & Hv & Hviff).
  assert (Hs1 : same_schedule self self1) by (repeat split).
  destruct periodic, validate; rewrite Hv; simpl bind; cbv iota.
  all: try match goal with
       | |- context [_is_best_epoch ?s ?sc ?f] =>
           pose proof (is_best_epoch_same_schedule s sc f) as Hsame;
           destruct (_is_best_epoch s sc f) as [[|] self2]; simpl in Hsame
       end.
  all: do 3 eexists; (split; [reflexivity|]); split.
  all: try (unfold same_schedule in *; intuition congruence).
  all: unfold epoch_segment.
  - exists true, true, (_validation_epoch epoch (model self1)), true.
    split; [reflexivity | tauto].
  - exists true, true, (_validation_epoch epoch (model self1)), false.
    split; [reflexivity | tauto].
  - exists true, false, 0%float, false. split; [reflexivity | tauto].
  - exists false, true, (_validation_epoch epoch (model self1)), true.
    split; [reflexivity | tauto].
  - exists false, true, (_validation_epoch epoch (model self1)), false.
    split; [reflexivity | tauto].
  - exists false, false, 0%float, false. split; [reflexivity | tauto].
Qed.

Lemma train_loop_segments (ci vi : Z) (epoch_range : list Z) :
  forall (self : trainer) (fs : files),
    save_checkpoint_interval self = VInt ci ->
    validation_interval self = VInt vi -> 1 <= vi ->
    exists (self' : trainer) (fs' : files) (segments : list (list call)),
      train_loop' epoch_range self fs = Return (self', fs', concat segments) /\
      Forall2 (epoch_segment ci vi) epoch_range segments.
Proof.
  induction epoch_range as [|epoch rest IH]; intros self fs Hci Hvi Hpos.
  - exists self, fs, []. split; [reflexivity | constructor].
  - destruct (train_body_segment epoch self fs ci vi Hci Hvi Hpos)
      as (self1 & fs1 & segment & Hbody & Hseg & (_ & Hci1 & Hvi1 & _)).
    rewrite Hci in Hci1. rewrite Hvi in Hvi1.
    destruct (IH self1 fs1 Hci1 Hvi1 Hpos) as (self2 & fs2 & segments & Hloop & Hall).
    exists self2, fs2, (segment :: segments).
    split; [|now constructor].
    simpl train_loop. rewrite Hbody. simpl bind. rewrite Hloop. reflexivity.
Qed.

Lemma elem_of_epoch_calls (c : call) (epoch : Z) (periodic validate : bool)
    (score : float) (answer : bool) :
  c ∈ epoch_calls epoch periodic validate score answer <->
  c = call_train_epoch epoch \/
  (periodic = true /\ c = call_save_checkpoint epoch false) \/
  (validate = true /\
   (c = call_validation_epoch epoch \/ c = call_is_best_epoch epoch score answer \/
    (answer = true /\ c = call_save_checkpoint epoch true))).
Proof.
  unfold epoch_calls.
  destruct periodic, validate, answer; simpl;
    rewrite ?elem_of_cons, ?elem_of_nil; intuition congruence.
Qed.

Lemma elem_of_segments (ci vi : Z) (epoch_range : list Z) (segments : list (list call)) :
  Forall2 (epoch_segment ci vi) epoch_range segments ->
  (forall c : call, c ∈ concat segments ->
     exists (epoch : Z) (segment : list call),
       epoch ∈ epoch_range /\ epoch_segment ci vi epoch segment /\
       c ∈ segment /\ (forall c' : call, c' ∈ segment -> c' ∈ concat segments)) /\
  (forall epoch : Z, epoch ∈ epoch_range ->
     exists segment : list call,
       epoch_segment ci vi epoch segment /\
       (forall c : call, c ∈ segment -> c ∈ concat segments)).
Proof.
  induction 1 as [|epoch segment rest segments Hseg Hall [IH1 IH2]]; split.
  - intros c Hc. inversion Hc.
  - intros epoch He. inversion He.
  - intros c Hc. simpl in Hc. apply elem_of_app in Hc as [Hc|Hc].
    + exists epoch, segment. split; [now left|]. split; [exact Hseg|].
      split; [exact Hc|]. intros c' Hc'. simpl. apply elem_of_app. now left.
    + destruct (IH1 c Hc) as (e & seg & He & Hs & Hin & Hsub).
      exists e, seg. split; [now right|]. split; [exact Hs|]. split; [exact Hin|].
      intros c' Hc'. simpl. apply elem_of_app. right. now apply Hsub.
  - intros e [->|He]%elem_of_cons.
    + exists segment. split; [exact Hseg|].
      intros c Hc. simpl. apply elem_of_app. now left.
    + destruct (IH2 e He) as (seg & Hs & Hsub).
      exists seg. split; [exact Hs|].
      intros c Hc. simpl. apply elem_of_app. right. now apply Hsub.
Qed.

Lemma elem_of_range (start stop e : Z) : e ∈ range start stop <-> start <= e < stop.
Proof. unfold range. rewrite elem_of_seqZ. lia. Qed.

(** What the calls of a run say about one epoch. *)
Lemma segments_cadence (ci vi : Z) (epoch_range : list Z) (segments : list (list call))
    (e : Z) :
  Forall2 (epoch_segment ci vi) epoch_range segments ->
  (call_save_checkpoint e false ∈ concat segments -> ci <> 0 /\ (ci | e)) /\
  (call_validation_epoch e ∈ concat segments -> (vi | e)) /\
  (forall score answer,
     call_is_best_epoch e score answer ∈ concat segments -> (vi | e)) /\
  (call_save_checkpoint e true ∈ concat segments <->
   exists score, call_is_best_epoch e score true ∈ concat segments) /\
  (e ∈ epoch_range ->
   call_train_epoch e ∈ concat segments /\
   (ci <> 0 /\ (ci | e) -> call_save_checkpoint e false ∈ concat segments) /\
   ((vi | e) ->
    call_validation_epoch e ∈ concat segments /\
    exists score answer, call_is_best_epoch e score answer ∈ concat segments)).
Proof.
  intros Hall.
  destruct (elem_of_segments ci vi epoch_range segments Hall) as [Hfrom Hto].
  assert (Hcase : forall c : call, c ∈ concat segments ->
            exists e' p v s a,
              (p = true <-> ci <> 0 /\ (ci | e')) /\ (v = true <-> (vi | e')) /\
              c ∈ epoch_calls e' p v s a /\
              (forall c', c' ∈ epoch_calls e' p v s a -> c' ∈ concat segments)).
  { intros c Hc.
    destruct (Hfrom c Hc) as (e' & seg & _ & (p & v & s & a & -> & Hp & Hv) & Hin & Hsub).
    now exists e', p, v, s, a. }
  repeat apply conj.
  - intros Hc. destruct (Hcase _ Hc) as (e' & p & v & s & a & Hp & Hv & Hin & _).
    apply elem_of_epoch_calls in Hin.
    destruct Hin as [?|[[? [= ->]]|[_ [?|[?|[_ ?]]]]]]; try discriminate. tauto.
  - intros Hc. destruct (Hcase _ Hc) as (e' & p & v & s & a & Hp & Hv & Hin & _).
    apply elem_of_epoch_calls in Hin.
    destruct Hin as [?|[[_ ?]|[? [[= ->]|[?|[_ ?]]]]]]; try discriminate. tauto.
  - intros score answer Hc.
    destruct (Hcase _ Hc) as (e' & p & v & s & a & Hp & Hv & Hin & _).
    apply elem_of_epoch_calls in Hin.
    destruct Hin as [?|[[_ ?]|[? [?|[[= -> _ _]|[_ ?]]]]]]; try discriminate. tauto.
  - intros Hc. destruct (Hcase _ Hc) as (e' & p & v & s & a & Hp & Hv & Hin & Hsub).
    apply elem_of_epoch_calls in Hin.
    destruct Hin as [?|[[_ ?]|[Hvt [?|[?|[-> [= ->]]]]]]]; try discriminate.
    exists s. apply Hsub, elem_of_epoch_calls. tauto.
  - intros [score Hc].
    destruct (Hcase _ Hc) as (e' & p & v & s & a & Hp & Hv & Hin & Hsub).
    apply elem_of_epoch_calls in Hin.
    destruct Hin as [?|[[_ ?]|[Hvt [?|[[= -> _ <-]|[_ ?]]]]]]; try discriminate.
    apply Hsub, elem_of_epoch_calls. tauto.
  - intros He. destruct (Hto e He) as (seg & (p & v & s & a & -> & Hp & Hv) & Hsub).
    split; [|split].
    + apply Hsub, elem_of_epoch_calls. tauto.
    + intros Hdue. apply Hsub, elem_of_epoch_calls. tauto.
    + intros Hdue. split.
      * apply Hsub, elem_of_epoch_calls. tauto.
      * exists s, a. apply Hsub, elem_of_epoch_calls. tauto.
Qed.

Lemma train_segments (self : trainer) (fs : files) (last ci vi : Z) :
  epochs self = VInt last ->
  save_checkpoint_interval self = VInt ci ->
  validation_interval self = VInt vi -> 1 <= vi ->
  exists (self' : trainer) (fs' : files) (segments : list (list call)),
    train' self fs = Return (self', fs', concat segments) /\
    Forall2 (epoch_segment ci vi) (range (start_epoch self) (last + 1)) segments.
Proof.
  intros Hlast Hci Hvi Hpos. unfold train. rewrite Hlast. simpl bind.
  now apply train_loop_segments.
Qed.

(** Each epoch of the loop is one [epoch_effect]. *)
Lemma train_body_effect (epoch : Z) (self : trainer) (fs : files) (ci vi : Z) :
  save_checkpoint_interval self = VInt ci ->
  validation_interval self = VInt vi -> 1 <= vi ->
  exists (self' : trainer) (fs' : files) (segment : list call),
    train_body' epoch self fs = Return (self', fs', segment) /\
    epoch_effect _train_epoch _validation_epoch ci vi epoch (self, fs) (self', fs') segment /\
    same_schedule self self'.
Proof.
  intros Hci Hvi Hpos.
  destruct (_train_epoch epoch (model self) (optimizer self)) as [m o] eqn:Hmo.
  pose proof (train_body_closed epoch self fs ci vi m o Hci Hvi Hpos Hmo) as Hclosed.
  cbv zeta in Hclosed.
  do 3 eexists. split; [exact Hclosed|]. split.
  - unfold epoch_effect. cbn [fst snd]. rewrite Hmo. cbn [fst snd].
    exists (negb (ci =? 0) && (epoch mod ci =? 0))%bool, (epoch mod vi =? 0).
    split; [|split; [|split; reflexivity]].
    + destruct (Z.eqb_spec ci 0) as [->|Hne]; simpl.
      * split; [discriminate | tauto].
      * rewrite mod_zero_iff_divide by exact Hne. tauto.
    + apply mod_zero_iff_divide. lia.
  - destruct (epoch mod vi =? 0); [|repeat split].
    match goal with
    | |- same_schedule _ (snd (_is_best_epoch ?s ?sc ?f)) =>
        pose proof (is_best_epoch_same_schedule s sc f) as Hsame
    end.
    unfold same_schedule in *. simpl in Hsame. intuition congruence.
Qed.

Lemma train_loop_effect (ci vi : Z) (epoch_range : list Z) :
  forall (self : trainer) (fs : files),
    save_checkpoint_interval self = VInt ci ->
    validation_interval self = VInt vi -> 1 <= vi ->
    exists (self' : trainer) (fs' : files) (calls : list call),
      train_loop' epoch_range self fs = Return (self', fs', calls) /\
      epochs_effect _train_epoch _validation_epoch ci vi epoch_range
        (self, fs) (self', fs') calls.
Proof.
  induction epoch_range as [|epoch rest IH]; intros self fs Hci Hvi Hpos.
  - exists self, fs, []. split; [reflexivity | constructor].
  - destruct (train_body_effect epoch self fs ci vi Hci Hvi Hpos)
      as (self1 & fs1 & segment & Hbody & Heffect & (_ & Hci1 & Hvi1 & _)).
    rewrite Hci in Hci1. rewrite Hvi in Hvi1.
    destruct (IH self1 fs1 Hci1 Hvi1 Hpos) as (self2 & fs2 & calls & Hloop & Hrun).
    exists self2, fs2, (segment ++ calls)%list.
    split; [|econstructor; eassumption].
    simpl train_loop. rewrite Hbody. simpl bind. rewrite Hloop. reflexivity.
Qed.

(** What one epoch does to the files of the epochs. *)
Lemma epoch_effect_files (ci vi epoch : Z) (self self' : trainer) (fs fs' : files)
    (segment : list call) :
  epoch_effect _train_epoch _validation_epoch ci vi epoch (self, fs) (self', fs') segment ->
  checkpoints_dir self' = checkpoints_dir self /\
  (forall (e : Z) (b : bool),
     call_save_checkpoint e b ∈ segment ->
     e = epoch /\ epoch_saved (checkpoints_dir self) fs' epoch) /\
  ((forall b : bool, call_save_checkpoint epoch b ∉ segment) -> fs' = fs) /\
  (forall e : Z, e <> epoch ->
     fs' !! (checkpoints_dir self // epoch_file_name e)
     = fs !! (checkpoints_dir self // epoch_file_name e)).
Proof.
  unfold epoch_effect. cbn [fst snd].
  destruct (_train_epoch epoch (model self) (optimizer self)) as [m o]. cbn [fst snd].
  set (self1 := set_optimizer (set_model self m) o).
  set (score := _validation_epoch epoch (model self1)).
  set (flag := truthy (save_max_metric_score self1)).
  intros (periodic & validate & _ & _ & -> & Hafter). cbv zeta in Hafter.
  assert (Hdir1 : checkpoints_dir self1 = checkpoints_dir self) by reflexivity.
  assert (Hdir2 : checkpoints_dir (snd (_is_best_epoch self1 score flag))
                  = checkpoints_dir self)
    by (destruct (is_best_epoch_cases self1 score flag) as [[-> _] | ->]; reflexivity).
  set (checked := _is_best_epoch self1 score flag) in *. clearbody checked.
  destruct checked as [answer self2]. cbn [fst snd] in *.
  apply pair_equal_spec in Hafter as [-> ->].
  assert (Hsaved1 : forall fs0 b,
            epoch_saved (checkpoints_dir self) (_save_checkpoint self1 fs0 epoch b) epoch).
  { intros fs0 b. exists (state_dict_of self1 epoch). split; [|reflexivity].
    rewrite <- Hdir1. apply lookup_epoch_file_after_save. }
  assert (Hsaved2 : forall fs0 b,
            epoch_saved (checkpoints_dir self) (_save_checkpoint self2 fs0 epoch b) epoch).
  { intros fs0 b. exists (state_dict_of self2 epoch). split; [|reflexivity].
    rewrite <- Hdir2. apply lookup_epoch_file_after_save. }
  assert (Hother1 : forall fs0 b e, e <> epoch ->
            _save_checkpoint self1 fs0 epoch b !! (checkpoints_dir self // epoch_file_name e)
            = fs0 !! (checkpoints_dir self // epoch_file_name e)).
  { intros fs0 b e He. apply (save_checkpoint_other (checkpoints_dir self));
      [exact Hdir1 | apply epoch_file_ne_latest | apply epoch_file_ne_best
      | now apply epoch_file_ne_epoch_file]. }
  assert (Hother2 : forall fs0 b e, e <> epoch ->
            _save_checkpoint self2 fs0 epoch b !! (checkpoints_dir self // epoch_file_name e)
            = fs0 !! (checkpoints_dir self // epoch_file_name e)).
  { intros fs0 b e He. apply (save_checkpoint_other (checkpoints_dir self));
      [exact Hdir2 | apply epoch_file_ne_latest | apply epoch_file_ne_best
      | now apply epoch_file_ne_epoch_file]. }
  split; [destruct validate; assumption|]. split; [|split].
  - intros e b Hin. apply elem_of_epoch_calls in Hin.
    destruct Hin as [?|[[-> [= -> _]]|[-> [?|[?|[-> [= -> _]]]]]]]; try discriminate.
    + split; [reflexivity|].
      destruct (validate && answer)%bool; [apply Hsaved2 | apply Hsaved1].
    + split; [reflexivity|]. apply Hsaved2.
  - intros Hnone.
    destruct periodic.
    { exfalso. apply (Hnone false), elem_of_epoch_calls. tauto. }
    destruct validate; [|reflexivity]. destruct answer; [|reflexivity].
    exfalso. apply (Hnone true), elem_of_epoch_calls. tauto.
  - intros e He.
    destruct (validate && answer)%bool; rewrite ?Hother2 by exact He;
      destruct periodic; rewrite ?Hother1 by exact He; reflexivity.
Qed.

(** What a run does to the files of the epochs: the file of an epoch
    for which a checkpoint was saved holds a checkpoint of that epoch, the
    file of any other epoch is as it was. *)
Lemma epochs_effect_files (ci vi : Z) (epoch_range : list Z) (before after : trainer * files)
    (calls : list call) :
  epochs_effect _train_epoch _validation_epoch ci vi epoch_range before after calls ->
  NoDup epoch_range ->
  checkpoints_dir (fst after) = checkpoints_dir (fst before) /\
  forall e : Z,
    ((exists b : bool, call_save_checkpoint e b ∈ calls) ->
     e ∈ epoch_range /\ epoch_saved (checkpoints_dir (fst before)) (snd after) e) /\
    ((forall b : bool, call_save_checkpoint e b ∉ calls) ->
     snd after !! (checkpoints_dir (fst before) // epoch_file_name e)
     = snd before !! (checkpoints_dir (fst before) // epoch_file_name e)).
Proof.
  induction 1 as [state|epoch rest [self fs] [self1 fs1] [self2 fs2] segment calls
                    Hepoch Hrest IH]; intros Hnodup.
  - split; [reflexivity|]. intros e. split; [|reflexivity].
    intros [b Hb]. inversion Hb.
  - apply NoDup_cons in Hnodup as [Hnotin Hnodup].
    destruct (IH Hnodup) as [Hdir2 Hfiles]. cbn [fst snd] in *.
    destruct (epoch_effect_files _ _ _ _ _ _ _ _ Hepoch)
      as (Hdir1 & Hsegment & Hnone & Hother).
    rewrite Hdir1 in Hdir2, Hfiles.
    split; [exact Hdir2|]. intros e.
    assert (Hrest_none : e = epoch -> forall b : bool, call_save_checkpoint e b ∉ calls).
    { intros -> b Hb. apply Hnotin. apply (Hfiles epoch). now exists b. }
    split.
    + intros [b Hb]. apply elem_of_app in Hb as [Hb|Hb].
      * destruct (Hsegment e b Hb) as [-> [c [Hc Hce]]].
        split; [now left|]. exists c. split; [|exact Hce].
        rewrite <- Hc. apply (Hfiles epoch). now apply Hrest_none.
      * destruct (proj1 (Hfiles e) (ex_intro _ b Hb)) as [Hin Hsaved].
        split; [now right | exact Hsaved].
    + intros Hnone'.
      assert (Hn1 : forall b : bool, call_save_checkpoint e b ∉ segment)
        by (intros b Hb; apply (Hnone' b), elem_of_app; now left).
      assert (Hn2 : forall b : bool, call_save_checkpoint e b ∉ calls)
        by (intros b Hb; apply (Hnone' b), elem_of_app; now right).
      rewrite (proj2 (Hfiles e) Hn2).
      destruct (Z.eq_dec e epoch) as [->|Hne].
      * now rewrite (Hnone Hn1).
      * now apply Hother.
Qed.

(** C2. [train] runs to its end, and its run is the run of the epochs from
    [start_epoch] to [epochs] one after the other ([epochs_effect]): the
    trainer, the files and the calls it returns are those this leaves.
    For every epoch [e] in that range: the training step is run; a
    periodic checkpoint is saved if and only if [save_checkpoint_interval]
    is not 0 and divides [e]; validation is run if and only if
    [validation_interval] divides [e], and then, and only then, the
    best-epoch check is run; the best checkpoint is saved if and only if
    that check answered [True].  The saves are in the files: after a
    periodic or a best checkpoint of [e] the file of [e] holds a
    checkpoint of epoch [e], and when neither was saved the file of [e] is
    as it was before the run.  [validation_interval] is at least 1, as
    the constructor asserts. *)
Theorem train_cadence (self : trainer) (fs : files) (last ci vi : Z) :
  epochs self = VInt last ->
  save_checkpoint_interval self = VInt ci ->
  validation_interval self = VInt vi ->
  1 <= vi ->
  exists (self' : trainer) (fs' : files) (calls : list call),
    train' self fs = Return (self', fs', calls) /\
    epochs_effect _train_epoch _validation_epoch ci vi
      (range (start_epoch self) (last + 1)) (self, fs) (self', fs') calls /\
    (exists segments : list (list call),
       calls = concat segments /\
       Forall2 (epoch_segment ci vi) (range (start_epoch self) (last + 1)) segments) /\
    forall e : Z, start_epoch self <= e <= last ->
      call_train_epoch e ∈ calls /\
      (call_save_checkpoint e false ∈ calls <-> ci <> 0 /\ (ci | e)) /\
      (call_validation_epoch e ∈ calls <-> (vi | e)) /\
      ((exists score answer, call_is_best_epoch e score answer ∈ calls) <-> (vi | e)) /\
      (call_save_checkpoint e true ∈ calls <->
       exists score, call_is_best_epoch e score true ∈ calls) /\
      (ci <> 0 /\ (ci | e) -> epoch_saved (checkpoints_dir self) fs' e) /\
      (call_save_checkpoint e true ∈ calls -> epoch_saved (checkpoints_dir self) fs' e) /\
      (~ (ci <> 0 /\ (ci | e)) -> call_save_checkpoint e true ∉ calls ->
       fs' !! (checkpoints_dir self // epoch_file_name e)
       = fs !! (checkpoints_dir self // epoch_file_name e)).
Proof.
  intros Hlast Hci Hvi Hpos.
  destruct (train_segments self fs last ci vi Hlast Hci Hvi Hpos)
    as (self' & fs' & segments & Htrain & Hall).
  destruct (train_loop_effect ci vi (range (start_epoch self) (last + 1)) self fs
              Hci Hvi Hpos) as (self'' & fs'' & calls & Hloop & Hrun).
  assert (Hsame : (self'', fs'', calls) = (self', fs', concat segments)).
  { unfold train in Htrain. rewrite Hlast in Htrain. simpl bind in Htrain.
    rewrite Hloop in Htrain. now injection Htrain as -> -> ->. }
  injection Hsame as -> -> ->.
  destruct (epochs_effect_files _ _ _ _ _ _ Hrun (NoDup_seqZ _ _)) as [_ Hfiles].
  cbn [fst snd] in Hfiles.
  exists self', fs', (concat segments).
  split; [exact Htrain|]. split; [exact Hrun|]. split; [now exists segments|].
  intros e He.
  assert (Hin : e ∈ range (start_epoch self) (last + 1)) by (apply elem_of_range; lia).
  destruct (segments_cadence ci vi _ segments e Hall)
    as (Hsave & Hval & Hbest & Hbestsave & Hrange).
  destruct (Hrange Hin) as (Htrain_e & Hsave' & Hval').
  destruct (Hfiles e) as [Hsaved Hkept].
  split; [exact Htrain_e|]. split; [split; assumption|].
  split; [split; [exact Hval | intros Hd; exact (proj1 (Hval' Hd))]|].
  split; [split; [intros (score & answer & Hc); exact (Hbest _ _ Hc)
                 | intros Hd; exact (proj2 (Hval' Hd))]|].
  split; [exact Hbestsave|].
  split; [intros Hdue; apply Hsaved; exists false; now apply Hsave'|].
  split; [intros Hc; apply Hsaved; now exists true|].
  intros Hnot Hnone. apply Hkept. intros [|] Hc; [now apply Hnone | now apply Hnot, Hsave].
Qed.

(** C9. With [save_checkpoint_interval = 0] the test of the periodic
    checkpoint answers [False] without taking [epoch % 0] (which would
    raise [ZeroDivisionError]); [train] runs to its end and saves no
    periodic checkpoint, while every best-epoch check that answers [True]
    is still followed by the best checkpoint. *)
Theorem zero_interval_no_periodic_checkpoint (self : trainer) (fs : files) (last vi : Z) :
  epochs self = VInt last ->
  save_checkpoint_interval self = VInt 0 ->
  validation_interval self = VInt vi ->
  1 <= vi ->
  (forall e : Z,
     periodic_checkpoint_due self e = Return false /\ mod_ e 0 = Raise ZeroDivisionError) /\
  exists (self' : trainer) (fs' : files) (calls : list call),
    train' self fs = Return (self', fs', calls) /\
    (forall e : Z, call_save_checkpoint e false ∉ calls) /\
    (forall (e : Z) (score : float),
       call_is_best_epoch e score true ∈ calls -> call_save_checkpoint e true ∈ calls).
Proof.
  intros Hlast Hci Hvi Hpos. split.
  - intros e. unfold periodic_checkpoint_due. rewrite Hci. split; reflexivity.
  - destruct (train_segments self fs last 0 vi Hlast Hci Hvi Hpos)
      as (self' & fs' & segments & Htrain & Hall).
    exists self', fs', (concat segments). split; [exact Htrain|]. split.
    + intros e Hc.
      destruct (segments_cadence 0 vi _ segments e Hall) as (Hsave & _).
      destruct (Hsave Hc) as [Hne _]. now apply Hne.
    + intros e score Hc.
      destruct (segments_cadence 0 vi _ segments e Hall) as (_ & _ & _ & Hbestsave & _).
      apply Hbestsave. now exists score.
Qed.

End Train.

Example train_example :
  match train (pathlib := PosixPaths.posix) example_train_epoch example_validation_epoch
          (example_trainer 2 3) ∅ with
  | Return (self, fs, calls) =>
      calls = [call_train_epoch 1;
               call_train_epoch 2; call_save_checkpoint 2 false;
               call_train_epoch 3; call_validation_epoch 3;
               call_is_best_epoch 3 3%float true; call_save_checkpoint 3 true;
               call_train_epoch 4; call_save_checkpoint 4 false] /\
      best_score self = 3%float /\
      bool_decide
        (dom fs = {[ "/exp/checkpoints/latest_model.tar"; "/exp/checkpoints/model_0002.tar";
                     "/exp/checkpoints/model_0003.tar"; "/exp/checkpoints/model_0004.tar";
                     "/exp/checkpoints/best_model.tar" ]}) = true
  | Raise _ => False
  end.
Proof. vm_compute. repeat split. Qed.

Lemma train_cadence_witness :
  exists self' fs' calls,
    train (pathlib := PosixPaths.posix) example_train_epoch example_validation_epoch
      (example_trainer 2 3) ∅ = Return (self', fs', calls) /\
    (call_save_checkpoint 2 false ∈ calls <-> 2 <> 0 /\ (2 | 2)) /\
    (call_validation_epoch 3 ∈ calls <-> (3 | 3)) /\
    (2 <> 0 /\ (2 | 4) -> epoch_saved (pathlib := PosixPaths.posix) "/exp/checkpoints" fs' 4) /\
    (~ (2 <> 0 /\ (2 | 1)) -> call_save_checkpoint 1 true ∉ calls ->
     fs' !! "/exp/checkpoints/model_0001.tar" = None).
Proof.
  destruct (train_cadence (pathlib := PosixPaths.posix) example_train_epoch
              example_validation_epoch (example_trainer 2 3) ∅ 4 2 3
              eq_refl eq_refl eq_refl ltac:(lia))
    as (self' & fs' & calls & Htrain & _ & _ & Hcadence).
  exists self', fs', calls. split; [exact Htrain|].
  split; [|split; [|split]].
  - exact (proj1 (proj2 (Hcadence 2 ltac:(simpl; lia)))).
  - exact (proj1 (proj2 (proj2 (Hcadence 3 ltac:(simpl; lia))))).
  - exact (proj1 (proj2 (proj2 (proj2 (proj2 (proj2 (Hcadence 4 ltac:(simpl; lia)))))))).
  - exact (proj2 (proj2 (proj2 (proj2 (proj2 (proj2 (proj2
             (Hcadence 1 ltac:(simpl; lia))))))))).
Defined.

Example train_zero_interval_example :
  match train (pathlib := PosixPaths.posix) example_train_epoch example_validation_epoch
          (example_trainer 0 2) ∅ with
  | Return (self, fs, calls) =>
      calls = [call_train_epoch 1;
               call_train_epoch 2; call_validation_epoch 2;
               call_is_best_epoch 2 2%float true; call_save_checkpoint 2 true;
               call_train_epoch 3;
               call_train_epoch 4; call_validation_epoch 4;
               call_is_best_epoch 4 4%float true; call_save_checkpoint 4 true]
  | Raise _ => False
  end.
Proof. vm_compute. reflexivity. Qed.

Lemma zero_interval_no_periodic_checkpoint_witness :
  periodic_checkpoint_due (example_trainer 0 2) 3 = Return false /\
  exists self' fs' calls,
    train (pathlib := PosixPaths.posix) example_train_epoch example_validation_epoch
      (example_trainer 0 2) ∅ = Return (self', fs', calls) /\
    call_save_checkpoint 2 false ∉ calls.
Proof.
  destruct (zero_interval_no_periodic_checkpoint (pathlib := PosixPaths.posix)
              example_train_epoch example_validation_epoch (example_trainer 0 2) ∅ 4 2
              eq_refl eq_refl eq_refl ltac:(lia))
    as (Hdue & self' & fs' & calls & Htrain & Hnone & _).
  split; [exact (proj1 (Hdue 3))|].
  exists self', fs', calls. split; [exact Htrain | exact (Hnone 2)].
Defined.

(** ** The constructor *)

Section Constructor.

Context {pathlib : PathLib}.
Context {optimizer_state model_state : Type}.
Variable load_state_dict_not_strict : model_state -> model_state -> model_state.
Variable prepare_empty_dir :
  list string -> bool -> gmap string (@checkpoint optimizer_state model_state) ->
  result (gmap string (@checkpoint optimizer_state model_state)).

Local Abbreviation trainer := (@BaseTrainer optimizer_state model_state).
Local Abbreviation files := (gmap string (@checkpoint optimizer_state model_state)).
Local Abbreviation init_attributes' := (init_attributes prepare_empty_dir).
Local Abbreviation init' := (__init__ load_state_dict_not_strict prepare_empty_dir).

Lemma bind_Return {A B : Type} (m : result A) (k : A -> result B) (b : B) :
  bind m k = Return b -> exists a : A, m = Return a /\ k a = Return b.
Proof. destruct m as [a|e]; simpl; [eauto | discriminate]. Qed.

Ltac bind_inv H :=
  repeat match type of H with
         | bind ?m _ = Return _ =>
             let x := fresh "x" in
             let Hx := fresh "Hx" in
             apply bind_Return in H as (x & Hx & H)
         end.

(** What the constructor establishes before it resumes or preloads: the
    checkpoints directory is an absolute path, [validation_interval] is an
    integer of at least 1, training starts at epoch 1 and [best_score] is
    the worst score there is. *)
Lemma init_attributes_invariant (device_count : Z) (config : value) (resume : bool)
    (model : model_state) (optimizer : optimizer_state) (fs : files)
    (self : trainer) (fs' : files) :
  init_attributes' device_count config resume model optimizer fs = Return (self, fs') ->
  is_absolute (checkpoints_dir self) = true /\
  (exists vi : Z, as_int (validation_interval self) = Return vi /\ 1 <= vi) /\
  start_epoch self = 1 /\
  best_score self = initial_best_score (truthy (save_max_metric_score self)).
Proof.
  unfold init_attributes. intros H. bind_inv H.
  injection H as <- <-. simpl.
  split; [|split; [|split]]; try reflexivity.
  - match goal with
    | Hs : truediv _ ?v = Return _ |- _ =>
        unfold truediv in Hs; destruct v; try discriminate; injection Hs as <-
    end.
    apply joinpath_is_absolute, joinpath_is_absolute, absolute_is_absolute.
  - match goal with
    | Hi : as_int ?v = Return ?i, Ha : assert (1 <=? ?i) _ = Return _ |- _ =>
        exists i; split; [exact Hi|];
        unfold assert in Ha; destruct (Z.leb_spec 1 i); [assumption | discriminate]
    end.
Qed.

Lemma assert_cases (cond : bool) (message : string) :
  (cond = true /\ assert cond message = Return tt) \/
  (cond = false /\ assert cond message = Raise (AssertionError message)).
Proof. destruct cond; auto. Qed.

(** The constructor after the attributes are set, when the entry
    ["preloaded_model_path"] of the table ["meta"] is true and the
    configuration has no such entry at its top level. *)
Lemma init_after_attributes (items : gmap string value) (meta preloaded : value)
    (resume : bool) (self : trainer) (fs : files) :
  items !! "meta" = Some meta ->
  getitem meta "preloaded_model_path" = Return preloaded ->
  truthy preloaded = true ->
  items !! "preloaded_model_path" = None ->
  (self' <- (if resume then _resume_checkpoint self fs else Return self) ;;
   meta <- getitem (VDict items) "meta" ;;
   preloaded_model_path <- getitem meta "preloaded_model_path" ;;
   self'' <- (if truthy preloaded_model_path then
                v <- getitem (VDict items) "preloaded_model_path" ;;
                model_path <- Path_of v ;;
                _preload_model load_state_dict_not_strict self' fs model_path
              else Return self') ;;
   Return (self'', fs))
  = match (if resume then _resume_checkpoint self fs else Return self) with
    | Return _ => Raise (KeyError "preloaded_model_path")
    | Raise e => Raise e
    end.
Proof.
  intros Hmeta Hpre Htrue Hnone.
  destruct (if resume then _resume_checkpoint self fs else Return self); [|reflexivity].
  simpl. rewrite Hmeta. simpl. rewrite Hpre. simpl. rewrite Htrue.
  simpl. rewrite Hnone. reflexivity.
Qed.

(** C8, as the code has it. When [config["meta"]["preloaded_model_path"]]
    is true, the constructor reads the path to preload from the top-level
    entry [config["preloaded_model_path"]].  For every configuration
    without that top-level entry the constructor never returns a trainer
    and never preloads a model: once the attributes are set and, with
    [resume], the latest checkpoint is loaded, it raises
    [KeyError("preloaded_model_path")]; an exception raised before that
    point (such as the [AssertionError] of [validation_interval >= 1] or
    of a missing latest checkpoint) is the one that leaves the
    constructor. *)
Theorem init_preload_key_error (device_count : Z) (items : gmap string value)
    (meta preloaded : value) (resume : bool) (model : model_state)
    (optimizer : optimizer_state) (fs : files) :
  items !! "meta" = Some meta ->
  getitem meta "preloaded_model_path" = Return preloaded ->
  truthy preloaded = true ->
  items !! "preloaded_model_path" = None ->
  raises (init' device_count (VDict items) resume model optimizer fs) /\
  (forall (self : trainer) (fs' : files),
     init_attributes' device_count (VDict items) resume model optimizer fs
       = Return (self, fs') ->
     (resume = true -> is_Some (fs' !! latest_model_path self)) ->
     init' device_count (VDict items) resume model optimizer fs
     = Raise (KeyError "preloaded_model_path")) /\
  (forall e : exception,
     init_attributes' device_count (VDict items) resume model optimizer fs = Raise e ->
     init' device_count (VDict items) resume model optimizer fs = Raise e) /\
  (forall (self : trainer) (fs' : files),
     init_attributes' device_count (VDict items) resume model optimizer fs
       = Return (self, fs') ->
     resume = true -> fs' !! latest_model_path self = None ->
     init' device_count (VDict items) resume model optimizer fs
     = Raise (AssertionError
                (latest_model_path self
                 +:+ " does not exist, can not load latest checkpoint."))).
Proof.
  intros Hmeta Hpre Htrue Hnone.
  destruct (init_attributes' device_count (VDict items) resume model optimizer fs)
    as [[self fs']|e] eqn:Hattr.
  - assert (Hinit : init' device_count (VDict items) resume model optimizer fs
                    = match (if resume then _resume_checkpoint self fs' else Return self) with
                      | Return _ => Raise (KeyError "preloaded_model_path")
                      | Raise e => Raise e
                      end).
    { unfold __init__. rewrite Hattr.
      exact (init_after_attributes items meta preloaded resume self fs'
               Hmeta Hpre Htrue Hnone). }
    rewrite Hinit. split; [|split; [|split]].
    + destruct (if resume then _ else _); exact I.
    + intros self0 fs0 [= <- <-] Hlatest.
      destruct resume; [|reflexivity].
      destruct (Hlatest eq_refl) as [c Hc].
      destruct (resume_checkpoint_present self fs' c Hc) as [self' ->]. reflexivity.
    + intros e [=].
    + intros self0 fs0 [= <- <-] -> Hmissing.
      now rewrite (resume_checkpoint_missing self fs' Hmissing).
  - assert (Hinit : init' device_count (VDict items) resume model optimizer fs = Raise e).
    { unfold __init__. rewrite Hattr. reflexivity. }
    rewrite Hinit.
    split; [exact I|]. split; [intros ? ? [=]|].
    split; [intros e' [= <-]; reflexivity | intros ? ? [=]].
Qed.

End Constructor.

(** A configuration whose [validation_interval] is 0, whose table
    ["meta"] names a model to preload and whose top level has no
    ["preloaded_model_path"]: the constructor raises the [AssertionError]
    of [validation_interval >= 1], not a [KeyError]. *)
Lemma init_preload_key_error_counterexample :
  (p <- (m <- getitem (example_config 0) "meta" ;; getitem m "preloaded_model_path") ;;
   Return (truthy p)) = Return true /\
  getitem (example_config 0) "preloaded_model_path"
    = Raise (KeyError "preloaded_model_path") /\
  __init__ (pathlib := PosixPaths.posix) example_load_state_dict_not_strict
    example_prepare_empty_dir 1 (example_config 0) false 22 0 ∅
  = Raise (AssertionError "") /\
  ~ exists key : string,
      __init__ (pathlib := PosixPaths.posix) example_load_state_dict_not_strict
        example_prepare_empty_dir 1 (example_config 0) false 22 0 ∅
      = Raise (KeyError key).
Proof.
  assert (H : __init__ (pathlib := PosixPaths.posix) example_load_state_dict_not_strict
                example_prepare_empty_dir 1 (example_config 0) false 22 0 ∅
              = Raise (AssertionError "")) by (vm_compute; reflexivity).
  split; [vm_compute; reflexivity|]. split; [vm_compute; reflexivity|].
  split; [exact H|]. rewrite H. intros [key [=]].
Qed.

Example init_example_attributes :
  match init_attributes (pathlib := PosixPaths.posix) example_prepare_empty_dir 1
          (example_config 5) false 22 0 ∅ with
  | Return (self, _) =>
      checkpoints_dir self = "/home/user/experiments/fullsubnet/checkpoints" /\
      validation_interval self = VInt 5 /\ start_epoch self = 1 /\
      best_score self = neg_infinity
  | Raise _ => False
  end.
Proof. vm_compute. repeat split. Qed.

(** The same configuration with [validation_interval = 5]: the
    constructor gets to the preload step and raises the [KeyError]. *)
Lemma init_preload_key_error_witness :
  __init__ (pathlib := PosixPaths.posix) example_load_state_dict_not_strict
    example_prepare_empty_dir 1 (example_config 5) false 22 0 ∅
  = Raise (KeyError "preloaded_model_path").
Proof.
  destruct (init_preload_key_error (pathlib := PosixPaths.posix)
              example_load_state_dict_not_strict example_prepare_empty_dir
              1 (example_items 5) example_meta (VStr "pretrained.tar") false 22 0 ∅
              eq_refl eq_refl eq_refl eq_refl) as (_ & Hkey & _ & _).
  eapply Hkey; [vm_compute; reflexivity | discriminate].
Defined.

(** * Part III: further properties *)

(** ** Best-score tracking on [nan] and on the first score *)

Section BestScoreEdges.

Import FloatOrderFacts.

Context {optimizer_state model_state : Type}.
Local Abbreviation trainer := (@BaseTrainer optimizer_state model_state).

Lemma leb_nan_false (a b : float) :
  is_nan (Prim2SF a) = true \/ is_nan (Prim2SF b) = true -> PrimFloat.leb a b = false.
Proof.
  intros H. destruct (PrimFloat.leb a b) eqn:E; [|reflexivity].
  destruct (fle_not_nan a b E) as [Ha Hb]. unfold not_nan in *.
  destruct H as [H|H]; congruence.
Qed.

(** X1. A [nan] score is never a best score, whichever way scores are
    compared; and once [best_score] is [nan] no score at all is accepted,
    so [best_score] stays [nan]. *)
Theorem nan_is_never_best (self : trainer) (score : float) (flag : bool) :
  is_nan (Prim2SF score) = true \/ is_nan (Prim2SF (best_score self)) = true ->
  _is_best_epoch self score flag = (false, self).
Proof.
  intros H. unfold _is_best_epoch, Py.ge, Py.le.
  rewrite (leb_nan_false (best_score self) score) by tauto.
  rewrite (leb_nan_false score (best_score self)) by tauto.
  now rewrite !andb_false_r.
Qed.

Lemma initial_best_score_worst (flag : bool) (score : float) :
  not_nan score -> no_worse flag (initial_best_score flag) score.
Proof.
  unfold not_nan, no_worse, fle. intros Hnan.
  destruct flag; simpl; rewrite leb_spec.
  - change (Prim2SF neg_infinity) with (S754_infinity true).
    revert Hnan. destruct (Prim2SF score) as [|[|]| |]; (reflexivity || discriminate).
  - change (Prim2SF infinity) with (S754_infinity false).
    revert Hnan. destruct (Prim2SF score) as [|[|]| |]; (reflexivity || discriminate).
Qed.

(** X2. On a trainer that still holds the constructor's [best_score]
    ([-inf] or [+inf]), the first score that is not [nan] is a best
    score, whatever its value: the first validation of a fresh run always
    saves a best model. *)
Theorem first_score_is_best (self : trainer) (score : float) (flag : bool) :
  best_score self = initial_best_score flag ->
  not_nan score ->
  _is_best_epoch self score flag = (true, set_best_score self score).
Proof.
  intros Hinit Hnan.
  pose proof (initial_best_score_worst flag score Hnan) as Hw.
  rewrite <- Hinit in Hw.
  destruct (is_best_epoch_cases self score flag) as [[-> _] | Hfalse]; [reflexivity|].
  exfalso. revert Hfalse Hw. unfold _is_best_epoch, no_worse, fle, Py.ge, Py.le.
  destruct flag; simpl; intros Hfalse Hw; rewrite Hw in Hfalse; discriminate.
Qed.

End BestScoreEdges.

Lemma nan_is_never_best_witness :
  _is_best_epoch (example_trainer 2 3) nan true = (false, example_trainer 2 3).
Proof. exact (nan_is_never_best (example_trainer 2 3) nan true (or_introl eq_refl)). Defined.

Lemma first_score_is_best_witness :
  _is_best_epoch (example_trainer 2 3) (-1000)%float true
  = (true, set_best_score (example_trainer 2 3) (-1000)%float).
Proof.
  exact (first_score_is_best (example_trainer 2 3) (-1000)%float true eq_refl eq_refl).
Defined.

(** ** Resuming and preloading *)

Section ResumePreload.

Context {pathlib : PathLib}.
Context {optimizer_state model_state : Type}.
Variable load_state_dict_not_strict : model_state -> model_state -> model_state.

Local Abbreviation trainer := (@BaseTrainer optimizer_state model_state).
Local Abbreviation files := (gmap string (@checkpoint optimizer_state model_state)).

Lemma resume_checkpoint_result (self r : trainer) (fs : files) :
  _resume_checkpoint self fs = Return r ->
  exists c : checkpoint,
    fs !! latest_model_path self = Some c /\
    r = Trainer (ckpt_optimizer c)
          match model self with
          | DataParallel _ => DataParallel (ckpt_model c)
          | Module_ _ => Module_ (ckpt_model c)
          end
          (epochs self) (save_checkpoint_interval self) (clip_grad_norm_value self)
          (validation_interval self) (save_max_metric_score self)
          (ckpt_epoch c + 1) (ckpt_best_score c)
          (save_dir self) (checkpoints_dir self) (logs_dir self).
Proof.
  unfold _resume_checkpoint, exists_, torch_load. fold (latest_model_path self).
  destruct (fs !! latest_model_path self) as [c|] eqn:E.
  - rewrite bool_decide_eq_true_2 by (eexists; reflexivity). simpl.
    destruct (model self); intros [= <-]; exists c; split; reflexivity.
  - rewrite bool_decide_eq_false_2 by (intros [? [=]]). discriminate.
Qed.

(** X3. [_resume_checkpoint] only reads: when it returns, the counters,
    the optimizer and the parameters are those of [latest_model.tar], the
    schedule, the directories and the wrapping of the network
    ([DataParallel] or not) are kept, and resuming again from the same
    files changes nothing more. *)
Theorem resume_checkpoint_idempotent (self r : trainer) (fs : files) :
  _resume_checkpoint self fs = Return r ->
  _resume_checkpoint r fs = Return r /\
  same_schedule self r /\
  save_dir r = save_dir self /\ checkpoints_dir r = checkpoints_dir self /\
  logs_dir r = logs_dir self /\
  same_wrapper (model self) (model r) /\
  exists c : checkpoint,
    fs !! latest_model_path self = Some c /\
    start_epoch r = ckpt_epoch c + 1 /\ best_score r = ckpt_best_score c /\
    optimizer r = ckpt_optimizer c /\ module_state (model r) = ckpt_model c.
Proof.
  intros Hr. destruct (resume_checkpoint_result self r fs Hr) as (c & Hc & ->).
  split.
  - unfold _resume_checkpoint, exists_, torch_load, latest_model_path in *. simpl.
    rewrite Hc. rewrite bool_decide_eq_true_2 by (eexists; reflexivity). simpl.
    destruct (model self); reflexivity.
  - repeat split; simpl; try (destruct (model self); exact I).
    exists c. repeat split; try exact Hc; destruct (model self); reflexivity.
Qed.

(** X4. [_preload_model], when it returns, has changed the parameters of
    the network only: they are the parameters found in the file, merged
    into the current ones by the non-strict load, under the same
    wrapping.  The epoch, the best score and the optimizer state stored
    in the file are not used: counters, optimizer, schedule and
    directories are as before. *)
Theorem preload_model_parameters_only (self r : trainer) (fs : files)
    (model_path : string) :
  _preload_model load_state_dict_not_strict self fs model_path = Return r ->
  (exists c : checkpoint,
     fs !! absolute (expanduser model_path) = Some c /\
     module_state (model r)
     = load_state_dict_not_strict (module_state (model self)) (ckpt_model c)) /\
  same_wrapper (model self) (model r) /\
  optimizer r = optimizer self /\ best_score r = best_score self /\
  same_schedule self r /\ same_place self r.
Proof.
  unfold _preload_model, exists_, torch_load.
  destruct (fs !! absolute (expanduser model_path)) as [c|] eqn:E.
  - rewrite bool_decide_eq_true_2 by (eexists; reflexivity). simpl.
    destruct (model self) eqn:Em; intros [= <-]; simpl.
    all: split; [exists c; split; reflexivity|].
    all: repeat split; reflexivity || exact I.
  - rewrite bool_decide_eq_false_2 by (intros [? [=]]). discriminate.
Qed.

End ResumePreload.

Lemma resume_checkpoint_idempotent_witness :
  let fs := _save_checkpoint (pathlib := PosixPaths.posix) (example_trainer 2 3) ∅ 7 false in
  let r := set_start_epoch (example_trainer 2 3) 8 in
  _resume_checkpoint (pathlib := PosixPaths.posix) (example_trainer 2 3) fs = Return r /\
  _resume_checkpoint (pathlib := PosixPaths.posix) r fs = Return r.
Proof.
  intros fs r.
  assert (H : _resume_checkpoint (pathlib := PosixPaths.posix) (example_trainer 2 3) fs
              = Return r) by (vm_compute; reflexivity).
  split; [exact H|].
  exact (proj1 (resume_checkpoint_idempotent (pathlib := PosixPaths.posix)
                  (example_trainer 2 3) r fs H)).
Defined.

Lemma preload_model_parameters_only_witness :
  let self : @BaseTrainer Z Z :=
    Trainer 5 (DataParallel 40) (VInt 9) (VInt 1) (VInt 10) (VInt 1) (VBool true)
      3 0.5%float "/exp" "/exp/checkpoints" "/exp/logs" in
  let fs : gmap string (@checkpoint Z Z) :=
    {[ "/work/pretrained.tar" := Checkpoint 90 0.75%float 6 41 ]} in
  let r := set_model self (DataParallel 81) in
  _preload_model (pathlib := PosixPaths.posix) Z.add self fs "pretrained.tar" = Return r /\
  optimizer r = optimizer self /\ best_score r = best_score self /\ same_place self r.
Proof.
  intros self fs r.
  assert (H : _preload_model (pathlib := PosixPaths.posix) Z.add self fs "pretrained.tar"
              = Return r) by (vm_compute; reflexivity).
  split; [exact H|].
  destruct (preload_model_parameters_only (pathlib := PosixPaths.posix) Z.add self r fs
              "pretrained.tar" H) as (_ & _ & Ho & Hb & _ & Hp).
  exact (conj Ho (conj Hb Hp)).
Defined.

(** ** What a run of [train] does to the trainer and to the files *)

Section TrainEffects.

Import FloatOrderFacts.

Context {pathlib : PathLib}.
Context {optimizer_state model_state : Type}.
Variable _train_epoch :
  Z -> @nn_model model_state -> optimizer_state -> @nn_model model_state * optimizer_state.
Variable _validation_epoch : Z -> @nn_model model_state -> float.

Local Abbreviation trainer := (@BaseTrainer optimizer_state model_state).
Local Abbreviation files := (gmap string (@checkpoint optimizer_state model_state)).
Local Abbreviation train' := (train _train_epoch _validation_epoch).
Local Abbreviation train_loop' := (train_loop _train_epoch _validation_epoch).
Local Abbreviation train_body' := (train_body _train_epoch _validation_epoch).

Lemma last_saved_epoch_app (calls calls' : list call) :
  last_saved_epoch (calls ++ calls') =
  match last_saved_epoch calls' with
  | Some e => Some e
  | None => last_saved_epoch calls
  end.
Proof.
  induction calls as [|c calls IH]; simpl.
  - destruct (last_saved_epoch calls'); reflexivity.
  - rewrite IH. destruct (last_saved_epoch calls'); reflexivity.
Qed.

Lemma last_saved_epoch_epoch_calls (epoch : Z) (periodic validate : bool) (score : float)
    (answer : bool) :
  last_saved_epoch (epoch_calls epoch periodic validate score answer)
  = if (periodic || (validate && answer))%bool then Some epoch else None.
Proof. destruct periodic, validate, answer; reflexivity. Qed.

(** Everything a single epoch does. *)
Lemma train_body_effects (epoch : Z) (self : trainer) (fs : files) (ci vi : Z) :
  save_checkpoint_interval self = VInt ci ->
  validation_interval self = VInt vi -> 1 <= vi ->
  exists (self' : trainer) (fs' : files) (segment : list call),
    train_body' epoch self fs = Return (self', fs', segment) /\
    same_schedule self self' /\ same_place self self' /\
    (not_nan (best_score self) ->
     not_nan (best_score self') /\
     no_worse (truthy (save_max_metric_score self)) (best_score self) (best_score self')) /\
    (forall p : string,
       p <> checkpoints_dir self // "latest_model.tar" ->
       p <> checkpoints_dir self // "best_model.tar" ->
       p <> checkpoints_dir self // epoch_file_name epoch ->
       fs' !! p = fs !! p) /\
    (forall p : string, is_Some (fs !! p) -> is_Some (fs' !! p)) /\
    match last_saved_epoch segment with
    | None => fs' = fs /\ best_score self' = best_score self
    | Some e =>
        e = epoch /\
        exists c : checkpoint,
          fs' !! (checkpoints_dir self // "latest_model.tar") = Some c /\
          ckpt_epoch c = epoch /\ ckpt_best_score c = best_score self'
    end.
Proof.
  intros Hci Hvi Hpos.
  destruct (_train_epoch epoch (model self) (optimizer self)) as [m o] eqn:Hmo.
  pose proof (train_body_closed _train_epoch _validation_epoch epoch self fs ci vi m o
                Hci Hvi Hpos Hmo) as Hclosed.
  cbv zeta in Hclosed.
  set (self1 := set_optimizer (set_model self m) o) in *.
  set (score := _validation_epoch epoch (model self1)) in *.
  set (flag := truthy (save_max_metric_score self1)) in *.
  set (periodic := (negb (ci =? 0) && (epoch mod ci =? 0))%bool) in *.
  clearbody periodic.
  assert (Hsched1 : same_schedule self self1) by (repeat split).
  assert (Hplace1 : same_place self self1) by (repeat split).
  assert (Hbest1 : best_score self1 = best_score self) by reflexivity.
  assert (Hdir1 : checkpoints_dir self1 = checkpoints_dir self) by reflexivity.
  assert (Hflag : flag = truthy (save_max_metric_score self)) by reflexivity.
  pose proof (is_best_epoch_step self1 score flag) as Hstep.
  destruct (is_best_epoch_cases self1 score flag) as [[Hr Hw] | Hr];
    rewrite Hr in Hclosed, Hstep; simpl fst in Hclosed; simpl snd in Hclosed, Hstep.
  - (* the score is a best score *)
    destruct (epoch mod vi =? 0) eqn:Ev; simpl andb in Hclosed; cbv iota in Hclosed;
      do 3 eexists; (split; [exact Hclosed|]).
    + split; [repeat split|]. split; [repeat split|].
      split; [intros Hn; rewrite Hbest1 in Hstep; rewrite <- Hflag; exact (Hstep Hn)|].
      split; [|split].
      * intros p H1 H2 H3.
        rewrite (save_checkpoint_other (checkpoints_dir self)) by (reflexivity || assumption).
        destruct periodic; [|reflexivity];
        now rewrite (save_checkpoint_other (checkpoints_dir self)) by (reflexivity || assumption).
      * intros p Hp. apply save_checkpoint_keeps.
        destruct periodic; [now apply save_checkpoint_keeps|exact Hp].
      * rewrite last_saved_epoch_epoch_calls, orb_true_r.
        split; [reflexivity|]. eexists.
        split; [exact (lookup_latest_after_save (set_best_score self1 score) _ epoch true)|].
        split; reflexivity.
    + split; [exact Hsched1|]. split; [exact Hplace1|].
      split; [intros Hn; split; [exact Hn | now apply no_worse_refl]|].
      split; [|split].
      * intros p H1 H2 H3. destruct periodic; [|reflexivity];
        now rewrite (save_checkpoint_other (checkpoints_dir self)) by (reflexivity || assumption).
      * intros p Hp. destruct periodic; [now apply save_checkpoint_keeps|exact Hp].
      * rewrite last_saved_epoch_epoch_calls, andb_false_l, orb_false_r.
        destruct periodic.
        -- split; [reflexivity|]. eexists.
           split; [exact (lookup_latest_after_save self1 _ epoch false)|].
           split; reflexivity.
        -- split; reflexivity.
  - (* the score is not a best score *)
    assert (Hsame : (if epoch mod vi =? 0 then self1 else self1) = self1)
      by (destruct (epoch mod vi =? 0); reflexivity).
    rewrite andb_false_r, Hsame in Hclosed.
    do 3 eexists. split; [exact Hclosed|].
    split; [exact Hsched1|]. split; [exact Hplace1|].
    split; [intros Hn; split; [exact Hn | now apply no_worse_refl]|].
    split; [|split].
    + intros p H1 H2 H3. destruct periodic; [|reflexivity];
        now rewrite (save_checkpoint_other (checkpoints_dir self)) by (reflexivity || assumption).
    + intros p Hp. destruct periodic; [now apply save_checkpoint_keeps|exact Hp].
    + rewrite last_saved_epoch_epoch_calls, andb_false_r, orb_false_r.
      destruct periodic.
      * split; [reflexivity|]. eexists.
           split; [exact (lookup_latest_after_save self1 _ epoch false)|].
        split; reflexivity.
      * split; reflexivity.
Qed.

(** Everything a run over a list of epochs does. *)
Lemma train_loop_effects (ci vi : Z) (epoch_range : list Z) :
  forall (self : trainer) (fs : files),
    save_checkpoint_interval self = VInt ci ->
    validation_interval self = VInt vi -> 1 <= vi ->
    exists (self' : trainer) (fs' : files) (calls : list call),
      train_loop' epoch_range self fs = Return (self', fs', calls) /\
      same_schedule self self' /\ same_place self self' /\
      (not_nan (best_score self) ->
       not_nan (best_score self') /\
       no_worse (truthy (save_max_metric_score self)) (best_score self) (best_score self')) /\
      (forall p : string,
         ~ checkpoint_file (checkpoints_dir self) epoch_range p -> fs' !! p = fs !! p) /\
      (forall p : string, is_Some (fs !! p) -> is_Some (fs' !! p)) /\
      match last_saved_epoch calls with
      | None => fs' = fs /\ best_score self' = best_score self
      | Some e =>
          e ∈ epoch_range /\
          exists c : checkpoint,
            fs' !! (checkpoints_dir self // "latest_model.tar") = Some c /\
            ckpt_epoch c = e /\ ckpt_best_score c = best_score self'
      end.
Proof.
  induction epoch_range as [|epoch rest IH]; intros self fs Hci Hvi Hpos.
  - exists self, fs, []. split; [reflexivity|].
    split; [repeat split|]. split; [repeat split|].
    split; [intros Hn; split; [exact Hn | now apply no_worse_refl]|].
    repeat split; auto.
  - destruct (train_body_effects epoch self fs ci vi Hci Hvi Hpos)
      as (self1 & fs1 & segment & Hbody & Hsched1 & Hplace1 & Hbest1 & Hother1 & Hkeep1
          & Hlast1).
    assert (Hci1 : save_checkpoint_interval self1 = VInt ci)
      by (destruct Hsched1 as (_ & -> & _); exact Hci).
    assert (Hvi1 : validation_interval self1 = VInt vi)
      by (destruct Hsched1 as (_ & _ & -> & _); exact Hvi).
    destruct (IH self1 fs1 Hci1 Hvi1 Hpos)
      as (self2 & fs2 & calls & Hloop & Hsched2 & Hplace2 & Hbest2 & Hother2 & Hkeep2
          & Hlast2).
    assert (Hdir1 : checkpoints_dir self1 = checkpoints_dir self)
      by (destruct Hplace1 as (_ & _ & -> & _); reflexivity).
    assert (Hflag1 : save_max_metric_score self1 = save_max_metric_score self)
      by (destruct Hsched1 as (_ & _ & _ & ->); reflexivity).
    exists self2, fs2, (segment ++ calls)%list.
    split; [simpl train_loop; rewrite Hbody; simpl bind; rewrite Hloop; reflexivity|].
    split; [unfold same_schedule in *; intuition congruence|].
    split; [unfold same_place in *; intuition congruence|].
    split; [|split; [|split]].
    + intros Hn. destruct (Hbest1 Hn) as [Hn1 Hw1].
      destruct (Hbest2 Hn1) as [Hn2 Hw2]. rewrite Hflag1 in Hw2.
      split; [exact Hn2 | eauto using no_worse_trans].
    + intros p Hp. rewrite Hdir1 in Hother2.
      rewrite Hother2, Hother1; [reflexivity|..].
      * intros ->; apply Hp; now left.
      * intros ->; apply Hp; right; now left.
      * intros ->; apply Hp; right; right; exists epoch; split; [now left | reflexivity].
      * intros [H|[H|(e & He & H)]]; apply Hp; [now left | right; now left |].
        right; right; exists e; split; [now right | exact H].
    + intros p Hp. auto.
    + rewrite last_saved_epoch_app.
      destruct (last_saved_epoch calls) as [e|].
      * destruct Hlast2 as (He & c & Hc & Hce & Hcb). rewrite Hdir1 in Hc.
        split; [now right|]. now exists c.
      * destruct Hlast2 as [-> Hb2].
        destruct (last_saved_epoch segment) as [e|].
        -- destruct Hlast1 as (-> & c & Hc & Hce & Hcb).
           split; [now left|]. exists c. repeat split; congruence.
        -- destruct Hlast1 as [-> Hb1]. split; congruence.
Qed.

Lemma train_empty_range (self : trainer) (fs : files) (last : Z) :
  epochs self = VInt last ->
  last < start_epoch self ->
  train' self fs = Return (self, fs, []).
Proof.
  intros Hlast Hlt. unfold train, range. rewrite Hlast. simpl bind.
  now rewrite seqZ_nil by lia.
Qed.

Lemma resume_from_latest (fresh : trainer) (fs : files) (dir : string) (c : checkpoint) :
  is_absolute dir = true ->
  checkpoints_dir fresh = dir ->
  fs !! (dir // "latest_model.tar") = Some c ->
  exists r : trainer,
    _resume_checkpoint fresh fs = Return r /\
    start_epoch r = ckpt_epoch c + 1 /\ best_score r = ckpt_best_score c /\
    epochs r = epochs fresh.
Proof.
  intros Habs Hdir Hc.
  assert (Hpath : latest_model_path fresh = dir // "latest_model.tar").
  { unfold latest_model_path.
    now rewrite Hdir, (expanduser_of_absolute _ Habs), (absolute_of_absolute _ Habs). }
  assert (Hc' : fs !! latest_model_path fresh = Some c) by now rewrite Hpath.
  destruct (resume_checkpoint_present fresh fs c Hc') as [r Hr].
  exists r. split; [exact Hr|].
  destruct (resume_checkpoint_result fresh r fs Hr) as (c' & Hc'' & ->).
  rewrite Hc' in Hc''. injection Hc'' as <-. repeat split.
Qed.

Lemma range_snoc (start last : Z) :
  start <= last -> range start (last + 1) = (range start last ++ [last])%list.
Proof.
  intros Hle. unfold range.
  replace (last + 1 - start) with ((last - start) + 1) by lia.
  rewrite seqZ_app by lia.
  replace (start + (last - start)) with last by lia.
  rewrite (seqZ_cons last 1) by lia.
  now rewrite (seqZ_nil (Z.succ last)) by lia.
Qed.

Lemma last_saved_epoch_segments (ci vi : Z) (epoch_range : list Z) (e : Z)
    (segments : list (list call)) :
  Forall2 (epoch_segment ci vi) (epoch_range ++ [e]) segments ->
  ci <> 0 -> (ci | e) ->
  last_saved_epoch (concat segments) = Some e.
Proof.
  intros Hall Hne Hdiv.
  apply Forall2_app_inv_l in Hall as (segs1 & segs2 & _ & Hlast & ->).
  inversion Hlast as [|? segment ? rest Hseg Hnil]; subst.
  inversion Hnil; subst.
  rewrite concat_app, last_saved_epoch_app. simpl concat. rewrite app_nil_r.
  destruct Hseg as (periodic & validate & score & answer & -> & Hp & _).
  rewrite last_saved_epoch_epoch_calls.
  rewrite (proj2 Hp (conj Hne Hdiv)). reflexivity.
Qed.

(** X5. When [start_epoch] is past [epochs] (a finished run that is
    resumed), [train] trains no epoch: it returns at once, with the
    trainer and the files as they were. *)
Theorem train_nothing_left (self : trainer) (fs : files) (last : Z) :
  epochs self = VInt last ->
  last < start_epoch self ->
  train _train_epoch _validation_epoch self fs = Return (self, fs, []).
Proof. apply train_empty_range. Qed.

(** X6. [train] never moves the trainer: when it returns, [start_epoch],
    [epochs], the two intervals, the direction of the comparison and the
    three directories are what they were, so a second call of [train]
    runs the same epochs again. *)
Theorem train_keeps_attributes (self : trainer) (fs : files) (last ci vi : Z) :
  epochs self = VInt last ->
  save_checkpoint_interval self = VInt ci ->
  validation_interval self = VInt vi ->
  1 <= vi ->
  exists (self' : trainer) (fs' : files) (calls : list call),
    train' self fs = Return (self', fs', calls) /\
    same_schedule self self' /\ same_place self self'.
Proof.
  intros Hlast Hci Hvi Hpos. unfold train. rewrite Hlast. simpl bind.
  destruct (train_loop_effects ci vi (range (start_epoch self) (last + 1)) self fs
              Hci Hvi Hpos) as (self' & fs' & calls & Hloop & Hs & Hp & _).
  now exists self', fs', calls.
Qed.

(** X7. Over a whole run of [train], [best_score] never gets worse: if it
    is not [nan] at the start, it is not [nan] at the end and the final
    value is at least the initial one when the largest score is kept, at
    most the initial one when the smallest is. *)
Theorem train_best_score_no_worse (self : trainer) (fs : files) (last ci vi : Z) :
  epochs self = VInt last ->
  save_checkpoint_interval self = VInt ci ->
  validation_interval self = VInt vi ->
  1 <= vi ->
  not_nan (best_score self) ->
  exists (self' : trainer) (fs' : files) (calls : list call),
    train' self fs = Return (self', fs', calls) /\
    not_nan (best_score self') /\
    no_worse (truthy (save_max_metric_score self)) (best_score self) (best_score self').
Proof.
  intros Hlast Hci Hvi Hpos Hnan. unfold train. rewrite Hlast. simpl bind.
  destruct (train_loop_effects ci vi (range (start_epoch self) (last + 1)) self fs
              Hci Hvi Hpos) as (self' & fs' & calls & Hloop & _ & _ & Hb & _).
  exists self', fs', calls. split; [exact Hloop | exact (Hb Hnan)].
Qed.

(** X8. [train] writes nowhere but to [latest_model.tar], [best_model.tar]
    and the files [model_<epoch>.tar] of the epochs it runs, all in the
    checkpoints directory: every other path keeps its content, and no
    file that existed before the run is removed. *)
Theorem train_writes_only_checkpoints (self : trainer) (fs : files) (last ci vi : Z) :
  epochs self = VInt last ->
  save_checkpoint_interval self = VInt ci ->
  validation_interval self = VInt vi ->
  1 <= vi ->
  exists (self' : trainer) (fs' : files) (calls : list call),
    train' self fs = Return (self', fs', calls) /\
    (forall p : string,
       ~ checkpoint_file (checkpoints_dir self) (range (start_epoch self) (last + 1)) p ->
       fs' !! p = fs !! p) /\
    (forall p : string, is_Some (fs !! p) -> is_Some (fs' !! p)).
Proof.
  intros Hlast Hci Hvi Hpos. unfold train. rewrite Hlast. simpl bind.
  destruct (train_loop_effects ci vi (range (start_epoch self) (last + 1)) self fs
              Hci Hvi Hpos) as (self' & fs' & calls & Hloop & _ & _ & _ & Ho & Hk & _).
  now exists self', fs', calls.
Qed.

(** X9. After [train], [latest_model.tar] is in step with the trainer: if
    the run saved no checkpoint the files are untouched; otherwise the
    file holds the epoch [e] of the last checkpoint saved and the final
    [best_score], so that a trainer resuming from these files starts at
    epoch [e + 1] with the best score the run ended with. *)
Theorem train_then_resume (self : trainer) (fs : files) (last ci vi : Z) :
  epochs self = VInt last ->
  save_checkpoint_interval self = VInt ci ->
  validation_interval self = VInt vi ->
  1 <= vi ->
  is_absolute (checkpoints_dir self) = true ->
  exists (self' : trainer) (fs' : files) (calls : list call),
    train' self fs = Return (self', fs', calls) /\
    match last_saved_epoch calls with
    | None => fs' = fs /\ best_score self' = best_score self
    | Some e =>
        start_epoch self <= e <= last /\
        forall fresh : trainer,
          checkpoints_dir fresh = checkpoints_dir self ->
          exists r : trainer,
            _resume_checkpoint fresh fs' = Return r /\
            start_epoch r = e + 1 /\ best_score r = best_score self'
    end.
Proof.
  intros Hlast Hci Hvi Hpos Habs. unfold train. rewrite Hlast. simpl bind.
  destruct (train_loop_effects ci vi (range (start_epoch self) (last + 1)) self fs
              Hci Hvi Hpos) as (self' & fs' & calls & Hloop & _ & _ & _ & _ & _ & Hl).
  exists self', fs', calls. split; [exact Hloop|].
  destruct (last_saved_epoch calls) as [e|]; [|exact Hl].
  destruct Hl as (He & c & Hc & Hce & Hcb).
  split; [apply elem_of_range in He; lia|].
  intros fresh Hdir.
  destruct (resume_from_latest fresh fs' _ c Habs Hdir Hc) as (r & Hr & Hs & Hb & _).
  exists r. split; [exact Hr|]. split; congruence.
Qed.

(** X10. Unlike the periodic checkpoint, validation has no guard against
    a zero interval: on a trainer whose [validation_interval] is 0 (the
    constructor refuses one), [train] raises [ZeroDivisionError] in its
    first epoch. *)
Theorem train_zero_validation_interval (self : trainer) (fs : files) (last ci : Z) :
  epochs self = VInt last ->
  save_checkpoint_interval self = VInt ci ->
  validation_interval self = VInt 0 ->
  start_epoch self <= last ->
  train _train_epoch _validation_epoch self fs = Raise ZeroDivisionError.
Proof.
  intros Hlast Hci Hvi Hle. unfold train, range. rewrite Hlast. simpl bind.
  rewrite seqZ_cons by lia. simpl train_loop. unfold train_body.
  destruct (_train_epoch (start_epoch self) (model self) (optimizer self)) as [m o].
  set (self1 := set_optimizer (set_model self m) o).
  destruct (periodic_checkpoint_due_int _train_epoch _validation_epoch self1
              (start_epoch self) ci Hci)
    as (periodic & -> & _).
  assert (Hdue : validation_due self1 (start_epoch self) = Raise ZeroDivisionError).
  { unfold validation_due. change (validation_interval self1) with (validation_interval self).
    rewrite Hvi. reflexivity. }
  simpl bind. destruct periodic; rewrite Hdue; reflexivity.
Qed.

(** X11. A run that reaches [epochs], with a periodic checkpoint due at
    that last epoch, leaves nothing to do: a trainer with the same
    [epochs] that resumes from the files of the run starts at
    [epochs + 1], and its [train] returns at once without touching the
    files. *)
Theorem train_complete_then_resume (self : trainer) (fs : files) (last ci vi : Z) :
  epochs self = VInt last ->
  save_checkpoint_interval self = VInt ci ->
  validation_interval self = VInt vi ->
  1 <= vi ->
  is_absolute (checkpoints_dir self) = true ->
  start_epoch self <= last ->
  ci <> 0 -> (ci | last) ->
  exists (self' : trainer) (fs' : files) (calls : list call),
    train' self fs = Return (self', fs', calls) /\
    forall fresh : trainer,
      checkpoints_dir fresh = checkpoints_dir self ->
      epochs fresh = VInt last ->
      exists r : trainer,
        _resume_checkpoint fresh fs' = Return r /\
        start_epoch r = last + 1 /\
        best_score r = best_score self' /\
        train' r fs' = Return (r, fs', []).
Proof.
  intros Hlast Hci Hvi Hpos Habs Hle Hne Hdiv.
  destruct (train_segments _train_epoch _validation_epoch self fs last ci vi
              Hlast Hci Hvi Hpos) as (self1 & fs1 & segments & Htrain1 & Hall).
  assert (Htrain := Htrain1). unfold train in Htrain. rewrite Hlast in Htrain.
  simpl bind in Htrain.
  destruct (train_loop_effects ci vi (range (start_epoch self) (last + 1)) self fs
              Hci Hvi Hpos) as (self' & fs' & calls & Hloop & _ & _ & _ & _ & _ & Hl).
  rewrite Hloop in Htrain. injection Htrain as -> -> ->.
  exists self1, fs1, (concat segments). split; [exact Htrain1|].
  rewrite range_snoc in Hall by exact Hle.
  rewrite (last_saved_epoch_segments ci vi _ last segments Hall Hne Hdiv) in Hl.
  destruct Hl as (_ & c & Hc & Hce & Hcb).
  intros fresh Hdir Hepochs.
  destruct (resume_from_latest fresh fs1 _ c Habs Hdir Hc) as (r & Hr & Hs & Hb & He).
  exists r. split; [exact Hr|]. split; [congruence|]. split; [congruence|].
  apply (train_empty_range r fs1 last); [congruence | lia].
Qed.

End TrainEffects.

Lemma train_nothing_left_witness :
  train (pathlib := PosixPaths.posix) example_train_epoch example_validation_epoch
    (set_start_epoch (example_trainer 2 3) 5) ∅
  = Return (set_start_epoch (example_trainer 2 3) 5, ∅, []).
Proof.
  exact (train_nothing_left (pathlib := PosixPaths.posix) example_train_epoch
           example_validation_epoch (set_start_epoch (example_trainer 2 3) 5) ∅ 4
           eq_refl ltac:(simpl; lia)).
Defined.

Lemma train_keeps_attributes_witness :
  exists self' fs' calls,
    train (pathlib := PosixPaths.posix) example_train_epoch example_validation_epoch
      (example_trainer 2 3) ∅ = Return (self', fs', calls) /\
    same_schedule (example_trainer 2 3) self' /\ same_place (example_trainer 2 3) self'.
Proof.
  exact (train_keeps_attributes (pathlib := PosixPaths.posix) example_train_epoch
           example_validation_epoch (example_trainer 2 3) ∅ 4 2 3
           eq_refl eq_refl eq_refl ltac:(lia)).
Defined.

Lemma train_best_score_no_worse_witness :
  exists self' fs' calls,
    train (pathlib := PosixPaths.posix) example_train_epoch example_validation_epoch
      (example_trainer 2 3) ∅ = Return (self', fs', calls) /\
    not_nan (best_score self') /\ no_worse true neg_infinity (best_score self').
Proof.
  exact (train_best_score_no_worse (pathlib := PosixPaths.posix) example_train_epoch
           example_validation_epoch (example_trainer 2 3) ∅ 4 2 3
           eq_refl eq_refl eq_refl ltac:(lia) eq_refl).
Defined.

Lemma train_writes_only_checkpoints_witness :
  exists self' fs' calls,
    train (pathlib := PosixPaths.posix) example_train_epoch example_validation_epoch
      (example_trainer 2 3) {[ "/exp/config.toml" := Checkpoint 0 0%float 0 0 ]}
    = Return (self', fs', calls) /\
    is_Some (fs' !! "/exp/config.toml").
Proof.
  destruct (train_writes_only_checkpoints (pathlib := PosixPaths.posix)
              example_train_epoch example_validation_epoch (example_trainer 2 3)
              {[ "/exp/config.toml" := Checkpoint 0 0%float 0 0 ]} 4 2 3
              eq_refl eq_refl eq_refl ltac:(lia))
    as (self' & fs' & calls & Htrain & _ & Hkeep).
  exists self', fs', calls. split; [exact Htrain|].
  apply Hkeep. eexists. reflexivity.
Defined.

Lemma train_then_resume_witness :
  exists self' fs' calls,
    train (pathlib := PosixPaths.posix) example_train_epoch example_validation_epoch
      (example_trainer 2 3) ∅ = Return (self', fs', calls) /\
    match last_saved_epoch calls with
    | None => fs' = ∅ /\ best_score self' = neg_infinity
    | Some e =>
        1 <= e <= 4 /\
        forall fresh : @BaseTrainer Z Z,
          checkpoints_dir fresh = "/exp/checkpoints" ->
          exists r,
            _resume_checkpoint (pathlib := PosixPaths.posix) fresh fs' = Return r /\
            start_epoch r = e + 1 /\ best_score r = best_score self'
    end.
Proof.
  exact (train_then_resume (pathlib := PosixPaths.posix) example_train_epoch
           example_validation_epoch (example_trainer 2 3) ∅ 4 2 3
           eq_refl eq_refl eq_refl ltac:(lia) eq_refl).
Defined.

Lemma train_zero_validation_interval_witness :
  train (pathlib := PosixPaths.posix) example_train_epoch example_validation_epoch
    (example_trainer 2 0) ∅ = Raise ZeroDivisionError.
Proof.
  exact (train_zero_validation_interval (pathlib := PosixPaths.posix) example_train_epoch
           example_validation_epoch (example_trainer 2 0) ∅ 4 2
           eq_refl eq_refl eq_refl ltac:(simpl; lia)).
Defined.

Lemma train_complete_then_resume_witness :
  exists self' fs' calls,
    train (pathlib := PosixPaths.posix) example_train_epoch example_validation_epoch
      (example_trainer 2 3) ∅ = Return (self', fs', calls) /\
    exists r,
      _resume_checkpoint (pathlib := PosixPaths.posix) (example_trainer 2 3) fs' = Return r /\
      start_epoch r = 5 /\
      train (pathlib := PosixPaths.posix) example_train_epoch example_validation_epoch r fs'
      = Return (r, fs', []).
Proof.
  destruct (train_complete_then_resume (pathlib := PosixPaths.posix) example_train_epoch
              example_validation_epoch (example_trainer 2 3) ∅ 4 2 3
              eq_refl eq_refl eq_refl ltac:(lia) eq_refl ltac:(simpl; lia) ltac:(lia)
              (Z.divide_factor_l 2 2))
    as (self' & fs' & calls & Htrain & Hresume).
  exists self', fs', calls. split; [exact Htrain|].
  destruct (Hresume (example_trainer 2 3) eq_refl eq_refl) as (r & Hr & Hs & _ & Ht).
  exists r. repeat split; assumption.
Defined.

(** ** The constructor on complete and on incomplete configurations *)

Section ConstructorPaths.

Context {pathlib : PathLib}.
Context {optimizer_state model_state : Type}.
Variable load_state_dict_not_strict : model_state -> model_state -> model_state.
Variable prepare_empty_dir :
  list string -> bool -> gmap string (@checkpoint optimizer_state model_state) ->
  result (gmap string (@checkpoint optimizer_state model_state)).

Local Abbreviation trainer := (@BaseTrainer optimizer_state model_state).
Local Abbreviation files := (gmap string (@checkpoint optimizer_state model_state)).
Local Abbreviation init_attributes' := (init_attributes prepare_empty_dir).
Local Abbreviation init' := (__init__ load_state_dict_not_strict prepare_empty_dir).

Ltac invert_binds H :=
  repeat match type of H with
         | bind ?m _ = Return _ =>
             let x := fresh "x" in
             let Hx := fresh "Hx" in
             apply bind_Return in H as (x & Hx & H)
         end.

(** The trainer built by [init_attributes], attribute by attribute. *)
Lemma init_attributes_result (device_count : Z) (config : value) (resume : bool)
    (net : model_state) (opt : optimizer_state) (fs : files)
    (self : trainer) (fs' : files) :
  init_attributes' device_count config resume net opt fs = Return (self, fs') ->
  optimizer self = opt /\
  model self = (if 1 <? device_count then DataParallel net else Module_ net) /\
  start_epoch self = 1 /\
  best_score self = initial_best_score (truthy (save_max_metric_score self)) /\
  checkpoints_dir self = save_dir self // "checkpoints" /\
  logs_dir self = save_dir self // "logs" /\
  is_absolute (save_dir self) = true /\
  (exists vi : Z, as_int (validation_interval self) = Return vi /\ 1 <= vi) /\
  (exists trainer_table train_table validation_table : value,
     getitem config "trainer" = Return trainer_table /\
     getitem trainer_table "train" = Return train_table /\
     getitem trainer_table "validation" = Return validation_table /\
     getitem train_table "epochs" = Return (epochs self) /\
     getitem train_table "save_checkpoint_interval" = Return (save_checkpoint_interval self) /\
     getitem validation_table "validation_interval" = Return (validation_interval self) /\
     getitem validation_table "save_max_metric_score"
       = Return (save_max_metric_score self)) /\
  prepare_empty_dir [checkpoints_dir self; logs_dir self] resume fs = Return fs'.
Proof.
  unfold init_attributes. intros H. invert_binds H.
  injection H as <- <-. simpl.
  repeat match goal with
         | Ha : getitem config "trainer" = Return ?a,
           Hb : getitem config "trainer" = Return ?b |- _ =>
             assert (a = b) by congruence; subst a; clear Ha
         end.
  match goal with
  | Hs : truediv _ ?v = Return _ |- _ =>
      unfold truediv in Hs; destruct v; try discriminate; injection Hs as <-
  end.
  match goal with
  | Hi : as_int ?v = Return ?i, Ha : assert (1 <=? ?i) _ = Return _ |- _ =>
      assert (1 <= i)
        by (unfold assert in Ha; destruct (Z.leb_spec 1 i); [assumption | discriminate])
  end.
  repeat split; try assumption; try reflexivity.
  - apply joinpath_is_absolute, absolute_is_absolute.
  - eauto.
  - eauto 10.
Qed.

Lemma preload_model_result (self r : trainer) (fs : files) (model_path : string) :
  _preload_model load_state_dict_not_strict self fs model_path = Return r ->
  exists c : checkpoint,
    fs !! absolute (expanduser model_path) = Some c /\
    r = set_model self
          match model self with
          | DataParallel module =>
              DataParallel (load_state_dict_not_strict module (ckpt_model c))
          | Module_ params =>
              Module_ (load_state_dict_not_strict params (ckpt_model c))
          end.
Proof.
  unfold _preload_model, exists_, torch_load.
  destruct (fs !! absolute (expanduser model_path)) as [c|] eqn:E.
  - rewrite bool_decide_eq_true_2 by (eexists; reflexivity). simpl.
    destruct (model self); intros [= <-]; exists c; split; reflexivity.
  - rewrite bool_decide_eq_false_2 by (intros [? [=]]). discriminate.
Qed.



(** X13. With [resume] off and an empty (false)
    [config["meta"]["preloaded_model_path"]], the constructor returns the
    trainer as its attributes were set: nothing is loaded, the
    top-level ["preloaded_model_path"] is not even read, training starts
    at epoch 1 from the worst [best_score], with the optimizer and the
    network it was given, the network wrapped in [DataParallel] exactly
    when there is more than one GPU. *)
Theorem init_fresh_start (device_count : Z) (config meta preloaded : value)
    (net : model_state) (opt : optimizer_state) (fs : files)
    (self : trainer) (fs' : files) :
  init_attributes' device_count config false net opt fs = Return (self, fs') ->
  getitem config "meta" = Return meta ->
  getitem meta "preloaded_model_path" = Return preloaded ->
  truthy preloaded = false ->
  init' device_count config false net opt fs = Return (self, fs') /\
  start_epoch self = 1 /\
  best_score self = initial_best_score (truthy (save_max_metric_score self)) /\
  optimizer self = opt /\
  model self = (if 1 <? device_count then DataParallel net else Module_ net).
Proof.
  intros Hattr Hmeta Hpre Hfalse.
  destruct (init_attributes_result _ _ _ _ _ _ _ _ Hattr)
    as (Ho & Hm & Hs & Hb & _).
  split; [|tauto].
  unfold __init__. rewrite Hattr. simpl bind. rewrite Hmeta. simpl bind.
  rewrite Hpre. simpl bind. rewrite Hfalse. reflexivity.
Qed.

(** X14. With [resume] on and a model to preload, the constructor first
    resumes, then preloads: the counters and the optimizer are those of
    [latest_model.tar], while the parameters of the network are those of
    the preloaded file merged into the resumed ones.  The file preloaded
    is the one named by the top-level entry ["preloaded_model_path"];
    the entry of the table ["meta"] only switches preloading on. *)
Theorem init_resume_then_preload (device_count : Z) (items : gmap string value)
    (meta preloaded : value) (path : string) (net : model_state)
    (opt : optimizer_state) (fs : files) (self0 : trainer) (fs' : files)
    (latest pretrained : checkpoint) :
  init_attributes' device_count (VDict items) true net opt fs = Return (self0, fs') ->
  fs' !! latest_model_path self0 = Some latest ->
  items !! "meta" = Some meta ->
  getitem meta "preloaded_model_path" = Return preloaded ->
  truthy preloaded = true ->
  items !! "preloaded_model_path" = Some (VStr path) ->
  fs' !! absolute (expanduser (Path path)) = Some pretrained ->
  exists self : trainer,
    init' device_count (VDict items) true net opt fs = Return (self, fs') /\
    start_epoch self = ckpt_epoch latest + 1 /\
    best_score self = ckpt_best_score latest /\
    optimizer self = ckpt_optimizer latest /\
    module_state (model self)
    = load_state_dict_not_strict (ckpt_model latest) (ckpt_model pretrained) /\
    same_wrapper (model self0) (model self).
Proof.
  intros Hattr Hlatest Hmeta Hpre Htrue Htop Hfile.
  destruct (resume_checkpoint_present self0 fs' latest Hlatest) as [self1 Hres].
  destruct (resume_checkpoint_result self0 self1 fs' Hres) as (c & Hc & Hself1).
  rewrite Hlatest in Hc. injection Hc as <-.
  destruct (preload_model_present load_state_dict_not_strict self1 fs' (Path path)
              pretrained Hfile) as [self Hself].
  destruct (preload_model_result self1 self fs' (Path path) Hself) as (c & Hc & Hs).
  rewrite Hfile in Hc. injection Hc as <-.
  exists self. split.
  - unfold __init__. rewrite Hattr. simpl bind. rewrite Hres. simpl bind.
    rewrite Hmeta. simpl bind. rewrite Hpre. simpl bind. rewrite Htrue.
    simpl getitem. rewrite Htop. simpl bind. rewrite Hself. reflexivity.
  - rewrite Hs, Hself1. simpl. destruct (model self0); simpl; repeat split.
Qed.

Lemma getitem_table (v : value) (entries : list (string * value)) (k : string)
    (x : value) :
  table_with v entries -> (k, x) ∈ entries -> getitem v k = Return x.
Proof.
  intros (items & -> & Hall) Hin. simpl. now rewrite (Hall k x Hin).
Qed.

(** X15. A configuration that has the entries read before the check and
    an integer [validation_interval] below 1 is refused: the constructor
    raises the [AssertionError] of [validation_interval >= 1] before it
    prepares any directory, whatever [resume] and the files are. *)
Theorem init_rejects_validation_interval (device_count : Z)
    (config meta acoustic trainer_table train_table validation_table : value)
    (k u n_fft hop win e ci clip sm : value) (vi : Z) (resume : bool)
    (net : model_state) (opt : optimizer_state) (fs : files) :
  table_with config [("meta", meta); ("acoustic", acoustic); ("trainer", trainer_table)] ->
  table_with meta [("keep_reproducibility", k); ("use_amp", u)] ->
  table_with acoustic [("n_fft", n_fft); ("hop_length", hop); ("win_length", win)] ->
  table_with trainer_table [("train", train_table); ("validation", validation_table)] ->
  table_with train_table
    [("epochs", e); ("save_checkpoint_interval", ci); ("clip_grad_norm_value", clip)] ->
  table_with validation_table
    [("validation_interval", VInt vi); ("save_max_metric_score", sm)] ->
  vi < 1 ->
  init' device_count config resume net opt fs = Raise (AssertionError "").
Proof.
  intros Hconfig Hmeta Hacoustic Htrainer Htrain Hvalidation Hvi.
  unfold __init__, init_attributes.
  rewrite !(getitem_table config _ "meta" meta Hconfig) by set_solver.
  rewrite !(getitem_table config _ "acoustic" acoustic Hconfig) by set_solver.
  rewrite !(getitem_table config _ "trainer" trainer_table Hconfig) by set_solver.
  cbn [bind].
  rewrite (getitem_table meta _ "keep_reproducibility" k Hmeta) by set_solver.
  rewrite (getitem_table meta _ "use_amp" u Hmeta) by set_solver.
  rewrite (getitem_table acoustic _ "n_fft" n_fft Hacoustic) by set_solver.
  rewrite (getitem_table acoustic _ "hop_length" hop Hacoustic) by set_solver.
  rewrite (getitem_table acoustic _ "win_length" win Hacoustic) by set_solver.
  rewrite (getitem_table trainer_table _ "train" train_table Htrainer) by set_solver.
  rewrite (getitem_table trainer_table _ "validation" validation_table Htrainer)
    by set_solver.
  cbn [bind].
  rewrite (getitem_table train_table _ "epochs" e Htrain) by set_solver.
  rewrite (getitem_table train_table _ "save_checkpoint_interval" ci Htrain) by set_solver.
  rewrite (getitem_table train_table _ "clip_grad_norm_value" clip Htrain) by set_solver.
  rewrite (getitem_table validation_table _ "validation_interval" (VInt vi) Hvalidation)
    by set_solver.
  rewrite (getitem_table validation_table _ "save_max_metric_score" sm Hvalidation)
    by set_solver.
  cbn [bind as_int].
  rewrite (proj2 (Z.leb_gt 1 vi)) by lia. reflexivity.
Qed.

(** X16. The constructor reads the tables of the configuration in the
    order ["meta"], ["acoustic"], ["trainer"], and the entries of a table
    before the next table.  A configuration without ["meta"] raises
    [KeyError("meta")].  One whose ["meta"] has no [keep_reproducibility]
    raises [KeyError("keep_reproducibility")], whatever else is missing.
    One whose ["meta"] holds [keep_reproducibility] and [use_amp] and
    that has no ["acoustic"] raises [KeyError("acoustic")].  One that
    holds these, and ["acoustic"] with [n_fft], [hop_length] and
    [win_length], and that has no ["trainer"] raises
    [KeyError("trainer")].  A configuration that is not a table at all
    raises [TypeError]. *)
Theorem init_missing_table (device_count : Z) (resume : bool)
    (net : model_state) (opt : optimizer_state) (fs : files) :
  (forall items : gmap string value,
     items !! "meta" = None ->
     init' device_count (VDict items) resume net opt fs = Raise (KeyError "meta")) /\
  (forall items entries : gmap string value,
     items !! "meta" = Some (VDict entries) ->
     entries !! "keep_reproducibility" = None ->
     init' device_count (VDict items) resume net opt fs
     = Raise (KeyError "keep_reproducibility")) /\
  (forall (items : gmap string value) (meta k u : value),
     items !! "meta" = Some meta ->
     table_with meta [("keep_reproducibility", k); ("use_amp", u)] ->
     items !! "acoustic" = None ->
     init' device_count (VDict items) resume net opt fs = Raise (KeyError "acoustic")) /\
  (forall (items : gmap string value) (meta acoustic k u n_fft hop win : value),
     items !! "meta" = Some meta ->
     table_with meta [("keep_reproducibility", k); ("use_amp", u)] ->
     items !! "acoustic" = Some acoustic ->
     table_with acoustic [("n_fft", n_fft); ("hop_length", hop); ("win_length", win)] ->
     items !! "trainer" = None ->
     init' device_count (VDict items) resume net opt fs = Raise (KeyError "trainer")) /\
  (forall config : value,
     (forall items, config <> VDict items) ->
     init' device_count config resume net opt fs = Raise TypeError).
Proof.
  repeat apply conj.
  - intros items Hnone. unfold __init__, init_attributes. simpl. now rewrite Hnone.
  - intros items entries Hmeta Hnone.
    unfold __init__, init_attributes. cbn [getitem]. rewrite Hmeta.
    cbn [bind getitem]. now rewrite Hnone.
  - intros items meta k u Hmeta Htable Hnone.
    unfold __init__, init_attributes. cbn [getitem]. rewrite Hmeta, Hnone. cbn [bind].
    rewrite (getitem_table meta _ "keep_reproducibility" k Htable) by set_solver.
    rewrite (getitem_table meta _ "use_amp" u Htable) by set_solver.
    reflexivity.
  - intros items meta acoustic k u n_fft hop win Hmeta Htable Hac Hatable Hnone.
    unfold __init__, init_attributes. cbn [getitem]. rewrite Hmeta, Hac, Hnone. cbn [bind].
    rewrite (getitem_table meta _ "keep_reproducibility" k Htable) by set_solver.
    rewrite (getitem_table meta _ "use_amp" u Htable) by set_solver.
    rewrite (getitem_table acoustic _ "n_fft" n_fft Hatable) by set_solver.
    rewrite (getitem_table acoustic _ "hop_length" hop Hatable) by set_solver.
    rewrite (getitem_table acoustic _ "win_length" win Hatable) by set_solver.
    reflexivity.
  - intros config Hnot. unfold __init__, init_attributes.
    destruct config as [| | |items]; try reflexivity.
    now destruct (Hnot items).
Qed.

End ConstructorPaths.

Ltac table_entries :=
  eexists; split; [reflexivity|];
  let k := fresh "k" in
  let x := fresh "x" in
  let Hin := fresh "Hin" in
  intros k x Hin;
  repeat (apply elem_of_cons in Hin as [Hin|Hin];
          [injection Hin as -> ->; reflexivity|]);
  inversion Hin.


Lemma init_fresh_start_witness :
  exists self fs',
    __init__ (pathlib := PosixPaths.posix) example_load_state_dict_not_strict
      example_prepare_empty_dir 2 (VDict example_items_fresh) false 22 0 ∅
    = Return (self, fs') /\
    start_epoch self = 1 /\ best_score self = neg_infinity /\ model self = DataParallel 22.
Proof.
  destruct (init_attributes (pathlib := PosixPaths.posix) example_prepare_empty_dir 2
              (VDict example_items_fresh) false 22 0 ∅)
    as [[self fs']|e] eqn:H; [|vm_compute in H; discriminate].
  exists self, fs'.
  destruct (init_fresh_start (pathlib := PosixPaths.posix)
              example_load_state_dict_not_strict example_prepare_empty_dir 2
              (VDict example_items_fresh) _ (VStr "") 22 0 ∅ self fs' H
              eq_refl eq_refl eq_refl) as (Hinit & Hs & Hb & _ & Hm).
  split; [exact Hinit|]. split; [exact Hs|]. split; [|exact Hm].
  rewrite Hb. vm_compute in H. injection H as <- <-. reflexivity.
Defined.

Lemma init_resume_then_preload_witness :
  exists self,
    __init__ (pathlib := PosixPaths.posix) Z.add example_prepare_empty_dir 1
      (VDict example_items_preload) true 0 0 example_files
    = Return (self, example_files) /\
    start_epoch self = 8 /\ best_score self = 0.5%float /\ optimizer self = 11 /\
    module_state (model self) = 63.
Proof.
  pose (self0 := Trainer 0 (Module_ 0) (VInt 100) (VInt 10) (VInt 10) (VInt 5) (VBool true)
                   1 neg_infinity "/home/user/experiments/fullsubnet"
                   "/home/user/experiments/fullsubnet/checkpoints"
                   "/home/user/experiments/fullsubnet/logs" : @BaseTrainer Z Z).
  assert (H : init_attributes (pathlib := PosixPaths.posix) example_prepare_empty_dir 1
                (VDict example_items_preload) true 0 0 example_files
              = Return (self0, example_files)) by reflexivity.
  destruct (init_resume_then_preload (pathlib := PosixPaths.posix) Z.add
              example_prepare_empty_dir 1 example_items_preload example_meta
              (VStr "pretrained.tar") "pretrained.tar" 0 0 example_files _ _
              (Checkpoint 7 0.5%float 11 22) (Checkpoint 90 0.75%float 6 41)
              H eq_refl eq_refl eq_refl eq_refl eq_refl eq_refl)
    as (self & Hinit & Hs & Hb & Ho & Hm & _).
  exists self. repeat split; assumption.
Defined.

Lemma init_rejects_validation_interval_witness :
  __init__ (pathlib := PosixPaths.posix) example_load_state_dict_not_strict
    example_prepare_empty_dir 1 (example_config 0) true 22 0 ∅
  = Raise (AssertionError "").
Proof.
  apply (init_rejects_validation_interval (pathlib := PosixPaths.posix)
           example_load_state_dict_not_strict example_prepare_empty_dir 1
           (example_config 0) example_meta example_acoustic (example_trainer_table 0)
           example_train_table (example_validation_table 0)
           (VBool false) (VBool false) (VInt 512) (VInt 256) (VInt 512)
           (VInt 100) (VInt 10) (VInt 10) (VBool true) 0 true 22 0 ∅);
    try table_entries.
  lia.
Defined.

(** ** Batches of unequal lengths *)

Section MetricsBatches.

Context {audio : Type}.
Variable REGISTERED_METRICS : gmap string (audio -> audio -> float).
Variable np_mean : list float -> float.
Variable transform_pesq_range : float -> float.

Lemma zip_take_r {A B : Type} (l : list A) (k : list B) :
  zip l (take (length l) k) = zip l k.
Proof.
  revert k. induction l as [|a l IH]; intros [|b k]; simpl; try reflexivity.
  now rewrite IH.
Qed.

Lemma Parallel_take (n_jobs : Z) (metric : audio -> audio -> float)
    (refs ests : list audio) :
  Parallel n_jobs metric refs (take (length refs) ests) = Parallel n_jobs metric refs ests.
Proof. unfold Parallel. now rewrite zip_take_r. Qed.

Lemma metrics_loop_take (noisy_list clean_list enhanced_list : list audio)
    (metrics_list : list string) (epoch num_workers : Z) (mark : string) :
  forall acc : float * float * list scalars,
    metrics_loop REGISTERED_METRICS np_mean transform_pesq_range
      (take (length clean_list) noisy_list) clean_list
      (take (length clean_list) enhanced_list) metrics_list epoch num_workers mark acc
    = metrics_loop REGISTERED_METRICS np_mean transform_pesq_range
        noisy_list clean_list enhanced_list metrics_list epoch num_workers mark acc.
Proof.
  induction metrics_list as [|name rest IH]; intros [[stoi_mean wb_pesq_mean] written];
    [reflexivity|].
  simpl. destruct (REGISTERED_METRICS !! name) as [metric|]; [|reflexivity].
  simpl. rewrite !Parallel_take.
  destruct (Parallel num_workers metric clean_list noisy_list) as [score_on_noisy|];
    [|reflexivity].
  destruct (Parallel num_workers metric clean_list enhanced_list) as [score_on_enhanced|];
    [|reflexivity].
  apply IH.
Qed.

(** X17. The batches are paired with [zip]: the noisy and the enhanced
    waveforms beyond the number of clean references are silently left
    out.  [metrics_visualization] returns the same score and hands the
    same scalars to the writer as on the batches cut to the length of
    [clean_list], and raises the same error when it raises. *)
Theorem metrics_visualization_ignores_surplus
    (noisy_list clean_list enhanced_list : list audio) (metrics_list : list string)
    (epoch num_workers : Z) (mark : string) :
  metrics_visualization REGISTERED_METRICS np_mean transform_pesq_range
    noisy_list clean_list enhanced_list metrics_list epoch num_workers mark
  = metrics_visualization REGISTERED_METRICS np_mean transform_pesq_range
      (take (length clean_list) noisy_list) clean_list
      (take (length clean_list) enhanced_list) metrics_list epoch num_workers mark.
Proof.
  unfold metrics_visualization. now rewrite metrics_loop_take.
Qed.

End MetricsBatches.

Example metrics_visualization_surplus_example :
  metrics_visualization example_metrics example_mean example_transform_pesq_range
    [0.25; 0.5; 100]%float [1; 0.5]%float [0.5; 0.5; 100; 200]%float
    ["STOI"; "WB_PESQ"] 3 10 "Clean"
  = metrics_visualization example_metrics example_mean example_transform_pesq_range
      [0.25; 0.5]%float [1; 0.5]%float [0.5; 0.5]%float ["STOI"; "WB_PESQ"] 3 10 "Clean".
Proof. vm_compute. reflexivity. Qed.

(** ** The names of the per-epoch files *)

Lemma epoch_file_name_width_0_9999 :
  forallb (fun e => Nat.eqb (String.length (epoch_file_name e)) 14) (seqZ 0 10000) = true.
Proof. vm_compute. reflexivity. Qed.

(** X18. The per-epoch file is named after its epoch without loss: two
    epochs have the same file name only if they are equal, also beyond
    four digits and below zero; the name is a plain file name, never
    [latest_model.tar] nor [best_model.tar]; and for the epochs 0 to 9999
    all names have the same 14 characters, ["model_"], four digits and
    [".tar"]. *)
Theorem epoch_file_name_faithful :
  (forall e1 e2 : Z, epoch_file_name e1 = epoch_file_name e2 <-> e1 = e2) /\
  (forall e : Z,
     is_filename (epoch_file_name e) = true /\
     epoch_file_name e <> "latest_model.tar" /\
     epoch_file_name e <> "best_model.tar") /\
  (forall e : Z, 0 <= e <= 9999 -> String.length (epoch_file_name e) = 14%nat).
Proof.
  split; [|split].
  - intros e1 e2. split; [apply FileNames.epoch_file_name_inj | now intros ->].
  - intros e. split; [apply FileNames.epoch_file_name_is_filename|].
    split; [apply FileNames.epoch_file_name_not_latest
           | apply FileNames.epoch_file_name_not_best].
  - intros e He.
    pose proof epoch_file_name_width_0_9999 as Hall.
    rewrite forallb_forall in Hall.
    apply Nat.eqb_eq, Hall, list_elem_of_In, elem_of_seqZ. lia.
Qed.

(** ** The best checkpoint after a run *)

Section TrainBest.

Context {pathlib : PathLib}.
Context {optimizer_state model_state : Type}.
Variable _train_epoch :
  Z -> @nn_model model_state -> optimizer_state -> @nn_model model_state * optimizer_state.
Variable _validation_epoch : Z -> @nn_model model_state -> float.

Local Abbreviation trainer := (@BaseTrainer optimizer_state model_state).
Local Abbreviation files := (gmap string (@checkpoint optimizer_state model_state)).

Lemma last_best_epoch_app (calls calls' : list call) :
  last_best_epoch (calls ++ calls') =
  match last_best_epoch calls' with
  | Some e => Some e
  | None => last_best_epoch calls
  end.
Proof.
  induction calls as [|c calls IH]; simpl.
  - destruct (last_best_epoch calls'); reflexivity.
  - rewrite IH. destruct (last_best_epoch calls'); reflexivity.
Qed.

Lemma last_best_epoch_epoch_calls (epoch : Z) (periodic validate : bool) (score : float)
    (answer : bool) :
  last_best_epoch (epoch_calls epoch periodic validate score answer)
  = if (validate && answer)%bool then Some epoch else None.
Proof. destruct periodic, validate, answer; reflexivity. Qed.

Lemma lookup_best_after_save (self : trainer) (fs : files) (epoch : Z) (is_best : bool) :
  _save_checkpoint self fs epoch is_best !! (checkpoints_dir self // "best_model.tar")
  = if is_best then Some (state_dict_of self epoch)
    else fs !! (checkpoints_dir self // "best_model.tar").
Proof.
  rewrite save_checkpoint_unfold. cbv zeta.
  pose proof (epoch_file_ne_best (checkpoints_dir self) epoch).
  pose proof (best_ne_latest (checkpoints_dir self)).
  destruct is_best; rewrite ?lookup_insert; repeat case_decide; congruence.
Qed.

Lemma train_body_best (epoch : Z) (self : trainer) (fs : files) (ci vi : Z) :
  save_checkpoint_interval self = VInt ci ->
  validation_interval self = VInt vi -> 1 <= vi ->
  exists (self' : trainer) (fs' : files) (segment : list call),
    train_body _train_epoch _validation_epoch epoch self fs = Return (self', fs', segment) /\
    same_schedule self self' /\ checkpoints_dir self' = checkpoints_dir self /\
    match last_best_epoch segment with
    | None =>
        fs' !! (checkpoints_dir self // "best_model.tar")
        = fs !! (checkpoints_dir self // "best_model.tar") /\
        best_score self' = best_score self
    | Some e =>
        e = epoch /\
        exists c : checkpoint,
          fs' !! (checkpoints_dir self // "best_model.tar") = Some c /\
          ckpt_epoch c = epoch /\ ckpt_best_score c = best_score self'
    end.
Proof.
  intros Hci Hvi Hpos.
  destruct (_train_epoch epoch (model self) (optimizer self)) as [m o] eqn:Hmo.
  pose proof (train_body_closed _train_epoch _validation_epoch epoch self fs ci vi m o
                Hci Hvi Hpos Hmo) as Hclosed.
  cbv zeta in Hclosed.
  set (self1 := set_optimizer (set_model self m) o) in *.
  set (score := _validation_epoch epoch (model self1)) in *.
  set (flag := truthy (save_max_metric_score self1)) in *.
  set (periodic := (negb (ci =? 0) && (epoch mod ci =? 0))%bool) in *.
  clearbody periodic.
  assert (Hperiodic :
            (if periodic then _save_checkpoint self1 fs epoch false else fs)
              !! (checkpoints_dir self // "best_model.tar")
            = fs !! (checkpoints_dir self // "best_model.tar")).
  { destruct periodic; [|reflexivity].
    exact (lookup_best_after_save self1 fs epoch false). }
  destruct (is_best_epoch_cases self1 score flag) as [[Hr _] | Hr];
    rewrite Hr in Hclosed; simpl fst in Hclosed; simpl snd in Hclosed.
  - destruct (epoch mod vi =? 0) eqn:Ev; simpl andb in Hclosed; cbv iota in Hclosed;
      do 3 eexists; (split; [exact Hclosed|]);
      (split; [repeat split|]); (split; [reflexivity|]);
      rewrite last_best_epoch_epoch_calls; simpl andb; cbv iota.
    + split; [reflexivity|]. eexists.
      split; [exact (lookup_best_after_save (set_best_score self1 score) _ epoch true)|].
      split; reflexivity.
    + split; [exact Hperiodic | reflexivity].
  - assert (Hsame : (if epoch mod vi =? 0 then self1 else self1) = self1)
      by (destruct (epoch mod vi =? 0); reflexivity).
    rewrite andb_false_r, Hsame in Hclosed.
    do 3 eexists. split; [exact Hclosed|].
    split; [repeat split|]. split; [reflexivity|].
    rewrite last_best_epoch_epoch_calls, andb_false_r.
    split; [exact Hperiodic | reflexivity].
Qed.

Lemma train_loop_best (ci vi : Z) (epoch_range : list Z) :
  forall (self : trainer) (fs : files),
    save_checkpoint_interval self = VInt ci ->
    validation_interval self = VInt vi -> 1 <= vi ->
    exists (self' : trainer) (fs' : files) (calls : list call),
      train_loop _train_epoch _validation_epoch epoch_range self fs
        = Return (self', fs', calls) /\
      match last_best_epoch calls with
      | None =>
          fs' !! (checkpoints_dir self // "best_model.tar")
          = fs !! (checkpoints_dir self // "best_model.tar") /\
          best_score self' = best_score self
      | Some e =>
          e ∈ epoch_range /\
          exists c : checkpoint,
            fs' !! (checkpoints_dir self // "best_model.tar") = Some c /\
            ckpt_epoch c = e /\ ckpt_best_score c = best_score self'
      end.
Proof.
  induction epoch_range as [|epoch rest IH]; intros self fs Hci Hvi Hpos.
  - exists self, fs, []. split; [reflexivity|]. split; reflexivity.
  - destruct (train_body_best epoch self fs ci vi Hci Hvi Hpos)
      as (self1 & fs1 & segment & Hbody & (_ & Hci1 & Hvi1 & _) & Hdir1 & Hlast1).
    rewrite Hci in Hci1. rewrite Hvi in Hvi1.
    destruct (IH self1 fs1 Hci1 Hvi1 Hpos) as (self2 & fs2 & calls & Hloop & Hlast2).
    rewrite Hdir1 in Hlast2.
    exists self2, fs2, (segment ++ calls)%list.
    split; [simpl train_loop; rewrite Hbody; simpl bind; rewrite Hloop; reflexivity|].
    rewrite last_best_epoch_app.
    destruct (last_best_epoch calls) as [e|].
    + destruct Hlast2 as (He & c & Hc & Hce & Hcb).
      split; [now right|]. now exists c.
    + destruct Hlast2 as [Hfs2 Hb2].
      destruct (last_best_epoch segment) as [e|].
      * destruct Hlast1 as (-> & c & Hc & Hce & Hcb).
        split; [now left|]. exists c. repeat split; congruence.
      * destruct Hlast1 as [Hfs1 Hb1]. split; congruence.
Qed.

(** X19. After [train], [best_model.tar] is in step with [best_score]:
    if the run found no best epoch, the file and [best_score] are what
    they were; otherwise the file holds the record of the last best
    epoch of the run, and the best score stored in it is the
    [best_score] the trainer ends with. *)
Theorem train_best_model_in_step (self : trainer) (fs : files) (last ci vi : Z) :
  epochs self = VInt last ->
  save_checkpoint_interval self = VInt ci ->
  validation_interval self = VInt vi ->
  1 <= vi ->
  exists (self' : trainer) (fs' : files) (calls : list call),
    train _train_epoch _validation_epoch self fs = Return (self', fs', calls) /\
    match last_best_epoch calls with
    | None =>
        fs' !! (checkpoints_dir self // "best_model.tar")
        = fs !! (checkpoints_dir self // "best_model.tar") /\
        best_score self' = best_score self
    | Some e =>
        start_epoch self <= e <= last /\
        exists c : checkpoint,
          fs' !! (checkpoints_dir self // "best_model.tar") = Some c /\
          ckpt_epoch c = e /\ ckpt_best_score c = best_score self'
    end.
Proof.
  intros Hlast Hci Hvi Hpos. unfold train. rewrite Hlast. simpl bind.
  destruct (train_loop_best ci vi (range (start_epoch self) (last + 1)) self fs
              Hci Hvi Hpos) as (self' & fs' & calls & Hloop & Hl).
  exists self', fs', calls. split; [exact Hloop|].
  destruct (last_best_epoch calls) as [e|]; [|exact Hl].
  destruct Hl as (He & Hc). split; [|exact Hc].
  apply elem_of_range in He. lia.
Qed.

End TrainBest.

Lemma train_best_model_in_step_witness :
  exists self' fs' calls,
    train (pathlib := PosixPaths.posix) example_train_epoch example_validation_epoch
      (example_trainer 2 3) ∅ = Return (self', fs', calls) /\
    match last_best_epoch calls with
    | None =>
        fs' !! "/exp/checkpoints/best_model.tar" = None /\
        best_score self' = neg_infinity
    | Some e =>
        1 <= e <= 4 /\
        exists c,
          fs' !! "/exp/checkpoints/best_model.tar" = Some c /\
          ckpt_epoch c = e /\ ckpt_best_score c = best_score self'
    end.
Proof.
  exact (train_best_model_in_step (pathlib := PosixPaths.posix) example_train_epoch
           example_validation_epoch (example_trainer 2 3) ∅ 4 2 3
           eq_refl eq_refl eq_refl ltac:(lia)).
Defined.
